(** * weatherTask.ts: request sequencing, day/hour windowing, unit resolution

    A shallow embedding of [src/Weather-app/weatherTask.ts].

    - [DateTime]  : the part of the ECMAScript [Date] built-in the program
                    relies on (the date-time string format, time values,
                    [getHours]).
    - [Windower]  : [getHourlyForDay], the display-hour label, [renderHourly].
    - [Units]     : [getUnitParams], [getCurrentSystem], [updateSwitchButton].
    - [Sequencer] : [fetchTodayWeather] as an event-driven transition system
                    whose in-flight tasks suspend at every [await].
    - [Calendar]  : [getWeekday], [populateDaysDropdown] and the day menu,
                    the hour index of [updateInfoCards].
    - [Dropdown]  : the units dropdown as [savePreferences],
                    [restorePreferences] and the switch button see it.
    - [Handlers]  : the remaining click handlers, the states the page can
                    reach, and what a settlement can do. *)

From Stdlib Require Import ZArith String Ascii DecimalString.
From stdpp Require Import gmap strings list.

Local Open Scope Z_scope.

(** Numeric payload fields (temperatures, coordinates, weather codes) are
    carried through the program without being computed on by anything
    modelled below; they are kept as integers. *)
Definition number : Type := Z.

(* ===================================================================== *)
(** ** The [Date] built-in *)
(* ===================================================================== *)

Module DateTime.

(** Time values are integral milliseconds since the epoch; [None] is the
    time value NaN of an Invalid Date. *)
Definition Date : Type := option Z.

Definition msPerSecond : Z := 1000.
Definition msPerMinute : Z := 60000.
Definition msPerHour : Z := 3600000.
Definition msPerDay : Z := 86400000.

Definition Day (t : Z) : Z := t / msPerDay.
Definition TimeWithinDay (t : Z) : Z := t mod msPerDay.

Definition DayFromYear (y : Z) : Z :=
  365 * (y - 1970) + (y - 1969) / 4 - (y - 1901) / 100 + (y - 1601) / 400.

Definition InLeapYear (y : Z) : bool :=
  (y mod 4 =? 0) && (negb (y mod 100 =? 0) || (y mod 400 =? 0)).

(** Days of the year before month [m] (0 = January). *)
Definition daysBeforeMonth (leap : bool) (m : Z) : Z :=
  let l := if leap then 1 else 0 in
  if m =? 0 then 0 else if m =? 1 then 31 else if m =? 2 then 59 + l
  else if m =? 3 then 90 + l else if m =? 4 then 120 + l
  else if m =? 5 then 151 + l else if m =? 6 then 181 + l
  else if m =? 7 then 212 + l else if m =? 8 then 243 + l
  else if m =? 9 then 273 + l else if m =? 10 then 304 + l
  else 334 + l.

Definition MakeDay (year month date : Z) : Z :=
  let ym := year + month / 12 in
  let mn := month mod 12 in
  DayFromYear ym + daysBeforeMonth (InLeapYear ym) mn + date - 1.

Definition MakeTime (hour min sec ms : Z) : Z :=
  hour * msPerHour + min * msPerMinute + sec * msPerSecond + ms.

Definition MakeDate (day time : Z) : Z := day * msPerDay + time.

Definition TimeClip (t : Z) : Date :=
  if Z.abs t >? 8640000000000000 then None else Some t.

(** The local time zone is a fixed offset [tza] (milliseconds east of
    UTC) of the host; daylight-saving transitions are not modelled. *)
Definition LocalTime (tza t : Z) : Z := t + tza.
Definition UTC (tza t : Z) : Z := t - tza.

Definition HourFromTime (t : Z) : Z := (t / msPerHour) mod 24.

(** *** The date-time string format

    [YYYY[-MM[-DD]]] or [±YYYYYY[-MM[-DD]]], optionally followed by
    [THH:mm[:ss[.sss]]] and then by nothing (local time), [Z], or
    [±HH:mm].  A date-only form is UTC.  For a string outside this
    format an engine "may fall back to any implementation-specific
    heuristics": what it then answers is a parameter of the host
    ([legacy], below). *)

Definition digit (c : ascii) : option Z :=
  let n := Z.of_N (N_of_ascii c) in
  if (48 <=? n) && (n <=? 57) then Some (n - 48) else None.

Fixpoint digits (k : nat) (s : list ascii) : option (Z * list ascii) :=
  match k with
  | O => Some (0, s)
  | S k' =>
    match s with
    | [] => None
    | c :: s' =>
      match digit c, digits k' s' with
      | Some d, Some (v, r) => Some (d * 10 ^ Z.of_nat k' + v, r)
      | _, _ => None
      end
    end
  end.

(** [expect c s]: the rest of [s] after a leading [c], if [s] starts
    with [c]. *)
Definition expect (c : ascii) (s : list ascii) : option (list ascii) :=
  match s with
  | x :: r => if Ascii.eqb x c then Some r else None
  | [] => None
  end.

Definition parse_year (s : list ascii) : option (Z * list ascii) :=
  match expect "+" s with
  | Some r => digits 6 r
  | None =>
    match expect "-" s with
    | Some r =>
      match digits 6 r with
      | Some (y, r') => if y =? 0 then None else Some (- y, r')
      | None => None
      end
    | None => digits 4 s
    end
  end.

(** Year, month (1-12), day of month (1-31), and the unread rest. *)
Definition parse_date (s : list ascii) : option (Z * Z * Z * list ascii) :=
  match parse_year s with
  | None => None
  | Some (y, r1) =>
    match expect "-" r1 with
    | None => Some (y, 1, 1, r1)
    | Some r2 =>
      match digits 2 r2 with
      | None => None
      | Some (m, r3) =>
        if (1 <=? m) && (m <=? 12) then
          match expect "-" r3 with
          | None => Some (y, m, 1, r3)
          | Some r4 =>
            match digits 2 r4 with
            | None => None
            | Some (d, r5) =>
              if (1 <=? d) && (d <=? 31) then Some (y, m, d, r5) else None
            end
          end
        else None
      end
    end
  end.

Definition parse_hm (s : list ascii) : option (Z * Z * list ascii) :=
  match digits 2 s with
  | None => None
  | Some (h, r0) =>
    match expect ":" r0 with
    | None => None
    | Some r1 =>
      match digits 2 r1 with
      | Some (m, r2) => Some (h, m, r2)
      | None => None
      end
    end
  end.

Definition parse_sec (s : list ascii) : option (Z * Z * list ascii) :=
  match expect ":" s with
  | None => Some (0, 0, s)
  | Some r1 =>
    match digits 2 r1 with
    | None => None
    | Some (sec, r2) =>
      match expect "." r2 with
      | None => Some (sec, 0, r2)
      | Some r3 =>
        match digits 3 r3 with
        | Some (ms, r4) => Some (sec, ms, r4)
        | None => None
        end
      end
    end
  end.

Inductive zone := Local | Offset (ms : Z).

Definition parse_zone (s : list ascii) : option zone :=
  match s with
  | [] => Some Local
  | c :: r =>
    if Ascii.eqb c "Z" then
      match r with [] => Some (Offset 0) | _ :: _ => None end
    else if (Ascii.eqb c "+" || Ascii.eqb c "-")%bool then
      match parse_hm r with
      | Some (h, m, []) =>
        if (h <=? 23) && (m <=? 59) then
          let off := h * msPerHour + m * msPerMinute in
          Some (Offset (if Ascii.eqb c "-" then - off else off))
        else None
      | _ => None
      end
    else None
  end.

(** Milliseconds within the day and the zone designator. *)
Definition parse_time (s : list ascii) : option (Z * zone) :=
  match parse_hm s with
  | None => None
  | Some (h, m, r1) =>
    match parse_sec r1 with
    | None => None
    | Some (sec, ms, r2) =>
      match parse_zone r2 with
      | None => None
      | Some z =>
        if (h <=? 24) && (m <=? 59) && (sec <=? 59)
           && ((h <? 24) || ((m =? 0) && (sec =? 0) && (ms =? 0)))
        then Some (MakeTime h m sec ms, z)
        else None
      end
    end
  end.

(** The time value a zone designator gives to local fields. *)
Definition resolve (tza : Z) (day time : Z) (z : zone) : Z :=
  match z with
  | Local => UTC tza (MakeDate day time)
  | Offset o => MakeDate day time - o
  end.

(** The time value a string of the format denotes, before [TimeClip];
    [None] when the string is not of the format. *)
Definition format (tza : Z) (s : list ascii) : option Z :=
  match parse_date s with
  | None => None
  | Some (y, m, d, r) =>
    let day := MakeDay y (m - 1) d in
    match r with
    | [] => Some (MakeDate day 0)
    | _ :: _ =>
      match expect "T" r with
      | None => None
      | Some r' =>
        match parse_time r' with
        | None => None
        | Some (time, z) => Some (resolve tza day time z)
        end
      end
    end
  end.

(** The format alone: every other string is an Invalid Date. *)
Definition parse (tza : Z) (s : list ascii) : Date :=
  match format tza s with
  | Some v => TimeClip v
  | None => None
  end.

(** The host the page runs on: its time zone offset (milliseconds east
    of UTC), and what its engine answers for a string that is not of
    the format, which may be an Invalid Date or any time value (V8, for
    one, reads ["2024-01-15 10:00"] as a local time).  A host stands
    for its offset where a number is expected. *)
Record Host := { offset :> Z; legacy : string -> Date }.

(** A host whose engine has no fallback. *)
Definition strict (tza : Z) : Host :=
  {| offset := tza; legacy := fun _ => None |}.

(** [new Date(s)] for a string [s]. *)
Definition new_Date (host : Host) (s : string) : Date :=
  match format host (list_ascii_of_string s) with
  | Some v => TimeClip v
  | None => legacy host s
  end.

(** [a >= b] and [a <= b] on [Date] objects compare the time values;
    every comparison with NaN is false. *)
Definition ge (a b : Date) : bool :=
  match a, b with Some x, Some y => y <=? x | _, _ => false end.
Definition le (a b : Date) : bool :=
  match a, b with Some x, Some y => x <=? y | _, _ => false end.

(** [d.getHours()]; [None] is NaN. *)
Definition getHours (tza : Z) (d : Date) : option Z :=
  match d with
  | Some t => Some (HourFromTime (LocalTime tza t))
  | None => None
  end.

(** The calendar day (day number in local time) a valid date falls on. *)
Definition localDay (tza : Z) (t : Z) : Z := Day (LocalTime tza t).

(** *** Vocabulary of the properties: dates as the forecast API writes
    them *)

(** The number of days of month [m] (1 = January) of year [y]. *)
Definition DaysInMonth (y m : Z) : Z :=
  if m =? 2 then (if InLeapYear y then 29 else 28)
  else if (m =? 4) || (m =? 6) || (m =? 9) || (m =? 11) then 30 else 31.

(** [y]-[m]-[d] is a day of the calendar, in a year of four digits. *)
Definition calendarDay (y m d : Z) : Prop :=
  0 <= y <= 9999 /\ 1 <= m <= 12 /\ 1 <= d <= DaysInMonth y m.

Definition digitChar (k : Z) : ascii := ascii_of_N (Z.to_N (48 + k)).

(** [n] written with [k] decimal digits. *)
Fixpoint padded (k : nat) (n : Z) : list ascii :=
  match k with
  | O => []
  | S k' => digitChar (n / 10 ^ Z.of_nat k') :: padded k' (n mod 10 ^ Z.of_nat k')
  end.

(** The date written [YYYY-MM-DD]. *)
Definition isoDate (y m d : Z) : string :=
  string_of_list_ascii
    (padded 4 y ++ "-"%char :: padded 2 m ++ "-"%char :: padded 2 d).

End DateTime.

(* ===================================================================== *)
(** ** Day/hour windowing *)
(* ===================================================================== *)

Module Windower.
Import DateTime.

(** [WeatherResponse["hourly"]]: parallel arrays indexed by hour. *)
Record Hourly := {
  hr_time : list string;
  temperature_2m : list number;
  hr_weathercode : list number;
  apparent_temperature : list number;
  relative_humidity_2m : list number;
  precipitation : list number
}.

(** [HourlyData]; reading a parallel array past its end gives
    [undefined], here [None]. *)
Record HourlyData := {
  hd_time : string;
  hd_temperature : option number;
  hd_weathercode : option number
}.

(** The [.map((time, i) => ...)] stage of [getHourlyForDay]. *)
Definition samples (hourly : Hourly) : list HourlyData :=
  imap (fun i time =>
          {| hd_time := time;
             hd_temperature := temperature_2m hourly !! i;
             hd_weathercode := hr_weathercode hourly !! i |})
       (hr_time hourly).

(** The predicate of the [.filter(h => ...)] stage. *)
Definition inWindow (host : Host) (start end_ : Date) (h : HourlyData) : bool :=
  let t := new_Date host (hd_time h) in
  ge t start && le t end_.

Definition getHourlyForDay (host : Host) (hourly : Hourly) (dateStr : string)
  : list HourlyData :=
  let start := new_Date host (dateStr +:+ "T00:00") in
  let end_ := new_Date host (dateStr +:+ "T23:59") in
  List.filter (inWindow host start end_) (samples hourly).

(** Indices in increasing order. *)
Definition ascending (indices : list nat) : Prop :=
  forall a b i j, (a < b)%nat ->
    indices !! a = Some i -> indices !! b = Some j -> (i < j)%nat.

(** The specification's "date component" of a timestamp: the text
    before its ["T"]. *)
Fixpoint dateComponent (time : string) : string :=
  match time with
  | EmptyString => EmptyString
  | String c rest =>
    if Ascii.eqb c "T" then EmptyString else String c (dateComponent rest)
  end.

(** Template-literal conversion of an integral number. *)
Definition Z_to_string (z : Z) : string :=
  NilEmpty.string_of_int (Z.to_int z).

(** The [displayHour] conditional of [renderHourly] (lines 412-416) and,
    verbatim, of [updateHourlyForecast] (lines 332-336). *)
Definition displayHour (hour : Z) : string :=
  if hour =? 0 then "12 AM"
  else if hour <? 12 then Z_to_string hour +:+ " AM"
  else if hour =? 12 then "12 PM"
  else Z_to_string (hour - 12) +:+ " PM".

(** The label [renderHourly] writes for one sample.  An Invalid Date has
    [getHours() = NaN], which fails the three tests and prints as
    ["NaN PM"]. *)
Definition hourLabel (host : Host) (h : HourlyData) : string :=
  match getHours host (new_Date host (hd_time h)) with
  | Some hour => displayHour hour
  | None => "NaN PM"
  end.

(** [renderHourly] over [cards] hour cards: a card without a sample is
    hidden ([None]), the others get their label and sample. *)
Definition renderHourly (host : Host) (cards : nat) (hours : list HourlyData)
  : list (option (string * HourlyData)) :=
  List.map (fun i => match hours !! i with
                     | None => None
                     | Some h => Some (hourLabel host h, h)
                     end)
           (seq 0 cards).

(** The labels the specification lists for the hours 0 to 23. *)
Definition hourLabels : list string :=
  ["12 AM"; "1 AM"; "2 AM"; "3 AM"; "4 AM"; "5 AM"; "6 AM"; "7 AM";
   "8 AM"; "9 AM"; "10 AM"; "11 AM"; "12 PM"; "1 PM"; "2 PM"; "3 PM";
   "4 PM"; "5 PM"; "6 PM"; "7 PM"; "8 PM"; "9 PM"; "10 PM"; "11 PM"]%string.

End Windower.

(* ===================================================================== *)
(** ** Unit preferences *)
(* ===================================================================== *)

Module Units.

Inductive TemperatureUnit := celsius | fahrenheit.
Inductive WindUnit := kmh | mph.
Inductive PrecipitationUnit := mm | inch.

(** [interface Units] and the module-level [currentUnits]. *)
Record Units := {
  temperature : TemperatureUnit;
  wind : WindUnit;
  precipitation : PrecipitationUnit
}.

Definition initialUnits : Units :=
  {| temperature := celsius; wind := kmh; precipitation := mm |}.

Record SystemType := {
  temperature_unit : TemperatureUnit;
  wind_speed_unit : WindUnit;
  precipitation_unit : PrecipitationUnit
}.

(** The [unitPreferences] item of [localStorage]: [None] when no item is
    stored, otherwise the JSON object [savePreferences] wrote, a map
    from section title to ["metric"] or ["imperial"]. *)
Definition Storage : Type := option (gmap string string).

(** [JSON.parse(localStorage.getItem("unitPreferences") || "{}")]. *)
Definition readPreferences (stored : Storage) : gmap string string :=
  default ∅ stored.

(** [prefs[key] === "imperial"]. *)
Definition isImperial (prefs : gmap string string) (key : string) : bool :=
  bool_decide (prefs !! key = Some "imperial"%string).

(** [getUnitParams]: overwrites the three fields of [currentUnits] and
    returns them. *)
Definition getUnitParams (stored : Storage) (currentUnits : Units)
  : SystemType * Units :=
  let prefs := readPreferences stored in
  let cu1 :=
    {| temperature := if isImperial prefs "Temperature" then fahrenheit else celsius;
       wind := wind currentUnits;
       precipitation := precipitation currentUnits |} in
  let cu2 :=
    {| temperature := temperature cu1;
       wind := if isImperial prefs "Wind Speed" then mph else kmh;
       precipitation := precipitation cu1 |} in
  let cu3 :=
    {| temperature := temperature cu2;
       wind := wind cu2;
       precipitation := if isImperial prefs "Precipitation" then inch else mm |} in
  ({| temperature_unit := temperature cu3;
      wind_speed_unit := wind cu3;
      precipitation_unit := precipitation cu3 |}, cu3).

(** *** The units dropdown

    A [.section] of the dropdown: its title text, if it has a
    [.section-title], and the class lists of its [.option] elements in
    document order.  (The [.checkmark] decoration of an option is not
    modelled.) *)
Record SectionEl := {
  sec_title : option string;
  sec_options : list (gset string)
}.

Definition contains (classList : gset string) (c : string) : bool :=
  bool_decide (c ∈ classList).

(** [section.querySelector(".option." + c)]: the first option carrying
    class [c]. *)
Definition queryOption (c : string) (sec : SectionEl) : option (gset string) :=
  List.find (fun o => contains o c) (sec_options sec).

(** A section passes the test for class [c] when it has no selected
    option or its selected option carries [c]. *)
Definition selectedHas (c : string) (sec : SectionEl) : bool :=
  match queryOption "selected" sec with
  | Some selected => contains selected c
  | None => true
  end.

Inductive SystemState := metric | imperial | mixed.

(** [getCurrentSystem]: the two flags start true and are cleared by the
    sections whose selected option lacks the class. *)
Definition getCurrentSystem (sections : list SectionEl) : SystemState :=
  let flags :=
    fold_left
      (fun (f : bool * bool) sec =>
         let '(allMetric, allImperial) := f in
         match queryOption "selected" sec with
         | Some selected =>
           ((if negb (contains selected "metric") then false else allMetric),
            (if negb (contains selected "imperial") then false else allImperial))
         | None => (allMetric, allImperial)
         end)
      sections (true, true) in
  if fst flags then metric
  else if snd flags then imperial
  else mixed.

(** The [textContent] and [dataset.state] that [updateSwitchButton]
    gives the switch button. *)
Definition switchButton (state : SystemState) : string * string :=
  match state with
  | metric => ("Switch to Imperial", "metric")
  | imperial => ("Switch to Metric", "imperial")
  | mixed => ("Custom units", "mixed")
  end%string.

(** The object [savePreferences] stores. *)
Definition collectPreferences (sections : list SectionEl) : gmap string string :=
  fold_left
    (fun (data : gmap string string) sec =>
       match sec_title sec, queryOption "selected" sec with
       | Some title, Some selected =>
         <[title := if contains selected "metric" then "metric" else "imperial"]> data
       | _, _ => data
       end%string)
    sections ∅.

(** The handler of a click on option [j] of section [i]: the option
    alone is selected in its section. *)
Definition selectOption (j : nat) (sec : SectionEl) : SectionEl :=
  {| sec_title := sec_title sec;
     sec_options :=
       imap (fun k o => if Nat.eqb k j
                        then {["selected"%string]} ∪ (o ∖ {["selected"%string]})
                        else o ∖ {["selected"%string]})
            (sec_options sec) |}.

Definition clickOption (i j : nat) (sections : list SectionEl) : list SectionEl :=
  imap (fun k sec => if Nat.eqb k i then selectOption j sec else sec) sections.

(** [restorePreferences]. *)
Definition restoreSection (saved : gmap string string) (sec : SectionEl)
  : SectionEl :=
  match sec_title sec with
  | None => sec
  | Some title =>
    match saved !! title with
    | None => sec
    | Some pref =>
      if String.eqb pref "" then sec
      else
        let cleared := List.map (fun o => o ∖ {["selected"%string]}) (sec_options sec) in
        {| sec_title := sec_title sec;
           sec_options :=
             match List.find (fun k => contains (default ∅ (sec_options sec !! k)) pref)
                             (seq 0 (length (sec_options sec))) with
             | Some k => alter (fun o => {["selected"%string]} ∪ o) k cleared
             | None => cleared
             end |}
    end
  end.

Definition restorePreferences (stored : Storage) (sections : list SectionEl)
  : list SectionEl :=
  let saved := readPreferences stored in
  if bool_decide (saved = ∅) then sections
  else List.map (restoreSection saved) sections.

(** Modelled from the spec: the dropdown markup is not part of the
    sources.  The three categories ("Temperature", "Wind Speed",
    "Precipitation", the keys [getUnitParams] reads) each offer a
    [.option.metric] and a [.option.imperial], one of them selected. *)
Definition sectionFor (title : string) (imperialSelected : bool) : SectionEl :=
  {| sec_title := Some title;
     sec_options :=
       if imperialSelected
       then [ {["metric"]}; {["imperial"; "selected"]} ]
       else [ {["metric"; "selected"]}; {["imperial"]} ] |}%string.

Definition temperatureImperial (t : TemperatureUnit) : bool :=
  match t with fahrenheit => true | celsius => false end.
Definition windImperial (w : WindUnit) : bool :=
  match w with mph => true | kmh => false end.
Definition precipitationImperial (p : PrecipitationUnit) : bool :=
  match p with inch => true | mm => false end.

Definition sectionsOf (u : Units) : list SectionEl :=
  [ sectionFor "Temperature" (temperatureImperial (temperature u));
    sectionFor "Wind Speed" (windImperial (wind u));
    sectionFor "Precipitation" (precipitationImperial (precipitation u)) ].

Definition allMetric (u : Units) : bool :=
  negb (temperatureImperial (temperature u))
  && negb (windImperial (wind u))
  && negb (precipitationImperial (precipitation u)).

Definition allImperial (u : Units) : bool :=
  temperatureImperial (temperature u)
  && windImperial (wind u)
  && precipitationImperial (precipitation u).


(** The three axes [getUnitParams] resolves from a stored item. *)
Definition resolved (stored : Storage) : Units :=
  snd (getUnitParams stored initialUnits).

End Units.

(* ===================================================================== *)
(** ** The request sequencer: [fetchTodayWeather] and its callers *)
(* ===================================================================== *)

Module Sequencer.
Import DateTime Windower Units.

Record Coordinates := {
  latitude : number;
  longitude : number;
  name : string;
  country : string
}.

Record CurrentWeather := {
  cw_temperature : number;
  cw_windspeed : number;
  cw_weathercode : number;
  cw_time : string
}.

Record Daily := {
  dl_time : list string;
  temperature_2m_min : list number;
  temperature_2m_max : list number;
  dl_weathercode : list number
}.

(** A forecast payload as it arrives: any of its sections may be
    missing.  A section that is present is taken to have the shape the
    interface [WeatherResponse] declares; a payload with a section of
    another shape (a truthy [hourly] without its [time] array, say,
    which passes the check of line 574 and on which lines 245 and 382
    throw) is not represented. *)
Record WeatherResponse := {
  current_weather : option CurrentWeather;
  hourly : option Hourly;
  daily : option Daily
}.

Inductive Error :=
| GeocodingFailed                  (* Error("Geocoding failed") *)
| WeatherFetchFailed (status : Z)  (* Error(`Weather fetch failed (${status})`) *)
| MissingWeatherData               (* Error("Missing weather data") *)
| MissingTodayElements             (* Error("Missing Today section elements in DOM") *)
| Rejected                         (* a rejected fetch() or json() promise *)
| TypeError.                       (* property access on null or undefined *)

(** The suspension points of one invocation of [fetchTodayWeather],
    with the locals that are live across each. *)
Inductive Pc :=
| AwaitGeoFetch                                   (* line 130, in getCoordinates *)
| AwaitGeoJson                                    (* line 136, in getCoordinates *)
| AwaitNoResultDelay                              (* line 544: wait(2000) *)
| AwaitForecastFetch (location : Coordinates)     (* line 570 *)
| AwaitForecastJson (location : Coordinates)      (* line 573 *)
| AwaitRenderDelay (location : Coordinates) (data : WeatherResponse)
                                                  (* line 580: wait(2000) *)
| AwaitErrorDelay (error : Error).                (* line 632: wait(3000) *)

(** An in-flight invocation; the [requestId] it captured is its key in
    the task pool. *)
Record Task := { city : string; pc : Pc }.

(** What the environment hands back when a suspended invocation is
    resumed. *)
Inductive Settled :=
| FetchRejected
| FetchFulfilled (ok : bool) (status : Z)
| JsonRejected
| JsonNull
| GeoJson (results : option (list Coordinates))
| ForecastJson (data : WeatherResponse)
| TimerFired.

(** The calls of the render step, with the arguments passed. *)
Inductive RenderCall :=
| updateInfoCards (current : CurrentWeather) (hourly : Hourly)
| updateDailyForecast (daily : option Daily)
| populateDaysDropdown (dailyTimes : list string)
| renderHourly (hours : list HourlyData)
| renderToday (location : Coordinates) (current : CurrentWeather).

(** Effects recorded in the trace, tagged with the acting request. *)
Inductive Obs :=
| GeocodeRequest (rid : Z) (city : string)
| ForecastRequest (rid : Z) (location : Coordinates) (units : SystemType)
| ForecastPayload (rid : Z) (data : WeatherResponse)
| Render (rid : Z) (call : RenderCall)
| ConsoleError (rid : Z) (error : Error).

(** What is fixed for a page load: the host (its time zone offset and
    how its engine reads date strings), and whether [.location],
    [.date], [.temperature] and [.weather-icon] are present. *)
Record Page := { host : Host; todayElements : bool }.

(** The module-level variables, the [localStorage] item, the part of the
    DOM the program writes, the pool of in-flight invocations keyed by
    the [requestId] each captured, and the trace of effects (most
    recent first).  [latestRequestId] is an unbounded integer: the
    2^53 calls after which a JavaScript number stops incrementing are
    out of reach. *)
Record State := mkState {
  lastCity : string;
  lastWeatherData : option WeatherResponse;
  latestRequestId : Z;
  currentUnits : Units;
  unitPreferences : Storage;
  classes : gmap string (gset string);
  searchBtn_disabled : bool;
  sections : list SectionEl;
  switchBtn : option (string * string);
  tasks : gmap Z Task;
  trace : list Obs
}.

Definition set_lastCity (v : string) (s : State) : State :=
  mkState v (lastWeatherData s) (latestRequestId s) (currentUnits s)
    (unitPreferences s) (classes s) (searchBtn_disabled s) (sections s)
    (switchBtn s) (tasks s) (trace s).
Definition set_lastWeatherData (v : option WeatherResponse) (s : State) : State :=
  mkState (lastCity s) v (latestRequestId s) (currentUnits s)
    (unitPreferences s) (classes s) (searchBtn_disabled s) (sections s)
    (switchBtn s) (tasks s) (trace s).
Definition set_latestRequestId (v : Z) (s : State) : State :=
  mkState (lastCity s) (lastWeatherData s) v (currentUnits s)
    (unitPreferences s) (classes s) (searchBtn_disabled s) (sections s)
    (switchBtn s) (tasks s) (trace s).
Definition set_currentUnits (v : Units) (s : State) : State :=
  mkState (lastCity s) (lastWeatherData s) (latestRequestId s) v
    (unitPreferences s) (classes s) (searchBtn_disabled s) (sections s)
    (switchBtn s) (tasks s) (trace s).
Definition set_unitPreferences (v : Storage) (s : State) : State :=
  mkState (lastCity s) (lastWeatherData s) (latestRequestId s) (currentUnits s)
    v (classes s) (searchBtn_disabled s) (sections s)
    (switchBtn s) (tasks s) (trace s).
Definition set_classes (v : gmap string (gset string)) (s : State) : State :=
  mkState (lastCity s) (lastWeatherData s) (latestRequestId s) (currentUnits s)
    (unitPreferences s) v (searchBtn_disabled s) (sections s)
    (switchBtn s) (tasks s) (trace s).
Definition set_searchBtn_disabled (v : bool) (s : State) : State :=
  mkState (lastCity s) (lastWeatherData s) (latestRequestId s) (currentUnits s)
    (unitPreferences s) (classes s) v (sections s)
    (switchBtn s) (tasks s) (trace s).
Definition set_sections (v : list SectionEl) (s : State) : State :=
  mkState (lastCity s) (lastWeatherData s) (latestRequestId s) (currentUnits s)
    (unitPreferences s) (classes s) (searchBtn_disabled s) v
    (switchBtn s) (tasks s) (trace s).
Definition set_switchBtn (v : option (string * string)) (s : State) : State :=
  mkState (lastCity s) (lastWeatherData s) (latestRequestId s) (currentUnits s)
    (unitPreferences s) (classes s) (searchBtn_disabled s) (sections s)
    v (tasks s) (trace s).
Definition set_tasks (v : gmap Z Task) (s : State) : State :=
  mkState (lastCity s) (lastWeatherData s) (latestRequestId s) (currentUnits s)
    (unitPreferences s) (classes s) (searchBtn_disabled s) (sections s)
    (switchBtn s) v (trace s).
Definition set_trace (v : list Obs) (s : State) : State :=
  mkState (lastCity s) (lastWeatherData s) (latestRequestId s) (currentUnits s)
    (unitPreferences s) (classes s) (searchBtn_disabled s) (sections s)
    (switchBtn s) (tasks s) v.

Definition log (o : Obs) (s : State) : State := set_trace (o :: trace s) s.

(** Statements in sequence: [f >> g] runs [f], then [g]. *)
Definition andThen (f g : State -> State) : State -> State :=
  fun s => g (f s).
Infix ">>" := andThen (at level 61, left associativity).

(** *** The elements the program shows and hides *)

Definition errorFetchCon : string := ".error-fetch-con".
Definition mainContent : string := ".main-con".
Definition searchCon : string := ".search-section".
Definition noResult : string := ".no-result".
Definition loadingCon : string := ".loading-con".
Definition todaySection : string := ".today-section".
Definition mainContToday : string := ".main-cont-today".
Definition weatherIcon : string := ".weather-icon".
Definition searchLoading : string := ".search-loading".
Definition todayCard : string := "#todayCard".

Definition DATA_SECTIONS : list string :=
  [todaySection; mainContToday; ".info-cards-con"; ".forecast"; ".hour-forecast"]%string.

(** The class list of an element; an element never written to has the
    empty one.  (For the selectors that may match nothing, the guarded
    writes of the source are then writes nobody reads.) *)
Definition classList (el : string) (s : State) : gset string :=
  default ∅ (classes s !! el).

Definition classList_add (el c : string) (s : State) : State :=
  set_classes (<[el := {[c]} ∪ classList el s]> (classes s)) s.

Definition classList_remove (el c : string) (s : State) : State :=
  set_classes (<[el := classList el s ∖ {[c]}]> (classes s)) s.

Definition hidden (el : string) (s : State) : bool :=
  bool_decide ("display-none"%string ∈ classList el s).

Definition showSearchLoading : State -> State :=
  classList_remove searchLoading "display-none" >> set_searchBtn_disabled true.

Definition hideSearchLoading : State -> State :=
  classList_add searchLoading "display-none" >> set_searchBtn_disabled false.

Definition hideAllData : State -> State :=
  (fun s => fold_left (fun s el => classList_add el "display-none" s) DATA_SECTIONS s)
  >> classList_add weatherIcon "display-none".

Definition showAllData : State -> State :=
  (fun s => fold_left (fun s el => classList_remove el "display-none" s) DATA_SECTIONS s)
  >> classList_remove weatherIcon "display-none".

Definition showError : State -> State :=
  hideAllData
  >> classList_add loadingCon "display-none"
  >> classList_remove errorFetchCon "display-none".

Definition showSuccess : State -> State :=
  classList_add loadingCon "display-none"
  >> classList_add errorFetchCon "display-none"
  >> showAllData.

Definition showLoading : State -> State :=
  classList_remove loadingCon "display-none"
  >> classList_remove todaySection "bg-show"
  >> classList_add mainContToday "display-none"
  >> classList_add weatherIcon "display-none".

(** *** One invocation of [fetchTodayWeather] *)

Definition suspend (rid : Z) (t : Task) (p : Pc) (s : State) : State :=
  set_tasks (<[rid := {| city := city t; pc := p |}]> (tasks s)) s.

(** The invocation returns. *)
Definition finish (rid : Z) (s : State) : State :=
  set_tasks (delete rid (tasks s)) s.

(** [requestId !== latestRequestId]. *)
Definition isStale (rid : Z) (s : State) : bool :=
  negb (rid =? latestRequestId s).

(** Control enters the [catch] block and suspends at [wait(3000)]. *)
Definition catch (rid : Z) (t : Task) (e : Error) (s : State) : State :=
  suspend rid t (AwaitErrorDelay e) s.

(** Lines 127-148, after [response.json()]. *)
Definition coordinatesOf (results : option (list Coordinates)) : option Coordinates :=
  match results with
  | Some (first :: _) => Some first
  | Some [] | None => None
  end.

(** Lines 541-570, from the return of [getCoordinates] to [fetch(url)]. *)
Definition afterGeocode (rid : Z) (t : Task) (location : option Coordinates)
           (s : State) : State :=
  if isStale rid s then finish rid s
  else
    match location with
    | None => suspend rid t AwaitNoResultDelay s
    | Some loc =>
      let '(units, cu) := getUnitParams (unitPreferences s) (currentUnits s) in
      (set_currentUnits cu
       >> log (ForecastRequest rid loc units)
       >> suspend rid t (AwaitForecastFetch loc)) s
    end.

(** Lines 546-553. *)
Definition showNoResult (rid : Z) : State -> State :=
  hideSearchLoading
  >> hideAllData
  >> classList_add mainContent "display-none"
  >> classList_add errorFetchCon "display-none"
  >> classList_remove noResult "display-none"
  >> finish rid.

(** Lines 574-580, after [res.json()]. *)
Definition afterForecast (rid : Z) (t : Task) (location : Coordinates)
           (data : WeatherResponse) (s : State) : State :=
  match current_weather data, hourly data with
  | Some _, Some _ =>
    (set_lastWeatherData (Some data)
     >> suspend rid t (AwaitRenderDelay location data)) s
  | _, _ => catch rid t MissingWeatherData s
  end.

(** [setHourlyToToday]: reads the hourly series of [lastWeatherData]. *)
Definition setHourlyToToday (pg : Page) (rid : Z) (dailyTimes : list string)
           (s : State) : State + Error :=
  match dailyTimes with
  | [] => inl s
  | todayDate :: _ =>
    match lastWeatherData s with
    | Some {| hourly := Some h |} =>
      inl (log (Render rid (renderHourly (getHourlyForDay (host pg) h todayDate))) s)
    | _ => inr TypeError
    end
  end.

(** Lines 583-629: the render step.  The result is the state reached
    and, if the step threw, the error.  The throws represented are
    those on a missing section ([data.daily.time]), on a missing
    snapshot, and the explicit one on the Today elements; the markup
    the helpers write to (the [p] of the day trigger, lines 173-174; the
    parts of each hour card, lines 405-418) is taken to be in place. *)
Definition render (pg : Page) (rid : Z) (location : Coordinates)
           (data : WeatherResponse) (s : State) : State * option Error :=
  match current_weather data, hourly data with
  | Some current, Some hr =>
    let s := log (Render rid (updateInfoCards current hr)) s in
    let s := log (Render rid (updateDailyForecast (daily data))) s in
    match daily data with
    | None => (s, Some TypeError)
    | Some dl =>
      let s := log (Render rid (populateDaysDropdown (dl_time dl))) s in
      match setHourlyToToday pg rid (dl_time dl) s with
      | inr e => (s, Some e)
      | inl s =>
        if todayElements pg then
          ((log (Render rid (renderToday location current))
            >> classList_add todayCard "bg-show"
            >> classList_add loadingCon "display-none"
            >> classList_add todaySection "bg-show"
            >> classList_remove weatherIcon "display-none"
            >> classList_remove mainContToday "display-none"
            >> classList_add errorFetchCon "display-none"
            >> hideSearchLoading
            >> showSuccess) s, None)
        else (s, Some MissingTodayElements)
      end
    end
  | _, _ => (s, Some TypeError)
  end.

(** Lines 581-629, after the [wait(2000)] of the success path. *)
Definition afterRenderDelay (pg : Page) (rid : Z) (t : Task)
           (location : Coordinates) (data : WeatherResponse) (s : State) : State :=
  if isStale rid s then finish rid s
  else
    match render pg rid location data s with
    | (s', None) => finish rid s'
    | (s', Some e) => catch rid t e s'
    end.

(** Lines 633-637, after the [wait(3000)] of the [catch] block. *)
Definition afterErrorDelay (rid : Z) (e : Error) (s : State) : State :=
  if isStale rid s then finish rid s
  else (hideSearchLoading >> log (ConsoleError rid e) >> showError >> finish rid) s.

(** Resume invocation [rid], suspended as [t], with settlement [r].  A
    settlement of the wrong kind for the suspension point is not
    delivered. *)
Definition resume (pg : Page) (rid : Z) (t : Task) (r : Settled) (s : State) : State :=
  match pc t, r with
  | AwaitGeoFetch, FetchRejected => catch rid t Rejected s
  | AwaitGeoFetch, FetchFulfilled ok _ =>
    if ok then suspend rid t AwaitGeoJson s else catch rid t GeocodingFailed s
  | AwaitGeoJson, JsonRejected => catch rid t Rejected s
  | AwaitGeoJson, JsonNull => catch rid t TypeError s
  | AwaitGeoJson, GeoJson results => afterGeocode rid t (coordinatesOf results) s
  | AwaitNoResultDelay, TimerFired => showNoResult rid s
  | AwaitForecastFetch location, FetchRejected => catch rid t Rejected s
  | AwaitForecastFetch location, FetchFulfilled ok status =>
    if ok then suspend rid t (AwaitForecastJson location) s
    else catch rid t (WeatherFetchFailed status) s
  | AwaitForecastJson location, JsonRejected => catch rid t Rejected s
  | AwaitForecastJson location, JsonNull => catch rid t TypeError s
  | AwaitForecastJson location, ForecastJson data =>
    afterForecast rid t location data (log (ForecastPayload rid data) s)
  | AwaitRenderDelay location data, TimerFired => afterRenderDelay pg rid t location data s
  | AwaitErrorDelay e, TimerFired => afterErrorDelay rid e s
  | _, _ => s
  end.

(** Lines 526-540: [fetchTodayWeather(city, showLoader)] up to its first
    suspension; an omitted argument takes its default. *)
Definition fetchTodayWeather (city : option string) (showLoader : option bool)
           (s : State) : State :=
  let city := default (lastCity s) city in
  let showLoader := default true showLoader in
  let s := set_lastCity city s in
  let requestId := latestRequestId s + 1 in
  let s := set_latestRequestId requestId s in
  let s := (classList_add errorFetchCon "display-none"
            >> classList_remove mainContent "display-none"
            >> classList_remove searchCon "display-none"
            >> classList_add noResult "display-none") s in
  let s := if showLoader then showLoading s else s in
  (log (GeocodeRequest requestId city)
   >> (fun s => set_tasks (<[requestId := {| city := city; pc := AwaitGeoFetch |}]> (tasks s)) s)) s.

Definition updateSwitchButton : State -> State :=
  (fun s => set_switchBtn (Some (switchButton (getCurrentSystem (sections s)))) s)
  >> hideSearchLoading.

Definition savePreferences : State -> State :=
  (fun s => set_unitPreferences (Some (collectPreferences (sections s))) s)
  >> (fun s => fetchTodayWeather (Some (lastCity s)) (Some false) s)
  >> hideSearchLoading.

(** *** Events *)

Inductive event :=
| Call (city : option string) (showLoader : option bool)
    (* a direct call, such as [fetchTodayWeather("Amman")] at load *)
| SearchClick (value : string)
    (* click on the search button while [searchInput.value.trim()] is [value] *)
| RetryClick
| OptionClick (section option : nat)
    (* click on option [option] of section [section] of the dropdown *)
| Settle (rid : Z) (r : Settled).
    (* the promise invocation [rid] awaits settles *)

Definition step (pg : Page) (s : State) (e : event) : State :=
  match e with
  | Call city showLoader => fetchTodayWeather city showLoader s
  | SearchClick value =>
    (* a disabled button dispatches no click *)
    if searchBtn_disabled s then s
    else if String.eqb value "" then s
    else (showSearchLoading >> showLoading >> fetchTodayWeather (Some value) None) s
  | RetryClick =>
    (classList_add errorFetchCon "display-none"
     >> classList_remove mainContent "display-none"
     >> classList_remove searchCon "display-none"
     >> (fun s => fetchTodayWeather (Some (lastCity s)) None s)) s
  | OptionClick i j =>
    match sections s !! i with
    | Some sec =>
      if bool_decide (j < length (sec_options sec))%nat then
        ((fun s => set_sections (clickOption i j (sections s)) s)
         >> updateSwitchButton >> savePreferences) s
      else s
    | None => s
    end
  | Settle rid r =>
    match tasks s !! rid with
    | Some t => resume pg rid t r s
    | None => s
    end
  end.

Definition run (pg : Page) (evs : list event) (s : State) : State :=
  fold_left (step pg) evs s.

(** The state right after the script has loaded, before its three
    initialising statements: variables as declared, nothing in flight. *)
Definition loaded (stored : Storage) (markup : gmap string (gset string))
           (dropdown : list SectionEl) : State :=
  {| lastCity := "Amman";
     lastWeatherData := None;
     latestRequestId := 0;
     currentUnits := initialUnits;
     unitPreferences := stored;
     classes := markup;
     searchBtn_disabled := false;
     sections := dropdown;
     switchBtn := None;
     tasks := ∅;
     trace := [] |}.

(** Lines 754-756. *)
Definition initialise : State -> State :=
  (fun s => set_sections (restorePreferences (unitPreferences s) (sections s)) s)
  >> updateSwitchButton
  >> fetchTodayWeather (Some "Amman"%string) None.

(** *** Vocabulary of the properties *)

(** The arguments of a render call are taken from payload [data]. *)
Definition rendered_from (pg : Page) (data : WeatherResponse) (c : RenderCall) : Prop :=
  match c with
  | updateInfoCards current hr =>
    current_weather data = Some current /\ hourly data = Some hr
  | updateDailyForecast dl => daily data = dl
  | populateDaysDropdown times =>
    exists dl, daily data = Some dl /\ times = dl_time dl
  | renderHourly hours =>
    exists hr dl todayDate,
      hourly data = Some hr /\ daily data = Some dl /\
      dl_time dl !! 0%nat = Some todayDate /\
      hours = getHourlyForDay (host pg) hr todayDate
  | renderToday _ current => current_weather data = Some current
  end.

(** Suspension points an invocation can be at without having passed
    the staleness check of line 541: it is still geocoding, or geocoding
    failed and it waits in the [catch] block. *)
Definition quietPc (p : Pc) : bool :=
  match p with
  | AwaitGeoFetch | AwaitGeoJson | AwaitErrorDelay _ => true
  | _ => false
  end.

(** Every render call recorded in [new] (most recent first) was made by
    request [last], with arguments from a payload that request had
    received before. *)
Fixpoint renders_ok (pg : Page) (last : Z) (new : list Obs) : Prop :=
  match new with
  | [] => True
  | o :: older =>
    renders_ok pg last older /\
    match o with
    | Render rid call =>
      rid = last /\
      exists data, ForecastPayload last data ∈ older /\ rendered_from pg data call
    | _ => True
    end
  end.

(** The invariant of the settlements that follow a burst of calls whose
    last request is [last]; [tr0] is the trace before the burst and
    [new] what was recorded since. *)
Definition Inv (pg : Page) (last : Z) (tr0 new : list Obs) (s : State) : Prop :=
  latestRequestId s = last
  /\ trace s = new ++ tr0
  /\ renders_ok pg last new
  /\ (forall k t, tasks s !! k = Some t -> k <> last -> quietPc (pc t) = true)
  /\ (forall t loc data,
        tasks s !! last = Some t -> pc t = AwaitRenderDelay loc data ->
        lastWeatherData s = Some data /\ ForecastPayload last data ∈ new).

(** [s'] differs from [s] at most in the DOM, the stored preferences
    and [currentUnits]. *)
Definition agree (s s' : State) : Prop :=
  lastCity s' = lastCity s /\ latestRequestId s' = latestRequestId s
  /\ lastWeatherData s' = lastWeatherData s
  /\ tasks s' = tasks s /\ trace s' = trace s.

Definition isGeocodeRequest (o : Obs) : Prop :=
  match o with GeocodeRequest _ _ => True | _ => False end.

Definition calls (cs : list (option string * option bool)) : list event :=
  List.map (fun c => Call (fst c) (snd c)) cs.

Definition settlements (rs : list (Z * Settled)) : list event :=
  List.map (fun r => Settle (fst r) (snd r)) rs.

End Sequencer.

(* ===================================================================== *)
(** ** A concrete page and concrete responses *)
(* ===================================================================== *)

Module Scenario.
Import Windower Units Sequencer.

(** A host three hours east of UTC, with the Today elements in place. *)
Definition page : Page :=
  {| host := DateTime.strict 10800000; todayElements := true |}.

(** Nothing stored, no classes set in the markup, every category on its
    metric option. *)
Definition fresh : State := loaded None ∅ (sectionsOf initialUnits).

(** The page once lines 754-756 have run: request 1, for "Amman", is in
    flight. *)
Definition booted : State := initialise fresh.

Definition amman : Coordinates :=
  {| latitude := 32; longitude := 36; name := "Amman"; country := "Jordan" |}.

Definition paris : Coordinates :=
  {| latitude := 49; longitude := 2; name := "Paris"; country := "France" |}.

Definition forecast (temps : list number) : WeatherResponse :=
  {| current_weather :=
       Some {| cw_temperature := 0; cw_windspeed := 5; cw_weathercode := 0;
               cw_time := "2024-01-15T10:00" |};
     hourly :=
       Some {| hr_time := ["2024-01-15T10:00"; "2024-01-15T11:00"; "2024-01-16T00:00"];
               temperature_2m := temps;
               hr_weathercode := [0; 1; 2];
               apparent_temperature := temps;
               relative_humidity_2m := [40; 41; 42];
               Windower.precipitation := [0; 0; 0] |};
     daily :=
       Some {| dl_time := ["2024-01-15"; "2024-01-16"];
               temperature_2m_min := [3; 4];
               temperature_2m_max := [12; 13];
               dl_weathercode := [0; 2] |} |}%string.

Definition ammanData : WeatherResponse := forecast [11; 12; 13].
Definition parisData : WeatherResponse := forecast [1; 2; 3].

(** The hour samples of the first day of a payload built by
    [forecast temps]. *)
Definition todayHours (temps : list number) : list HourlyData :=
  match hourly (forecast temps) with
  | Some hr => getHourlyForDay (host page) hr "2024-01-15"
  | None => []
  end.

Definition ok : Settled := FetchFulfilled true 200.

(** Request 1 ("Amman", issued at load) has its coordinates and awaits
    its forecast when the user searches "Paris" (request 2).  The
    forecast of request 2 arrives first, then that of request 1. *)
Definition overtaken : list event :=
  [ Settle 1 ok; Settle 1 (GeoJson (Some [amman]));
    SearchClick "Paris";
    Settle 2 ok; Settle 2 (GeoJson (Some [paris]));
    Settle 2 ok; Settle 2 (ForecastJson parisData);
    Settle 1 ok ]%string.

Definition overtaken_rest : list event :=
  [ Settle 1 (ForecastJson ammanData); Settle 1 TimerFired; Settle 2 TimerFired ].

(** The user searches "Atlantis" (request 2), which geocoding does not
    know; during the two-second delay the user switches the temperature
    unit (request 3) and then searches "Amman" (request 4). *)
Definition notFound : list event :=
  [ SearchClick "Atlantis";
    Settle 2 ok; Settle 2 (GeoJson (Some []));
    OptionClick 0 1;
    SearchClick "Amman" ]%string.

Definition notFound_rest : list event :=
  [ Settle 4 ok; Settle 4 (GeoJson (Some [amman]));
    Settle 4 ok; Settle 4 (ForecastJson ammanData); Settle 4 TimerFired ].

(** The user searches "Paris" while request 1 is still geocoding. *)
Definition superseded : list event :=
  [ SearchClick "Paris"; Settle 1 ok ]%string.

End Scenario.

(* ===================================================================== *)
(** ** Day names and the day dropdown *)
(* ===================================================================== *)

Module Calendar.
Import DateTime Windower.

(** Day of the week of a time value, 0 for Sunday. *)
Definition WeekDay (t : Z) : Z := (Day t + 4) mod 7.

(** [getWeekday] (and the card label of [updateDailyForecast]):
    [new Date(dateStr).toLocaleDateString(undefined, { weekday })] names
    the weekday of the date in the host's zone; the names of the host
    locale are a parameter, and an Invalid Date prints as such. *)
Definition getWeekday (names : Z -> string) (host : Host) (dateStr : string) : string :=
  match new_Date host dateStr with
  | Some t => names (WeekDay (LocalTime host t))
  | None => "Invalid Date"
  end.

(** An entry of the day menu: its text, its [data-date], and whether it
    carries class [active]. *)
Record Li := { li_text : string; li_date : string; li_active : bool }.

(** [populateDaysDropdown]. *)
Definition populateDaysDropdown (names : Z -> string) (host : Host)
           (dailyTimes : list string) : list Li :=
  imap (fun index dateStr =>
          {| li_text := if Nat.eqb index 0 then "Today"
                        else getWeekday names host dateStr;
             li_date := dateStr;
             li_active := Nat.eqb index 0 |})
       dailyTimes.

Definition set_active (b : bool) (li : Li) : Li :=
  {| li_text := li_text li; li_date := li_date li; li_active := b |}.

(** [menu.querySelector(".active")]: the index of the first active entry. *)
Definition firstActive (menu : list Li) : option nat :=
  List.find (fun k => match menu !! k with Some li => li_active li | None => false end)
            (seq 0 (length menu)).

(** Lines 704-706 of the menu's click handler, for a click on entry
    [k]: the first active entry loses [active], entry [k] gains it. *)
Definition activate (k : nat) (menu : list Li) : list Li :=
  let menu' := match firstActive menu with
               | Some a => alter (set_active false) a menu
               | None => menu
               end in
  alter (set_active true) k menu'.

Definition isActive (menu : list Li) (k : nat) : bool :=
  match menu !! k with Some li => li_active li | None => false end.

(** The indices of the active entries. *)
Definition activeEntries (menu : list Li) : list nat :=
  List.filter (fun k => match menu !! k with Some li => li_active li | None => false end)
              (seq 0 (length menu)).

(** The index [updateInfoCards] reads the hourly arrays at:
    [hourly.time.findIndex(t => new Date(t).getHours() === now.getHours())],
    with [None] for -1. *)
Definition hourIndex (host : Host) (now : Z) (times : list string) : option nat :=
  List.find (fun i => match times !! i with
                      | Some t =>
                        match getHours host (new_Date host t) with
                        | Some h => h =? HourFromTime (LocalTime host now)
                        | None => false
                        end
                      | None => false
                      end)
            (seq 0 (length times)).

End Calendar.

(* ===================================================================== *)
(** ** The units dropdown: well-formed markup, the switch button *)
(* ===================================================================== *)

Module Dropdown.
Import Units.

(** The indices of the options of a section that carry class [c]. *)
Definition optionsWith (c : string) (sec : SectionEl) : list nat :=
  List.filter (fun k => contains (default ∅ (sec_options sec !! k)) c)
              (seq 0 (length (sec_options sec))).

(** The index of the first option that carries class [c]. *)
Definition optionIndex (c : string) (sec : SectionEl) : option nat :=
  List.find (fun k => contains (default ∅ (sec_options sec !! k)) c)
            (seq 0 (length (sec_options sec))).

(** What [savePreferences] stores for a selected option. *)
Definition preferenceOf (selected : gset string) : string :=
  if contains selected "metric" then "metric" else "imperial".

(** A section as the handlers leave it: it has a title, exactly one of
    its options is selected, and that option is the first one of its
    kind (the first [.metric] option, or else the first [.imperial]
    one). *)
Definition wellFormed (sec : SectionEl) : bool :=
  match sec_title sec, optionsWith "selected" sec with
  | Some _, [k] =>
    bool_decide (optionIndex (preferenceOf (default ∅ (sec_options sec !! k))) sec
                 = Some k)
  | _, _ => false
  end.

(** The step of the loop of [savePreferences] (lines 481-491). *)
Abbreviation saveStep :=
  (fun (data : gmap string string) (sec : SectionEl) =>
     match sec_title sec, queryOption "selected" sec with
     | Some title, Some selected =>
       <[title := if contains selected "metric" then "metric" else "imperial"]> data
     | _, _ => data
     end%string).

(** The titles of the sections that have one. *)
Definition titles (sections : list SectionEl) : list string :=
  omap sec_title sections.

(** [o.classList.remove("selected")] on every option of a section. *)
Definition clearSelected (sec : SectionEl) : SectionEl :=
  {| sec_title := sec_title sec;
     sec_options := List.map (fun o => o ∖ {["selected"%string]}) (sec_options sec) |}.

(** The body of the [forEach] of the switch button's handler (lines
    677-687) for one section: the target is the first option of class
    [c]; every option loses [selected]; the target gains it.  Without a
    target, [target.classList.add] throws once the options are cleared:
    [None]. *)
Definition retarget (c : string) (sec : SectionEl) : option SectionEl :=
  match optionIndex c sec with
  | Some k =>
    Some {| sec_title := sec_title sec;
            sec_options := alter (fun o => {["selected"%string]} ∪ o) k
                                 (sec_options (clearSelected sec)) |}
  | None => None
  end.

(** The [forEach] over the sections: the sections as left behind, and
    whether the loop ran to its end. *)
Fixpoint retargetAll (c : string) (sections : list SectionEl)
  : list SectionEl * bool :=
  match sections with
  | [] => ([], true)
  | sec :: rest =>
    match retarget c sec with
    | Some sec' =>
      let '(rest', done) := retargetAll c rest in (sec' :: rest', done)
    | None => (clearSelected sec :: rest, false)
    end
  end.

(** The unit choice with category [i] (0 temperature, 1 wind speed, 2
    precipitation) put on option [j] (0 metric, 1 imperial). *)
Definition setAxis (i j : nat) (u : Units) : Units :=
  match i with
  | O => {| temperature := match j with O => celsius | _ => fahrenheit end;
            wind := wind u; precipitation := precipitation u |}
  | S O => {| temperature := temperature u;
              wind := match j with O => kmh | _ => mph end;
              precipitation := precipitation u |}
  | _ => {| temperature := temperature u; wind := wind u;
            precipitation := match j with O => mm | _ => inch end |}
  end.

Definition metricUnits : Units :=
  {| temperature := celsius; wind := kmh; precipitation := mm |}.

Definition imperialUnits : Units :=
  {| temperature := fahrenheit; wind := mph; precipitation := inch |}.

End Dropdown.

(* ===================================================================== *)
(** ** The remaining handlers, and what holds of every reachable state *)
(* ===================================================================== *)

Module Handlers.
Import DateTime Windower Units Sequencer Dropdown.

Definition dropdownDay : string := ".day-dropdown".

(** The click handler of the switch button (lines 672-692). *)
Definition switchClick (s : State) : State :=
  let useMetric :=
    negb (bool_decide (snd <$> switchBtn s = Some "metric"%string)) in
  let '(secs, completed) :=
    retargetAll (if useMetric then "metric" else "imperial")%string (sections s) in
  let s' := set_sections secs s in
  if completed then (updateSwitchButton >> savePreferences) s' else s'.

(** What a click on an entry of the day menu draws. *)
Inductive Drawn :=
| NotDrawn
| Hours (hours : list HourlyData)
| Failed (e : Error).

(** The click handler of the day menu (lines 700-723) for a click on an
    entry whose [data-date] is [date]: with no snapshot it returns
    before drawing (and before closing the dropdown).  The trigger is
    taken to have its [p] element (lines 708-709), and a snapshot with
    an [hourly] section to have one of the declared shape.  The
    listener on the document (lines 725-727), which closes the dropdown
    at every click that bubbles up to it, is a handler of its own and
    is not represented; no property below reads the class [open]. *)
Definition menuClick (pg : Page) (date : option string) (s : State) : State * Drawn :=
  match lastWeatherData s with
  | None => (s, NotDrawn)
  | Some data =>
    match hourly data with
    | Some hr =>
      (classList_remove dropdownDay "open" s,
       Hours (getHourlyForDay (host pg) hr (default ""%string date)))
    | None => (s, Failed TypeError)
    end
  end.

(** Every event of the page. *)
Inductive uiEvent :=
| Fetch (e : event)
| SwitchClick
| MenuClick (date : option string).

Definition uiStep (pg : Page) (s : State) (e : uiEvent) : State :=
  match e with
  | Fetch e => step pg s e
  | SwitchClick => switchClick s
  | MenuClick date => fst (menuClick pg date s)
  end.

Definition uiRun (pg : Page) (evs : list uiEvent) (s : State) : State :=
  fold_left (uiStep pg) evs s.

(** The states a page can be in: loaded with any stored preferences, any
    markup and any dropdown, initialised, then driven by any events. *)
Definition reachable (pg : Page) (s : State) : Prop :=
  exists stored markup dropdown evs,
    s = uiRun pg evs (initialise (loaded stored markup dropdown)).

(** The stored snapshot, when there is one, has its current and hourly
    sections; and an invocation that waits to render holds such a
    payload while a snapshot is stored. *)
Definition snapshotValid (s : State) : Prop :=
  (forall d, lastWeatherData s = Some d ->
             is_Some (current_weather d) /\ is_Some (hourly d))
  /\ (forall rid t loc data,
        tasks s !! rid = Some t -> pc t = AwaitRenderDelay loc data ->
        is_Some (lastWeatherData s)
        /\ is_Some (current_weather data) /\ is_Some (hourly data)).

(** The stored snapshot is a payload some request has received. *)
Definition snapshotReceived (s : State) : Prop :=
  forall d, lastWeatherData s = Some d ->
            exists rid, ForecastPayload rid d ∈ trace s.

(** The request ids of the geocoding requests of a trace, most recent
    first. *)
Definition geocodeIds (tr : list Obs) : list Z :=
  omap (fun o => match o with GeocodeRequest rid _ => Some rid | _ => None end) tr.

Fixpoint countdown (n : nat) : list Z :=
  match n with
  | O => []
  | S k => Z.of_nat (S k) :: countdown k
  end.

Definition idsOk (s : State) : Prop :=
  0 <= latestRequestId s
  /\ geocodeIds (trace s) = countdown (Z.to_nat (latestRequestId s))
  /\ (forall k t, tasks s !! k = Some t -> 1 <= k <= latestRequestId s).

Definition sysOf (cu : Units) : SystemType :=
  {| temperature_unit := temperature cu;
     wind_speed_unit := wind cu;
     precipitation_unit := precipitation cu |}.

(** The unit suffixes [updateInfoCards] prints after the wind speed and
    the precipitation (lines 265 and 268), read from [currentUnits]. *)
Definition infoCardSuffixes (cu : Units) : string * string :=
  (match wind cu with mph => "mph" | kmh => "km/h" end,
   match precipitation cu with inch => "in" | mm => "mm" end)%string.

(** The suffixes that fit the units a forecast was requested in. *)
Definition suffixesOf (u : SystemType) : string * string :=
  (match wind_speed_unit u with mph => "mph" | kmh => "km/h" end,
   match precipitation_unit u with inch => "in" | mm => "mm" end)%string.

(** Invocation [p] has asked for the forecast of [loc]. *)
Definition awaitsForecast (p : Pc) (loc : Coordinates) : Prop :=
  p = AwaitForecastFetch loc \/ p = AwaitForecastJson loc
  \/ exists data, p = AwaitRenderDelay loc data.

Definition unitsOk (s : State) : Prop :=
  (forall rid loc u,
      ForecastRequest rid loc u ∈ trace s ->
      rid <= latestRequestId s
      /\ (rid = latestRequestId s ->
          currentUnits s = resolved (unitPreferences s)
          /\ u = sysOf (currentUnits s)))
  /\ (forall rid t loc,
        tasks s !! rid = Some t -> awaitsForecast (pc t) loc ->
        exists u, ForecastRequest rid loc u ∈ trace s).

(** [s'] is [s] after one more call of [fetchTodayWeather], for city
    [c]: a new request id, a new invocation waiting for its geocoding;
    the DOM and the stored preferences may differ as well. *)
Definition issued (s s' : State) : Prop :=
  exists c,
    latestRequestId s' = latestRequestId s + 1
    /\ tasks s' = <[latestRequestId s + 1 := {| city := c; pc := AwaitGeoFetch |}]> (tasks s)
    /\ trace s' = GeocodeRequest (latestRequestId s + 1) c :: trace s
    /\ lastWeatherData s' = lastWeatherData s
    /\ currentUnits s' = currentUnits s
    /\ lastCity s' = c.

(** [s'] differs from [s] in the DOM and the stored preferences at
    most. *)
Definition quiet (s s' : State) : Prop :=
  agree s s' /\ currentUnits s' = currentUnits s.

(** [s'] differs from [s] in the DOM at most. *)
Definition idle (s s' : State) : Prop :=
  agree s s' /\ currentUnits s' = currentUnits s
  /\ unitPreferences s' = unitPreferences s.

(** An effect of invocation [rid] other than a geocoding request. *)
Definition effectOf (rid : Z) (o : Obs) : Prop :=
  match o with
  | GeocodeRequest _ _ => False
  | ForecastRequest r _ _ | ForecastPayload r _ | Render r _ | ConsoleError r _ =>
    r = rid
  end.

(** [s'] has the variables, the stored preferences and the task pool of
    [s]. *)
Definition sameData (s s' : State) : Prop :=
  lastCity s' = lastCity s /\ latestRequestId s' = latestRequestId s
  /\ lastWeatherData s' = lastWeatherData s /\ tasks s' = tasks s
  /\ currentUnits s' = currentUnits s /\ unitPreferences s' = unitPreferences s.

(** [s'] is [s] after invocation [rid] has acted: the city, the counter
    and the stored preferences are those of [s], so are the other
    invocations, and what the trace has gained are effects of [rid]. *)
Definition actOf (rid : Z) (s s' : State) : Prop :=
  lastCity s' = lastCity s /\ latestRequestId s' = latestRequestId s
  /\ unitPreferences s' = unitPreferences s
  /\ (forall k, k <> rid -> tasks s' !! k = tasks s !! k)
  /\ exists add, trace s' = add ++ trace s /\ Forall (effectOf rid) add.

Definition isForecastRequest (o : Obs) : Prop :=
  match o with ForecastRequest _ _ _ => True | _ => False end.


(** Suspension points reached without asking for a forecast or storing a
    payload. *)
Definition plainPc (p : Pc) : Prop :=
  p = AwaitGeoJson \/ p = AwaitNoResultDelay \/ exists e, p = AwaitErrorDelay e.

(** The states in which resuming invocation [rid], suspended as [t] in
    state [s], can end. *)
Inductive Resumed (pg : Page) (rid : Z) (t : Task) (s : State) : State -> Prop :=
| R_undelivered : Resumed pg rid t s s
| R_suspend p : plainPc p -> Resumed pg rid t s (suspend rid t p s)
| R_response loc :
    pc t = AwaitForecastFetch loc ->
    Resumed pg rid t s (suspend rid t (AwaitForecastJson loc) s)
| R_return :
    rid <> latestRequestId s -> Resumed pg rid t s (finish rid s)
| R_forecast loc :
    rid = latestRequestId s -> pc t = AwaitGeoJson ->
    Resumed pg rid t s
      (suspend rid t (AwaitForecastFetch loc)
         (log (ForecastRequest rid loc
                 (fst (getUnitParams (unitPreferences s) (currentUnits s))))
            (set_currentUnits
               (snd (getUnitParams (unitPreferences s) (currentUnits s))) s)))
| R_noResult :
    pc t = AwaitNoResultDelay -> Resumed pg rid t s (showNoResult rid s)
| R_payload loc data :
    pc t = AwaitForecastJson loc ->
    is_Some (current_weather data) -> is_Some (hourly data) ->
    Resumed pg rid t s
      (suspend rid t (AwaitRenderDelay loc data)
         (set_lastWeatherData (Some data) (log (ForecastPayload rid data) s)))
| R_badPayload loc data :
    pc t = AwaitForecastJson loc ->
    current_weather data = None \/ hourly data = None ->
    Resumed pg rid t s
      (suspend rid t (AwaitErrorDelay MissingWeatherData)
         (log (ForecastPayload rid data) s))
| R_rendered loc data :
    rid = latestRequestId s -> pc t = AwaitRenderDelay loc data ->
    snd (render pg rid loc data s) = None ->
    Resumed pg rid t s (finish rid (fst (render pg rid loc data s)))
| R_renderFailed loc data e :
    rid = latestRequestId s -> pc t = AwaitRenderDelay loc data ->
    snd (render pg rid loc data s) = Some e ->
    Resumed pg rid t s
      (suspend rid t (AwaitErrorDelay e) (fst (render pg rid loc data s)))
| R_errorPanel e :
    rid = latestRequestId s -> pc t = AwaitErrorDelay e ->
    Resumed pg rid t s
      (finish rid (showError (log (ConsoleError rid e) (hideSearchLoading s)))).

End Handlers.

(* ===================================================================== *)
(** * Properties *)
(* ===================================================================== *)

Example new_Date_ex1 (f : string -> DateTime.Date) :
  DateTime.new_Date {| DateTime.offset := 0; DateTime.legacy := f |} "1970-01-02T01:00"
  = Some 90000000.
Proof. reflexivity. Qed.

Example new_Date_ex2 (f : string -> DateTime.Date) :
  DateTime.new_Date {| DateTime.offset := 7200000; DateTime.legacy := f |}
    "2024-03-01T00:00"
  = Some 1709244000000.
Proof. reflexivity. Qed.

Example new_Date_ex3 (f : string -> DateTime.Date) :
  DateTime.new_Date {| DateTime.offset := 0; DateTime.legacy := f |} "T00:00"
  = f "T00:00"%string.
Proof. reflexivity. Qed.

Example new_Date_ex4 (f : string -> DateTime.Date) :
  DateTime.new_Date {| DateTime.offset := 0; DateTime.legacy := f |}
    "2024-02-29T23:59:59.999Z"
  = Some 1709251199999.
Proof. reflexivity. Qed.

Example new_Date_ex5 (f : string -> DateTime.Date) :
  DateTime.new_Date {| DateTime.offset := 0; DateTime.legacy := f |}
    "2024-02-29T20:30-05:00"
  = Some 1709256600000.
Proof. reflexivity. Qed.

Example new_Date_ex6 (f : string -> DateTime.Date) :
  DateTime.new_Date {| DateTime.offset := 0; DateTime.legacy := f |} "2024-02-29 20:30"
  = f "2024-02-29 20:30"%string.
Proof. reflexivity. Qed.

Example displayHour_ex : Windower.displayHour 15 = "3 PM"%string /\ Windower.displayHour 0 = "12 AM"%string /\ Windower.displayHour (-3) = "-3 AM"%string.
Proof. repeat split; reflexivity. Qed.

(* ===================================================================== *)
(** ** Facts about the date-time string format *)
(* ===================================================================== *)

Section DateTimeFacts.
Import DateTime.

Lemma list_ascii_of_string_app (a b : string) :
  list_ascii_of_string (a +:+ b)
  = list_ascii_of_string a ++ list_ascii_of_string b.
Proof. induction a as [|c a IH]; simpl; [done | by rewrite IH]. Qed.

Lemma TimeClip_Some t v : TimeClip t = Some v -> v = t.
Proof. unfold TimeClip. case_match; congruence. Qed.

Lemma digit_not_T c d : digit c = Some d -> c <> "T"%char.
Proof. intros H ->. discriminate. Qed.

Lemma expect_split c s r : expect c s = Some r -> s = c :: r.
Proof.
  destruct s as [|x s]; simpl; [done|].
  destruct (Ascii.eqb_spec x c); [|done]. by intros [= ->]; subst.
Qed.

Lemma digits_split k s v r :
  digits k s = Some (v, r) -> exists p, s = p ++ r /\ "T"%char ∉ p.
Proof.
  revert s v. induction k as [|k IH]; intros s v; simpl.
  - intros [= <- <-]. exists []. split; [done | apply not_elem_of_nil].
  - destruct s as [|c s]; [done|].
    destruct (digit c) eqn:Hd; [|done].
    destruct (digits k s) as [[v' r']|] eqn:Hk; [|done].
    intros [= <- <-]. destruct (IH _ _ Hk) as (p & -> & Hp).
    exists (c :: p). split; [done|].
    rewrite not_elem_of_cons. split; [|done].
    intros E. symmetry in E. by apply digit_not_T in Hd.
Qed.

(** Reading a date from [d ++ "T" :: x] never reads past the ["T"]. *)

Lemma expect_app_T c d x :
  c <> "T"%char ->
  expect c (d ++ "T"%char :: x)
  = match expect c d with Some r => Some (r ++ "T"%char :: x) | None => None end.
Proof.
  intros Hc. destruct d as [|a d]; cbn [app expect].
  - destruct (Ascii.eqb_spec "T"%char c); [congruence | done].
  - by destruct (Ascii.eqb a c).
Qed.

Lemma digits_app_T k d x :
  digits k (d ++ "T"%char :: x)
  = match digits k d with
    | Some (v, r) => Some (v, r ++ "T"%char :: x)
    | None => None
    end.
Proof.
  revert d. induction k as [|k IH]; intros d; simpl; [done|].
  destruct d as [|c d]; simpl; [done|].
  destruct (digit c); [|done]. rewrite IH.
  by destruct (digits k d) as [[v r]|].
Qed.

Lemma parse_year_app_T d x :
  parse_year (d ++ "T"%char :: x)
  = match parse_year d with
    | Some (y, r) => Some (y, r ++ "T"%char :: x)
    | None => None
    end.
Proof.
  unfold parse_year. rewrite !expect_app_T by done.
  destruct (expect "+" d) as [r|].
  - apply digits_app_T.
  - destruct (expect "-" d) as [r|]; rewrite digits_app_T.
    + destruct (digits 6 r) as [[y r']|]; [|done]. by destruct (y =? 0).
    + done.
Qed.

Lemma parse_date_app_T d x :
  parse_date (d ++ "T"%char :: x)
  = match parse_date d with
    | Some (y, m, dd, r) => Some (y, m, dd, r ++ "T"%char :: x)
    | None => None
    end.
Proof.
  unfold parse_date. rewrite parse_year_app_T.
  destruct (parse_year d) as [[y r1]|]; [|done].
  rewrite expect_app_T by done.
  destruct (expect "-" r1) as [r2|]; [|done].
  rewrite digits_app_T. destruct (digits 2 r2) as [[m r3]|]; [|done].
  destruct ((1 <=? m) && (m <=? 12)); [|done].
  rewrite expect_app_T by done.
  destruct (expect "-" r3) as [r4|]; [|done].
  rewrite digits_app_T. destruct (digits 2 r4) as [[dd r5]|]; [|done].
  by destruct ((1 <=? dd) && (dd <=? 31)).
Qed.

(** A time-of-day part contains no ["T"]. *)

Lemma parse_hm_split s h m r :
  parse_hm s = Some (h, m, r) -> exists p, s = p ++ r /\ "T"%char ∉ p.
Proof.
  unfold parse_hm.
  destruct (digits 2 s) as [[h' r0]|] eqn:H1; [|done].
  destruct (expect ":" r0) as [r1|] eqn:H2; [|done].
  destruct (digits 2 r1) as [[m' r2]|] eqn:H3; [|done].
  intros [= <- <- <-].
  apply digits_split in H1 as (p1 & -> & Hp1).
  apply expect_split in H2 as ->.
  apply digits_split in H3 as (p3 & -> & Hp3).
  exists (p1 ++ ":"%char :: p3). split; [by rewrite <- app_assoc|].
  rewrite elem_of_app, elem_of_cons. intros [?|[?|?]]; done || discriminate.
Qed.

Lemma parse_sec_split s sec ms r :
  parse_sec s = Some (sec, ms, r) -> exists p, s = p ++ r /\ "T"%char ∉ p.
Proof.
  unfold parse_sec.
  destruct (expect ":" s) as [r1|] eqn:H1.
  2:{ intros [= <- <- <-]. exists []. split; [done | apply not_elem_of_nil]. }
  apply expect_split in H1 as ->.
  destruct (digits 2 r1) as [[sec' r2]|] eqn:H2; [|done].
  apply digits_split in H2 as (p2 & -> & Hp2).
  destruct (expect "." r2) as [r3|] eqn:H3.
  - apply expect_split in H3 as ->.
    destruct (digits 3 r3) as [[ms' r4]|] eqn:H4; [|done].
    apply digits_split in H4 as (p4 & -> & Hp4).
    intros [= <- <- <-].
    exists (":"%char :: p2 ++ "."%char :: p4). split.
    + simpl. by rewrite <- app_assoc.
    + rewrite elem_of_cons, elem_of_app, elem_of_cons.
      intros [?|[?|[?|?]]]; done || discriminate.
  - intros [= <- <- <-]. exists (":"%char :: p2). split; [done|].
    rewrite elem_of_cons. intros [?|?]; done || discriminate.
Qed.

Lemma parse_zone_no_T s z : parse_zone s = Some z -> "T"%char ∉ s.
Proof.
  unfold parse_zone. destruct s as [|c r]; [intros _; apply not_elem_of_nil|].
  destruct (Ascii.eqb_spec c "Z"%char) as [->|Hz].
  - destruct r; [|done]. intros _.
    rewrite elem_of_cons. intros [?|?%elem_of_nil]; done || discriminate.
  - destruct (Ascii.eqb_spec c "+"%char) as [->|Hp];
      [|destruct (Ascii.eqb_spec c "-"%char) as [->|Hm]]; simpl; [| |done].
    all: destruct (parse_hm r) as [[[h m] r']|] eqn:H; [|done].
    all: destruct r'; [|done]; intros _.
    all: apply parse_hm_split in H as (p & -> & Hp');
         rewrite app_nil_r, elem_of_cons; intros [?|?]; done || discriminate.
Qed.

Lemma parse_time_no_T s v : parse_time s = Some v -> "T"%char ∉ s.
Proof.
  unfold parse_time.
  destruct (parse_hm s) as [[[h m] r1]|] eqn:H1; [|done].
  destruct (parse_sec r1) as [[[sec ms] r2]|] eqn:H2; [|done].
  destruct (parse_zone r2) as [z|] eqn:H3; [|done]. intros _.
  apply parse_hm_split in H1 as (p1 & -> & Hp1).
  apply parse_sec_split in H2 as (p2 & -> & Hp2).
  apply parse_zone_no_T in H3.
  rewrite !elem_of_app. intros [?|[?|?]]; done || discriminate.
Qed.

(** A string [d ++ "T" ++ x] is of the format exactly when [d] is a
    whole date-only form and [x] a whole time-of-day part. *)
Lemma format_date_time tza d x v :
  format tza (d ++ "T"%char :: x) = Some v ->
  exists y m dd time z,
    parse_date d = Some (y, m, dd, []) /\
    parse_time x = Some (time, z) /\
    v = resolve tza (MakeDay y (m - 1) dd) time z.
Proof.
  unfold format. rewrite parse_date_app_T.
  destruct (parse_date d) as [[[[y m] dd] r]|] eqn:Hd; [|done].
  destruct r as [|c r]; simpl.
  - destruct (parse_time x) as [[time z]|] eqn:Ht; [|done].
    intros [= <-]. by exists y, m, dd, time, z.
  - destruct (Ascii.eqb c "T"); [|done].
    destruct (parse_time (r ++ "T"%char :: x)) as [[time z]|] eqn:Ht; [|done].
    apply parse_time_no_T in Ht. exfalso. apply Ht.
    rewrite elem_of_app, elem_of_cons. auto.
Qed.

Lemma format_whole_date tza d x y m dd time z :
  parse_date d = Some (y, m, dd, []) -> parse_time x = Some (time, z) ->
  format tza (d ++ "T"%char :: x)
  = Some (resolve tza (MakeDay y (m - 1) dd) time z).
Proof.
  intros Hd Ht. unfold format. rewrite parse_date_app_T, Hd. simpl. by rewrite Ht.
Qed.

Lemma parse_date_time tza d x v :
  parse tza (d ++ "T"%char :: x) = Some v ->
  exists y m dd time z,
    parse_date d = Some (y, m, dd, []) /\
    parse_time x = Some (time, z) /\
    v = resolve tza (MakeDay y (m - 1) dd) time z.
Proof.
  unfold parse. destruct (format tza _) as [w|] eqn:E; [|done].
  intros Hv. apply TimeClip_Some in Hv as ->. by apply format_date_time.
Qed.

(** A string of the format has the value the format gives it, whatever
    the host's engine does with other strings. *)
Lemma new_Date_format (host : Host) s v :
  format host (list_ascii_of_string s) = Some v -> new_Date host s = TimeClip v.
Proof. intros E. unfold new_Date. by rewrite E. Qed.

Lemma new_Date_strict tza s :
  new_Date (strict tza) s = parse tza (list_ascii_of_string s).
Proof. unfold new_Date, parse. by destruct (format _ _). Qed.

(** *** Dates written [YYYY-MM-DD] *)

Lemma digit_digitChar j : 0 <= j <= 9 -> digit (digitChar j) = Some j.
Proof.
  intros Hj. unfold digit, digitChar.
  rewrite N_ascii_embedding by lia.
  rewrite Z2N.id by lia.
  replace (48 <=? 48 + j) with true by (symmetry; apply Z.leb_le; lia).
  replace (48 + j <=? 57) with true by (symmetry; apply Z.leb_le; lia).
  simpl. f_equal. lia.
Qed.

Lemma digitChar_other j c :
  0 <= j <= 9 -> digit c = None -> Ascii.eqb (digitChar j) c = false.
Proof.
  intros Hj Hc. destruct (Ascii.eqb_spec (digitChar j) c) as [<-|]; [|done].
  rewrite digit_digitChar in Hc by done. discriminate.
Qed.

Lemma digits_padded k n r :
  0 <= n < 10 ^ Z.of_nat k -> digits k (padded k n ++ r) = Some (n, r).
Proof.
  revert n. induction k as [|k IH]; intros n Hn.
  - simpl in *. f_equal. f_equal. lia.
  - cbn [padded digits app].
    assert (Hp : 0 < 10 ^ Z.of_nat k) by (apply Z.pow_pos_nonneg; lia).
    assert (E : 10 ^ Z.of_nat (S k) = 10 * 10 ^ Z.of_nat k).
    { rewrite Nat2Z.inj_succ, Z.pow_succ_r by lia. done. }
    rewrite E in Hn.
    assert (Hq : 0 <= n / 10 ^ Z.of_nat k <= 9).
    { split; [apply Z.div_pos; lia|].
      assert (n / 10 ^ Z.of_nat k < 10); [|lia].
      apply Z.div_lt_upper_bound; lia. }
    rewrite (digit_digitChar _ Hq).
    rewrite IH by (apply Z.mod_pos_bound; lia).
    f_equal. f_equal.
    rewrite (Z.div_mod n (10 ^ Z.of_nat k)) at 3 by lia. lia.
Qed.

Lemma DaysInMonth_bound y m : 28 <= DaysInMonth y m <= 31.
Proof. unfold DaysInMonth. repeat case_match; lia. Qed.

Lemma parse_date_isoDate y m d :
  calendarDay y m d ->
  parse_date (list_ascii_of_string (isoDate y m d)) = Some (y, m, d, []).
Proof.
  intros (Hy & Hm & Hd). pose proof (DaysInMonth_bound y m) as Hb.
  unfold isoDate. rewrite list_ascii_of_string_of_list_ascii.
  unfold parse_date, parse_year.
  assert (H0 : 0 <= y / 10 ^ Z.of_nat 3 <= 9).
  { change (10 ^ Z.of_nat 3) with 1000. split; [apply Z.div_pos; lia|].
    assert (y / 1000 < 10); [apply Z.div_lt_upper_bound; lia | lia]. }
  assert (Ep : expect "+" (padded 4 y ++ "-"%char :: padded 2 m ++ "-"%char :: padded 2 d) = None).
  { cbn [padded app expect]. by rewrite (digitChar_other _ "+"%char H0). }
  assert (Em : expect "-" (padded 4 y ++ "-"%char :: padded 2 m ++ "-"%char :: padded 2 d) = None).
  { cbn [padded app expect]. by rewrite (digitChar_other _ "-"%char H0). }
  rewrite Ep, Em.
  rewrite digits_padded by (change (10 ^ Z.of_nat 4) with 10000; lia).
  cbn [expect]. rewrite Ascii.eqb_refl.
  rewrite digits_padded by (change (10 ^ Z.of_nat 2) with 100; lia).
  replace ((1 <=? m) && (m <=? 12)) with true
    by (symmetry; apply andb_true_iff; split; apply Z.leb_le; lia).
  cbn [expect]. rewrite Ascii.eqb_refl.
  rewrite <- (app_nil_r (padded 2 d)).
  rewrite digits_padded by (change (10 ^ Z.of_nat 2) with 100; lia).
  replace ((1 <=? d) && (d <=? 31)) with true
    by (symmetry; apply andb_true_iff; split; apply Z.leb_le; lia).
  done.
Qed.

Lemma parse_year_split s y r :
  parse_year s = Some (y, r) -> exists p, s = p ++ r /\ "T"%char ∉ p.
Proof.
  unfold parse_year.
  destruct (expect "+" s) as [r1|] eqn:H1.
  - apply expect_split in H1 as ->. intros H.
    apply digits_split in H as (p & -> & Hp).
    exists ("+"%char :: p). split; [done|].
    rewrite elem_of_cons. intros [?|?]; done || discriminate.
  - destruct (expect "-" s) as [r1|] eqn:H2.
    + apply expect_split in H2 as ->.
      destruct (digits 6 r1) as [[y' r']|] eqn:H; [|done].
      destruct (y' =? 0); [done|]. intros [= <- <-].
      apply digits_split in H as (p & -> & Hp).
      exists ("-"%char :: p). split; [done|].
      rewrite elem_of_cons. intros [?|?]; done || discriminate.
    + apply digits_split.
Qed.

Lemma parse_date_split s y m d r :
  parse_date s = Some (y, m, d, r) -> exists p, s = p ++ r /\ "T"%char ∉ p.
Proof.
  unfold parse_date.
  destruct (parse_year s) as [[y' r1]|] eqn:H1; [|done].
  apply parse_year_split in H1 as (p1 & -> & Hp1).
  destruct (expect "-" r1) as [r2|] eqn:H2.
  2:{ intros [= <- <- <- <-]. by exists p1. }
  apply expect_split in H2 as ->.
  destruct (digits 2 r2) as [[m' r3]|] eqn:H3; [|done].
  apply digits_split in H3 as (p3 & -> & Hp3).
  destruct ((1 <=? m') && (m' <=? 12)); [|done].
  destruct (expect "-" r3) as [r4|] eqn:H4.
  2:{ intros [= <- <- <- <-]. exists (p1 ++ "-"%char :: p3).
      split; [by rewrite <- app_assoc|].
      rewrite elem_of_app, elem_of_cons. intros [?|[?|?]]; done || discriminate. }
  apply expect_split in H4 as ->.
  destruct (digits 2 r4) as [[d' r5]|] eqn:H5; [|done].
  apply digits_split in H5 as (p5 & -> & Hp5).
  destruct ((1 <=? d') && (d' <=? 31)); [|done].
  intros [= <- <- <- <-]. exists (p1 ++ "-"%char :: p3 ++ "-"%char :: p5).
  split; [rewrite <- app_assoc; cbn [app]; by rewrite <- app_assoc|].
  rewrite elem_of_app, elem_of_cons, elem_of_app, elem_of_cons.
  intros [?|[?|[?|[?|?]]]]; done || discriminate.
Qed.

Lemma DayFromYear_succ y :
  DayFromYear (y + 1) = DayFromYear y + (if InLeapYear y then 366 else 365).
Proof.
  unfold DayFromYear, InLeapYear.
  destruct (Z.eqb_spec (y mod 4) 0), (Z.eqb_spec (y mod 100) 0),
    (Z.eqb_spec (y mod 400) 0); cbn [andb orb negb];
    Z.div_mod_to_equations; lia.
Qed.

Lemma DayFromYear_mono y y' : y <= y' -> DayFromYear y <= DayFromYear y'.
Proof.
  unfold DayFromYear. intros H. Z.div_mod_to_equations. lia.
Qed.

Ltac evalDays :=
  repeat match goal with
  | |- context [daysBeforeMonth ?l ?m] =>
    let v := eval vm_compute in (daysBeforeMonth l m) in
    change (daysBeforeMonth l m) with v
  | H : context [daysBeforeMonth ?l ?m] |- _ =>
    let v := eval vm_compute in (daysBeforeMonth l m) in
    change (daysBeforeMonth l m) with v in H
  end.

Lemma dayOfYear_bound y m d :
  calendarDay y m d ->
  0 <= daysBeforeMonth (InLeapYear y) (m - 1) + d - 1
    < (if InLeapYear y then 366 else 365).
Proof.
  intros (_ & Hm & Hd). unfold DaysInMonth in Hd.
  assert (Hc : m = 1 \/ m = 2 \/ m = 3 \/ m = 4 \/ m = 5 \/ m = 6 \/ m = 7
               \/ m = 8 \/ m = 9 \/ m = 10 \/ m = 11 \/ m = 12) by lia.
  destruct (InLeapYear y);
    destruct Hc as [->|[->|[->|[->|[->|[->|[->|[->|[->|[->|[->| ->]]]]]]]]]]];
    cbn in Hd; evalDays; lia.
Qed.

Lemma MakeDay_calendar y m d :
  1 <= m <= 12 ->
  MakeDay y (m - 1) d
  = DayFromYear y + daysBeforeMonth (InLeapYear y) (m - 1) + d - 1.
Proof.
  intros Hm. unfold MakeDay.
  rewrite Z.div_small, Z.mod_small, Z.add_0_r by lia. done.
Qed.

Lemma dayOfYear_inj (leap : bool) m d m' d' :
  1 <= m <= 12 -> 1 <= m' <= 12 ->
  1 <= d <= (if m =? 2 then (if leap then 29 else 28)
             else if (m =? 4) || (m =? 6) || (m =? 9) || (m =? 11) then 30 else 31) ->
  1 <= d' <= (if m' =? 2 then (if leap then 29 else 28)
              else if (m' =? 4) || (m' =? 6) || (m' =? 9) || (m' =? 11) then 30 else 31) ->
  daysBeforeMonth leap (m - 1) + d = daysBeforeMonth leap (m' - 1) + d' ->
  m = m' /\ d = d'.
Proof.
  intros Hm Hm' Hd Hd' E.
  assert (Hc : m = 1 \/ m = 2 \/ m = 3 \/ m = 4 \/ m = 5 \/ m = 6 \/ m = 7
               \/ m = 8 \/ m = 9 \/ m = 10 \/ m = 11 \/ m = 12) by lia.
  assert (Hc' : m' = 1 \/ m' = 2 \/ m' = 3 \/ m' = 4 \/ m' = 5 \/ m' = 6 \/ m' = 7
               \/ m' = 8 \/ m' = 9 \/ m' = 10 \/ m' = 11 \/ m' = 12) by lia.
  destruct leap;
    destruct Hc as [->|[->|[->|[->|[->|[->|[->|[->|[->|[->|[->| ->]]]]]]]]]]];
    destruct Hc' as [->|[->|[->|[->|[->|[->|[->|[->|[->|[->|[->| ->]]]]]]]]]]];
    cbn in Hd, Hd'; evalDays; lia.
Qed.

(** Distinct days of the calendar have distinct day numbers. *)
Lemma MakeDay_inj y m d y' m' d' :
  calendarDay y m d -> calendarDay y' m' d' ->
  MakeDay y (m - 1) d = MakeDay y' (m' - 1) d' ->
  y = y' /\ m = m' /\ d = d'.
Proof.
  intros C C' E.
  pose proof (dayOfYear_bound y m d C) as B.
  pose proof (dayOfYear_bound y' m' d' C') as B'.
  destruct C as (Hy & Hm & Hd), C' as (Hy' & Hm' & Hd').
  rewrite !MakeDay_calendar in E by done.
  assert (Ey : y = y').
  { destruct (Z.lt_trichotomy y y') as [L|[?|L]]; [|done|]; exfalso.
    - pose proof (DayFromYear_succ y). pose proof (DayFromYear_mono (y + 1) y').
      destruct (InLeapYear y); lia.
    - pose proof (DayFromYear_succ y'). pose proof (DayFromYear_mono (y' + 1) y).
      destruct (InLeapYear y'); lia. }
  subst y'. split; [done|].
  apply (dayOfYear_inj (InLeapYear y)); [done..|lia].
Qed.

Lemma digit_range c v : digit c = Some v -> 0 <= v <= 9.
Proof. unfold digit. case_match eqn:E; [|done]. intros [= <-]. lia. Qed.

Lemma digits_nonneg k s v r : digits k s = Some (v, r) -> 0 <= v.
Proof.
  revert s v r. induction k as [|k IH]; intros s v r; simpl.
  - intros [= <- _]. lia.
  - destruct s as [|c s]; [done|].
    destruct (digit c) as [x|] eqn:Hc; [|done].
    destruct (digits k s) as [[v' r']|] eqn:Hk; [|done].
    intros [= <- _]. apply digit_range in Hc. apply IH in Hk.
    assert (0 <= 10 ^ Z.of_nat k) by (apply Z.pow_nonneg; lia). nia.
Qed.

Lemma parse_time_nonneg s time z : parse_time s = Some (time, z) -> 0 <= time.
Proof.
  unfold parse_time, parse_hm, parse_sec.
  destruct (digits 2 s) as [[h r0]|] eqn:H1; [|done].
  destruct (expect ":" r0) as [r1|]; [|done].
  destruct (digits 2 r1) as [[m r2]|] eqn:H2; [|done].
  apply digits_nonneg in H1, H2.
  assert (G : forall sec ms, 0 <= sec -> 0 <= ms -> 0 <= MakeTime h m sec ms).
  { intros sec ms ? ?. unfold MakeTime, msPerHour, msPerMinute, msPerSecond. lia. }
  destruct (expect ":" r2) as [r3|].
  - destruct (digits 2 r3) as [[sec r4]|] eqn:H3; [|done].
    apply digits_nonneg in H3.
    destruct (expect "." r4) as [r5|].
    + destruct (digits 3 r5) as [[ms r6]|] eqn:H4; [|done].
      apply digits_nonneg in H4.
      destruct (parse_zone r6); [|done]. case_match; [|done].
      intros [= <- _]. by apply G.
    + destruct (parse_zone r4); [|done]. case_match; [|done].
      intros [= <- _]. by apply G.
  - destruct (parse_zone r2); [|done]. case_match; [|done].
    intros [= <- _]. by apply G.
Qed.

End DateTimeFacts.

(* ===================================================================== *)
(** ** The day/hour windower *)
(* ===================================================================== *)

Section WindowerFacts.
Import DateTime Windower.

Lemma filter_sublist {A} (f : A -> bool) (l : list A) :
  sublist (List.filter f l) l.
Proof.
  induction l as [|a l IH]; simpl; [constructor|].
  destruct (f a); by constructor.
Qed.

Lemma filter_Forall {A} (f : A -> bool) (l : list A) :
  Forall (fun a => f a = true) (List.filter f l).
Proof.
  induction l as [|a l IH]; simpl; [constructor|].
  destruct (f a) eqn:E; [by constructor | done].
Qed.

Lemma filter_greatest {A} (f : A -> bool) (l sub : list A) :
  sublist sub l -> Forall (fun a => f a = true) sub ->
  sublist sub (List.filter f l).
Proof.
  induction 1 as [|a k l Hs IH|a k l Hs IH]; intros HF; simpl.
  - constructor.
  - apply Forall_cons in HF as [Ha HF]. rewrite Ha.
    constructor. by apply IH.
  - destruct (f a); [constructor|]; by apply IH.
Qed.

Lemma filter_none {A} (f : A -> bool) (l : list A) :
  (forall a, a ∈ l -> f a = false) -> List.filter f l = [].
Proof.
  induction l as [|a l IH]; intros H; simpl; [done|].
  rewrite (H a) by left. apply IH. intros b Hb. apply H. by right.
Qed.

Lemma inWindow_true (host : Host) start end_ h :
  inWindow host start end_ h = true <->
  exists t s e, new_Date host (hd_time h) = Some t /\ start = Some s /\
                end_ = Some e /\ s <= t <= e.
Proof.
  unfold inWindow, ge, le.
  destruct (new_Date host (hd_time h)) as [t|], start as [s|], end_ as [e|];
    simpl; split.
  all: try (intros (?&?&?&?&?&?&?); congruence).
  all: try (rewrite ?andb_false_r; discriminate).
  - rewrite andb_true_iff, !Z.leb_le. intros [? ?].
    exists t, s, e. repeat split; done.
  - intros (t'&s'&e'&[= <-]&[= <-]&[= <-]&?&?).
    rewrite andb_true_iff, !Z.leb_le. done.
Qed.

(** For a day key that is a whole date of the format, the two window
    bounds are local midnight of the day it names and 23 h 59 min
    later. *)
Lemma window_of_day (host : Host) dayKey y m d :
  parse_date (list_ascii_of_string dayKey) = Some (y, m, d, []) ->
  new_Date host (dayKey +:+ "T00:00")
  = TimeClip (MakeDay y (m - 1) d * msPerDay - host)
  /\ new_Date host (dayKey +:+ "T23:59")
     = TimeClip (MakeDay y (m - 1) d * msPerDay - host + 86340000).
Proof.
  intros Hd. split.
  - rewrite (new_Date_format host _ (MakeDay y (m - 1) d * msPerDay - host));
      [done|].
    rewrite list_ascii_of_string_app.
    change (list_ascii_of_string "T00:00")
      with ("T"%char :: list_ascii_of_string "00:00").
    rewrite (format_whole_date host _ (list_ascii_of_string "00:00")
               y m d 0 Local Hd eq_refl).
    unfold resolve, UTC, MakeDate. f_equal. lia.
  - rewrite (new_Date_format host _
               (MakeDay y (m - 1) d * msPerDay - host + 86340000)); [done|].
    rewrite list_ascii_of_string_app.
    change (list_ascii_of_string "T23:59")
      with ("T"%char :: list_ascii_of_string "23:59").
    rewrite (format_whole_date host _ (list_ascii_of_string "23:59")
               y m d 86340000 Local Hd eq_refl).
    unfold resolve, UTC, MakeDate. f_equal. lia.
Qed.

(** The samples of a slice of such a day key fall on the local calendar
    day it names. *)
Lemma slice_day (host : Host) dayKey y m d h :
  parse_date (list_ascii_of_string dayKey) = Some (y, m, d, []) ->
  inWindow host (new_Date host (dayKey +:+ "T00:00"))
    (new_Date host (dayKey +:+ "T23:59")) h = true ->
  exists t, new_Date host (hd_time h) = Some t
            /\ MakeDay y (m - 1) d * msPerDay - host <= t
               <= MakeDay y (m - 1) d * msPerDay - host + 86340000.
Proof.
  intros Hd Hin. destruct (window_of_day host dayKey y m d Hd) as [Es Ee].
  apply inWindow_true in Hin as (t & s & e & Ht & Hs & He & Hle).
  rewrite Es in Hs. rewrite Ee in He.
  apply TimeClip_Some in Hs as ->. apply TimeClip_Some in He as ->.
  by exists t.
Qed.

Lemma day_of_window tza day t :
  day * msPerDay - tza <= t <= day * msPerDay - tza + 86340000 ->
  localDay tza t = day.
Proof.
  unfold localDay, Day, LocalTime, msPerDay. intros H.
  symmetry. apply (Z.div_unique _ _ _ (t + tza - day * 86400000)); lia.
Qed.

Lemma dateComponent_app a b :
  "T"%char ∉ list_ascii_of_string a ->
  dateComponent (a +:+ String "T" b) = a.
Proof.
  induction a as [|c a IH]; intros H; [done|].
  cbn in H. apply not_elem_of_cons in H as [Hc Ha].
  change (dateComponent (String c (a +:+ String "T" b)) = String c a).
  cbn [dateComponent].
  destruct (Ascii.eqb_spec c "T"%char) as [->|_]; [done|].
  by rewrite IH.
Qed.

(** A sample of local time written [YYYY-MM-DDTHH:mm], with a day of the
    calendar and an hour before 24, is in the slice of a day key written
    [YYYY-MM-DD] only if the date it spells is the day key. *)
Lemma slice_date_component (host : Host) hourly y m d y' m' d' clock time h :
  calendarDay y m d -> calendarDay y' m' d' ->
  hd_time h = isoDate y' m' d' +:+ String "T" clock ->
  parse_time (list_ascii_of_string clock) = Some (time, Local) ->
  time < msPerDay ->
  h ∈ getHourlyForDay host hourly (isoDate y m d) ->
  dateComponent (hd_time h) = isoDate y m d.
Proof.
  intros C C' Eh Ht Hlt Hin.
  pose proof (parse_date_isoDate y m d C) as Hd.
  pose proof (parse_date_isoDate y' m' d' C') as Hd'.
  pose proof (parse_time_nonneg _ _ _ Ht) as H0.
  unfold getHourlyForDay in Hin.
  pose proof (filter_Forall (inWindow host
    (new_Date host (isoDate y m d +:+ "T00:00"))
    (new_Date host (isoDate y m d +:+ "T23:59"))) (samples hourly)) as HF.
  rewrite Forall_forall in HF. apply HF in Hin.
  destruct (slice_day host _ y m d h Hd Hin) as (t & Hnew & Hle).
  apply day_of_window in Hle.
  assert (Ev : new_Date host (hd_time h)
               = TimeClip (resolve host (MakeDay y' (m' - 1) d') time Local)).
  { apply new_Date_format. rewrite Eh, list_ascii_of_string_app.
    change (list_ascii_of_string (String "T" clock))
      with ("T"%char :: list_ascii_of_string clock).
    by apply format_whole_date. }
  rewrite Hnew in Ev. symmetry in Ev. apply TimeClip_Some in Ev.
  assert (Hday : localDay host t = MakeDay y' (m' - 1) d').
  { subst t. unfold localDay, Day, LocalTime, resolve, UTC, MakeDate, msPerDay in *.
    symmetry. apply (Z.div_unique _ _ _ time); lia. }
  rewrite Hday in Hle.
  destruct (MakeDay_inj y' m' d' y m d C' C Hle) as (-> & -> & ->).
  rewrite Eh. apply dateComponent_app.
  destruct (parse_date_split _ _ _ _ _ Hd) as (p & E & Hp).
  rewrite app_nil_r in E. by rewrite E.
Qed.

Lemma length_samples hourly : length (samples hourly) = length (hr_time hourly).
Proof. unfold samples. apply length_imap. Qed.

(** The samples are the hourly series index by index. *)
Lemma samples_lookup hourly i h :
  samples hourly !! i = Some h <->
  hr_time hourly !! i = Some (hd_time h) /\
  hd_temperature h = temperature_2m hourly !! i /\
  hd_weathercode h = hr_weathercode hourly !! i.
Proof.
  unfold samples. rewrite list_lookup_imap.
  destruct (hr_time hourly !! i) as [t|]; simpl; split.
  - intros [= <-]. done.
  - destruct h as [ht hT hw]; simpl. intros ([= ->] & -> & ->). done.
  - done.
  - intros [? _]. done.
Qed.

(** [getHours] of a valid date is an hour of the day. *)
Lemma getHours_range tza d hour :
  getHours tza d = Some hour -> 0 <= hour <= 23.
Proof.
  destruct d as [t|]; simpl; [|done]. intros [= <-].
  unfold HourFromTime. pose proof (Z.mod_pos_bound (LocalTime tza t / msPerHour) 24).
  lia.
Qed.

Lemma displayHour_lookup h :
  0 <= h <= 23 -> hourLabels !! Z.to_nat h = Some (displayHour h).
Proof.
  intros Hh.
  assert (Hn : exists n, h = Z.of_nat n /\ (n < 24)%nat).
  { exists (Z.to_nat h). lia. }
  destruct Hn as (n & -> & Hn). rewrite Nat2Z.id.
  do 24 (destruct n as [|n]; [reflexivity|]). lia.
Qed.

(** Every hour card [renderHourly] labels for a slice of
    [getHourlyForDay] carries one of the 24 listed labels. *)
Lemma hourLabel_of_slice (host : Host) hourly dayKey h :
  h ∈ getHourlyForDay host hourly dayKey -> hourLabel host h ∈ hourLabels.
Proof.
  intros Hin. unfold getHourlyForDay in Hin.
  pose proof (filter_Forall (inWindow host
    (new_Date host (dayKey +:+ "T00:00")) (new_Date host (dayKey +:+ "T23:59")))
    (samples hourly)) as HF.
  rewrite Forall_forall in HF. apply HF in Hin.
  apply inWindow_true in Hin as (t & s & e & Ht & _).
  unfold hourLabel. rewrite Ht.
  pose proof (getHours_range host (Some t) _ eq_refl) as Hr.
  apply list_elem_of_lookup. eexists. by apply displayHour_lookup.
Qed.

Lemma times_of_samples hourly : hd_time <$> samples hourly = hr_time hourly.
Proof.
  apply list_eq. intros i. rewrite list_lookup_fmap. unfold samples.
  rewrite list_lookup_imap. by destruct (hr_time hourly !! i).
Qed.

Lemma omap_fmap_S {B} (h : nat -> option B) (indices : list nat) :
  omap h (S <$> indices) = omap (h ∘ S) indices.
Proof.
  induction indices as [|i indices IH]; [done|]. cbn. rewrite IH. done.
Qed.

(** Filtering an indexed map keeps, in increasing order, the indices
    whose image passes the test. *)
Lemma filter_imap_indices {A B} (f : B -> bool) (l : list A) :
  forall g : nat -> A -> B,
  exists indices,
    ascending indices
    /\ (forall i, i ∈ indices <-> exists a, l !! i = Some a /\ f (g i a) = true)
    /\ List.filter f (imap g l) = omap (fun i => g i <$> l !! i) indices.
Proof.
  induction l as [|x l IH]; intros g.
  - exists []. split; [intros a b i j _ H; by rewrite lookup_nil in H|].
    split; [|done]. intros i. rewrite elem_of_nil. split; [done|].
    intros (a & H & _). by rewrite lookup_nil in H.
  - destruct (IH (g ∘ S)) as (rest & Hasc & Hmem & Heq).
    assert (Hasc' : ascending (S <$> rest)).
    { intros a b i j Hab Ha Hb. rewrite list_lookup_fmap in Ha, Hb.
      destruct (rest !! a) as [i'|] eqn:Ea; [|done].
      destruct (rest !! b) as [j'|] eqn:Eb; [|done].
      injection Ha as <-. injection Hb as <-.
      pose proof (Hasc a b i' j' Hab Ea Eb). lia. }
    assert (Hmem' : forall i, i ∈ S <$> rest <->
              i <> 0%nat /\ exists a, (x :: l) !! i = Some a /\ f (g i a) = true).
    { intros i. rewrite list_elem_of_fmap. split.
      - intros (i' & -> & Hi'). split; [done|]. by apply Hmem.
      - intros (Hne & a & Ha & Hf). destruct i as [|i']; [done|].
        exists i'. split; [done|]. apply Hmem. by exists a. }
    assert (Heq' : omap (fun i => g i <$> (x :: l) !! i) (S <$> rest)
                   = List.filter f (imap (g ∘ S) l)).
    { rewrite omap_fmap_S. by rewrite Heq. }
    cbn [imap List.filter]. destruct (f (g 0%nat x)) eqn:E0.
    + exists (0%nat :: (S <$> rest)). split; [|split].
      * intros a b i j Hab Ha Hb. destruct b as [|b]; [lia|].
        destruct a as [|a].
        -- injection Ha as <-. change ((S <$> rest) !! b = Some j) in Hb.
           rewrite list_lookup_fmap in Hb.
           destruct (rest !! b); [|done]. injection Hb as <-. lia.
        -- apply (Hasc' a b i j); [lia|done..].
      * intros i. rewrite elem_of_cons, Hmem'. split.
        -- intros [->|[_ H]]; [|done]. by exists x.
        -- intros (a & Ha & Hf). destruct i as [|i]; [by left|].
           right. split; [done|]. by exists a.
      * cbn. by rewrite Heq'.
    + exists (S <$> rest). split; [done|]. split; [|by rewrite Heq'].
      intros i. rewrite Hmem'. split; [by intros [_ ?]|].
      intros (a & Ha & Hf). split; [|by exists a].
      intros ->. injection Ha as <-. congruence.
Qed.

End WindowerFacts.

(** C4 (amended): [getHourlyForDay] returns, index-aligned with the
    parallel arrays and in input order, exactly the samples whose
    timestamp [new Date] places in the closed window from
    [new Date(dayKey + "T00:00")] to [new Date(dayKey + "T23:59")]: the
    samples at the in-window indices of [hourly.time], in increasing
    order of index, each with the entries the other arrays hold at its
    index.  When [dayKey] is a whole date of the date-time string
    format, every returned sample falls on the local calendar day that
    date denotes (which need not be the date written in the sample's
    own string, nor a date written like [dayKey]).  When [dayKey] is a
    day of the calendar written [YYYY-MM-DD], a returned sample whose
    timestamp is a local time written [YYYY-MM-DDTHH:mm], for a day of
    the calendar and an hour before 24, has [dayKey] as its date
    component.  The result is no longer than the input; an empty
    series, or a series with no timestamp in the window, gives the
    empty list. *)
Theorem getHourlyForDay_window
        (host : DateTime.Host) (hourly : Windower.Hourly) (dayKey : string) :
  let result := Windower.getHourlyForDay host hourly dayKey in
  let within (time : string) :=
    exists t s e,
      DateTime.new_Date host time = Some t /\
      DateTime.new_Date host (dayKey +:+ "T00:00") = Some s /\
      DateTime.new_Date host (dayKey +:+ "T23:59") = Some e /\
      s <= t <= e in
  let sampleAt (i : nat) : option Windower.HourlyData :=
    (fun time => {| Windower.hd_time := time;
                    Windower.hd_temperature := Windower.temperature_2m hourly !! i;
                    Windower.hd_weathercode := Windower.hr_weathercode hourly !! i |})
      <$> Windower.hr_time hourly !! i in
  (exists indices : list nat,
      Windower.ascending indices
      /\ (forall i, i ∈ indices <->
                    exists time, Windower.hr_time hourly !! i = Some time /\ within time)
      /\ result = omap sampleAt indices)
  /\ sublist (Windower.hd_time <$> result) (Windower.hr_time hourly)
  /\ Forall (fun h => within (Windower.hd_time h)) result
  /\ (forall y m d,
        DateTime.parse_date (list_ascii_of_string dayKey) = Some (y, m, d, []) ->
        Forall (fun h => exists t,
                    DateTime.new_Date host (Windower.hd_time h) = Some t /\
                    DateTime.localDay (DateTime.offset host) t
                    = DateTime.MakeDay y (m - 1) d)
               result)
  /\ (forall y m d y' m' d' clock time h,
        dayKey = DateTime.isoDate y m d -> DateTime.calendarDay y m d ->
        Windower.hd_time h = DateTime.isoDate y' m' d' +:+ "T" +:+ clock ->
        DateTime.calendarDay y' m' d' ->
        DateTime.parse_time (list_ascii_of_string clock)
        = Some (time, DateTime.Local) ->
        time < DateTime.msPerDay ->
        h ∈ result ->
        Windower.dateComponent (Windower.hd_time h) = dayKey)
  /\ (length result <= length (Windower.hr_time hourly))%nat
  /\ (Windower.hr_time hourly = [] -> result = [])
  /\ ((forall time, time ∈ Windower.hr_time hourly -> ~ within time) -> result = []).
Proof.
  intros result within sampleAt.
  set (start := DateTime.new_Date host (dayKey +:+ "T00:00")).
  set (end_ := DateTime.new_Date host (dayKey +:+ "T23:59")).
  assert (Hw : forall h, within (Windower.hd_time h) <->
                         Windower.inWindow host start end_ h = true).
  { intros h. rewrite inWindow_true. unfold within. split.
    - intros (t&s&e&?&?&?&?). by exists t, s, e.
    - intros (t&s&e&?&?&?&?). by exists t, s, e. }
  assert (HF : Forall (fun h => within (Windower.hd_time h)) result).
  { eapply Forall_impl; [apply filter_Forall|]. intros h. apply Hw. }
  split.
  { destruct (filter_imap_indices (Windower.inWindow host start end_)
                (Windower.hr_time hourly)
                (fun i time =>
                   {| Windower.hd_time := time;
                      Windower.hd_temperature := Windower.temperature_2m hourly !! i;
                      Windower.hd_weathercode := Windower.hr_weathercode hourly !! i |}))
      as (indices & Hasc & Hmem & Heq).
    exists indices. split; [exact Hasc|]. split; [|exact Heq].
    intros i. rewrite Hmem. split.
    - intros (time & Ht & Hin). exists time. split; [done|]. by apply Hw in Hin.
    - intros (time & Ht & Hin). exists time. split; [done|].
      by apply (Hw {| Windower.hd_time := time;
                      Windower.hd_temperature := Windower.temperature_2m hourly !! i;
                      Windower.hd_weathercode := Windower.hr_weathercode hourly !! i |}). }
  split.
  { rewrite <- (times_of_samples hourly). apply fmap_sublist, filter_sublist. }
  split; [exact HF|]. split.
  { intros y m d Hd. eapply Forall_impl; [apply filter_Forall|]. intros h Hin.
    destruct (slice_day host dayKey y m d h Hd Hin) as (t & Ht & Hle).
    exists t. split; [done|]. by apply day_of_window. }
  split.
  { intros y m d y' m' d' clock time h -> C Eh C' Ht Hlt Hin.
    by apply (slice_date_component host hourly y m d y' m' d' clock time h). }
  split.
  { rewrite <- length_samples. apply sublist_length, filter_sublist. }
  split.
  { intros E. unfold result, Windower.getHourlyForDay, Windower.samples.
    by rewrite E. }
  intros Hno. apply filter_none. intros h Hh.
  apply not_true_is_false. intros Hin.
  apply (Hno (Windower.hd_time h)); [|by apply Hw].
  rewrite <- (times_of_samples hourly). apply list_elem_of_fmap. by exists h.
Qed.

(** C4, as the claim words it, fails: a returned sample's date component
    need not equal [dayKey].  A day key that names no calendar day is
    read as the day it overflows to (the thirtieth of February 2024 as
    the first of March), and a timestamp of hour 24 or with a zone
    designator falls on another local day than the one it spells. *)
Lemma returned_sample_of_another_date :
  let series (times : list string) :=
    {| Windower.hr_time := times;
       Windower.temperature_2m := [1; 2];
       Windower.hr_weathercode := [0; 0];
       Windower.apparent_temperature := [1; 2];
       Windower.relative_humidity_2m := [40; 40];
       Windower.precipitation := [0; 0] |} in
  let returned (times : list string) (dayKey : string) :=
    Windower.dateComponent
      <$> (Windower.hd_time
             <$> Windower.getHourlyForDay (DateTime.strict 10800000)
                   (series times) dayKey) in
  returned ["2024-02-29T23:00"; "2024-03-01T00:00"]%string "2024-02-30"
  = ["2024-03-01"]%string
  /\ returned ["2024-01-15T24:00"; "2024-01-15T22:00Z"]%string "2024-01-16"
     = ["2024-01-15"; "2024-01-15"]%string
  /\ ~ Forall (fun date => date = "2024-02-30"%string)
        (returned ["2024-02-29T23:00"; "2024-03-01T00:00"]%string "2024-02-30")
  /\ ~ Forall (fun date => date = "2024-01-16"%string)
        (returned ["2024-01-15T24:00"; "2024-01-15T22:00Z"]%string "2024-01-16").
Proof.
  intros series returned.
  split; [reflexivity|]. split; [reflexivity|].
  split; intros H; vm_compute in H; apply Forall_cons in H as [H _];
    discriminate H.
Qed.

Example isoDate_ex :
  DateTime.isoDate 2024 1 15 = "2024-01-15"%string
  /\ DateTime.calendarDay 2024 2 29 /\ ~ DateTime.calendarDay 2024 2 30.
Proof.
  split; [reflexivity|]. unfold DateTime.calendarDay.
  change (DateTime.DaysInMonth 2024 2) with 29. lia.
Qed.

Example slice_of_calendar_day_ex :
  let hourly :=
    {| Windower.hr_time := ["2024-01-15T23:00"; "2024-01-16T00:00"]%string;
       Windower.temperature_2m := [1; 2];
       Windower.hr_weathercode := [0; 0];
       Windower.apparent_temperature := [1; 2];
       Windower.relative_humidity_2m := [40; 40];
       Windower.precipitation := [0; 0] |} in
  let h := {| Windower.hd_time := "2024-01-15T23:00";
              Windower.hd_temperature := Some 1;
              Windower.hd_weathercode := Some 0 |} in
  Windower.getHourlyForDay (DateTime.strict 10800000) hourly
    (DateTime.isoDate 2024 1 15) = [h]
  /\ DateTime.calendarDay 2024 1 15
  /\ Windower.hd_time h = DateTime.isoDate 2024 1 15 +:+ "T" +:+ "23:00"
  /\ DateTime.parse_time (list_ascii_of_string "23:00")
     = Some (82800000, DateTime.Local)
  /\ Windower.dateComponent (Windower.hd_time h) = DateTime.isoDate 2024 1 15.
Proof.
  cbv zeta. split; [reflexivity|]. split.
  { unfold DateTime.calendarDay. change (DateTime.DaysInMonth 2024 1) with 31. lia. }
  repeat split; reflexivity.
Qed.

Example getHourlyForDay_ex (f : string -> DateTime.Date) :
  let host := {| DateTime.offset := 10800000; DateTime.legacy := f |} in
  let hourly :=
    {| Windower.hr_time := ["2024-01-14T23:00"; "2024-01-15T00:00";
                            "2024-01-15T23:00"; "2024-01-16T00:00"]%string;
       Windower.temperature_2m := [1; 2; 3; 4];
       Windower.hr_weathercode := [0; 3; 61];
       Windower.apparent_temperature := [];
       Windower.relative_humidity_2m := [];
       Windower.precipitation := [] |} in
  Windower.getHourlyForDay host hourly "2024-01-15"
  = [ {| Windower.hd_time := "2024-01-15T00:00";
         Windower.hd_temperature := Some 2;
         Windower.hd_weathercode := Some 3 |};
      {| Windower.hd_time := "2024-01-15T23:00";
         Windower.hd_temperature := Some 3;
         Windower.hd_weathercode := Some 61 |} ]
  /\ Windower.getHourlyForDay host hourly "2024-02-01" = []
  /\ List.map (option_map fst) (Windower.renderHourly host 3
                     (Windower.getHourlyForDay host hourly "2024-01-15"))
     = [Some "12 AM"; Some "11 PM"; None]%string.
Proof. repeat split; reflexivity. Qed.

(** C5: on the hours 0 to 23 the display-hour conditional yields the label
    the specification lists: 0 gives "12 AM", 1-11 give "{h} AM", 12 gives
    "12 PM", 13-23 give "{h-12} PM"; at the boundaries 0, 11, 12 and 23 the
    labels are "12 AM", "11 AM", "12 PM" and "11 PM". *)
Theorem displayHour_labels (h : Z) :
  0 <= h <= 23 ->
  Windower.hourLabels !! Z.to_nat h = Some (Windower.displayHour h)
  /\ (h = 0 -> Windower.displayHour h = "12 AM"%string)
  /\ (1 <= h <= 11 ->
      Windower.displayHour h = (Windower.Z_to_string h +:+ " AM")%string)
  /\ (h = 12 -> Windower.displayHour h = "12 PM"%string)
  /\ (13 <= h <= 23 ->
      Windower.displayHour h = (Windower.Z_to_string (h - 12) +:+ " PM")%string)
  /\ Windower.displayHour 0 = "12 AM"%string
  /\ Windower.displayHour 11 = "11 AM"%string
  /\ Windower.displayHour 12 = "12 PM"%string
  /\ Windower.displayHour 23 = "11 PM"%string.
Proof.
  intros Hh. split; [by apply displayHour_lookup|].
  assert (Hn : exists n, h = Z.of_nat n /\ (n < 24)%nat).
  { exists (Z.to_nat h). lia. }
  destruct Hn as (n & -> & Hn).
  do 24 (destruct n as [|n];
         [repeat split; try reflexivity; intros; try lia; reflexivity|]).
  lia.
Qed.

Lemma displayHour_labels_witness :
  0 <= 15 <= 23 /\
  Windower.hourLabels !! Z.to_nat 15 = Some (Windower.displayHour 15).
Proof.
  split; [lia|]. apply (displayHour_labels 15). lia.
Defined.

(* ===================================================================== *)
(** ** Unit resolution *)
(* ===================================================================== *)

Section UnitsFacts.
Import Units.

Lemma getUnitParams_overwrites stored cu :
  snd (getUnitParams stored cu) = resolved stored.
Proof. reflexivity. Qed.

Lemma getUnitParams_returns stored cu :
  let '(sys, cu') := getUnitParams stored cu in
  temperature_unit sys = temperature cu' /\
  wind_speed_unit sys = wind cu' /\
  precipitation_unit sys = precipitation cu'.
Proof. simpl. done. Qed.

Lemma isImperial_absent prefs key : prefs !! key = None -> isImperial prefs key = false.
Proof. intros H. unfold isImperial. rewrite H. done. Qed.

(** The dropdown of [sectionsOf u], saved and resolved again, is [u]. *)
Lemma sectionsOf_round_trip u :
  resolved (Some (collectPreferences (sectionsOf u))) = u.
Proof. destruct u as [[] [] []]; vm_compute; reflexivity. Qed.

End UnitsFacts.

Section UnitsFacts2.
Import Units.

Lemma getCurrentSystem_flags sections :
  getCurrentSystem sections
  = if forallb (selectedHas "metric") sections then metric
    else if forallb (selectedHas "imperial") sections then imperial
    else mixed.
Proof.
  unfold getCurrentSystem.
  assert (H : forall a b,
    fold_left
      (fun (f : bool * bool) sec =>
         let '(allMetric, allImperial) := f in
         match queryOption "selected" sec with
         | Some selected =>
           ((if negb (contains selected "metric") then false else allMetric),
            (if negb (contains selected "imperial") then false else allImperial))
         | None => (allMetric, allImperial)
         end) sections (a, b)
    = (a && forallb (selectedHas "metric") sections,
       b && forallb (selectedHas "imperial") sections)).
  { induction sections as [|sec l IH]; intros a b; simpl.
    - by rewrite !andb_true_r.
    - unfold selectedHas at 1 3.
      destruct (queryOption "selected" sec) as [o|]; rewrite IH; [|done].
      destruct (contains o "metric"), (contains o "imperial"), a, b; done. }
  rewrite H. done.
Qed.

Example toggle_one_category :
  clickOption 0 1 (sectionsOf initialUnits)
  = sectionsOf {| temperature := fahrenheit; wind := kmh; precipitation := mm |}
  /\ switchButton (getCurrentSystem (clickOption 0 1 (sectionsOf initialUnits)))
     = ("Custom units", "mixed")%string
  /\ switchButton (getCurrentSystem
       (clickOption 2 1 (clickOption 1 1 (clickOption 0 1 (sectionsOf initialUnits)))))
     = ("Switch to Metric", "imperial")%string
  /\ switchButton (getCurrentSystem (sectionsOf initialUnits))
     = ("Switch to Imperial", "metric")%string.
Proof. repeat split; vm_compute; reflexivity. Qed.

End UnitsFacts2.

(** C8: unit resolution from the persisted preference map fixes three
    binary axes, each from its own key alone; an absent key resolves its
    axis to the metric choice, every combination of the three axes is
    reachable, and with nothing stored all three axes are metric. *)
Theorem unit_resolution_defaults (stored : Units.Storage) (cu : Units.Units) :
  let prefs := Units.readPreferences stored in
  let sys := fst (Units.getUnitParams stored cu) in
  let cu' := snd (Units.getUnitParams stored cu) in
  (Units.temperature_unit sys = Units.temperature cu'
   /\ Units.wind_speed_unit sys = Units.wind cu'
   /\ Units.precipitation_unit sys = Units.precipitation cu')
  /\ (Units.temperature cu'
      = if bool_decide (prefs !! "Temperature"%string = Some "imperial"%string)
        then Units.fahrenheit else Units.celsius)
  /\ (Units.wind cu'
      = if bool_decide (prefs !! "Wind Speed"%string = Some "imperial"%string)
        then Units.mph else Units.kmh)
  /\ (Units.precipitation cu'
      = if bool_decide (prefs !! "Precipitation"%string = Some "imperial"%string)
        then Units.inch else Units.mm)
  /\ (prefs !! "Temperature"%string = None -> Units.temperature cu' = Units.celsius)
  /\ (prefs !! "Wind Speed"%string = None -> Units.wind cu' = Units.kmh)
  /\ (prefs !! "Precipitation"%string = None -> Units.precipitation cu' = Units.mm)
  /\ (forall u : Units.Units,
        exists stored', snd (Units.getUnitParams stored' cu) = u)
  /\ (stored = None \/ stored = Some ∅ ->
      cu' = {| Units.temperature := Units.celsius;
               Units.wind := Units.kmh;
               Units.precipitation := Units.mm |}).
Proof.
  intros prefs sys cu'. split; [done|].
  split; [done|]. split; [done|]. split; [done|].
  split. { intros H. simpl. by rewrite isImperial_absent. }
  split. { intros H. simpl. by rewrite isImperial_absent. }
  split. { intros H. simpl. by rewrite isImperial_absent. }
  split.
  { intros u. exists (Some (Units.collectPreferences (Units.sectionsOf u))).
    rewrite getUnitParams_overwrites. apply sectionsOf_round_trip. }
  intros [-> | ->]; reflexivity.
Qed.


(* ===================================================================== *)
(** ** The request sequencer *)
(* ===================================================================== *)

Section SequencerFacts.
Import Units Windower Sequencer.

(** *** What each statement touches *)

Lemma agree_refl s : agree s s.
Proof. done. Qed.

Lemma agree_trans s1 s2 s3 : agree s1 s2 -> agree s2 s3 -> agree s1 s3.
Proof.
  intros (?&?&?&?&?) (?&?&?&?&?). repeat split; congruence.
Qed.

Lemma classList_add_agree el c s : agree s (classList_add el c s).
Proof. done. Qed.

Lemma classList_remove_agree el c s : agree s (classList_remove el c s).
Proof. done. Qed.

Lemma hideSearchLoading_agree s : agree s (hideSearchLoading s).
Proof. done. Qed.

Lemma showSearchLoading_agree s : agree s (showSearchLoading s).
Proof. done. Qed.

Lemma hideAllData_agree s : agree s (hideAllData s).
Proof. done. Qed.

Lemma showError_agree s : agree s (showError s).
Proof. done. Qed.

Lemma showSuccess_agree s : agree s (showSuccess s).
Proof. done. Qed.

Lemma showLoading_agree s : agree s (showLoading s).
Proof. done. Qed.

Lemma set_currentUnits_agree cu s : agree s (set_currentUnits cu s).
Proof. done. Qed.

(** [fetchTodayWeather] up to its first suspension. *)
Lemma fetchTodayWeather_effect city showLoader s :
  let s' := fetchTodayWeather city showLoader s in
  let c := default (lastCity s) city in
  let rid := latestRequestId s + 1 in
  lastCity s' = c
  /\ latestRequestId s' = rid
  /\ lastWeatherData s' = lastWeatherData s
  /\ tasks s' = <[rid := {| city := c; pc := AwaitGeoFetch |}]> (tasks s)
  /\ trace s' = GeocodeRequest rid c :: trace s.
Proof.
  unfold fetchTodayWeather. destruct showLoader as [[]|]; done.
Qed.

Lemma resume_latestRequestId pg rid t r s :
  latestRequestId (resume pg rid t r s) = latestRequestId s.
Proof.
  unfold resume, afterGeocode, afterForecast, afterRenderDelay,
    afterErrorDelay, render, setHourlyToToday.
  repeat case_match; simplify_eq; reflexivity.
Qed.

Lemma resume_lastCity pg rid t r s :
  lastCity (resume pg rid t r s) = lastCity s.
Proof.
  unfold resume, afterGeocode, afterForecast, afterRenderDelay,
    afterErrorDelay, render, setHourlyToToday.
  repeat case_match; simplify_eq; reflexivity.
Qed.

(** A superseded invocation that has not passed line 541 only ever
    updates its own entry in the task pool. *)
Lemma resume_superseded pg rid t r s :
  rid <> latestRequestId s -> quietPc (pc t) = true ->
  resume pg rid t r s = s
  \/ resume pg rid t r s = finish rid s
  \/ exists p, quietPc p = true /\ resume pg rid t r s = suspend rid t p s.
Proof.
  intros Hne Hq.
  assert (Hs : isStale rid s = true).
  { unfold isStale. by apply negb_true_iff, Z.eqb_neq. }
  unfold resume, afterGeocode, afterErrorDelay, catch.
  destruct (pc t); try discriminate;
    destruct r as [|[] st| | |results|data|]; rewrite ?Hs; eauto;
    right; right; eexists; (split; [|reflexivity]); reflexivity.
Qed.

(** *** The invariant of a burst *)

Section Burst.
Variables (pg : Page) (last : Z) (tr0 : list Obs).

Lemma Inv_agree new s s' : agree s s' -> Inv pg last tr0 new s -> Inv pg last tr0 new s'.
Proof.
  intros (_ & E1 & E2 & E3 & E4) (H1 & H2 & H3 & H4 & H5).
  unfold Inv. rewrite E1, E2, E3, E4. done.
Qed.

Lemma Inv_log o new s :
  renders_ok pg last (o :: new) ->
  Inv pg last tr0 new s -> Inv pg last tr0 (o :: new) (log o s).
Proof.
  intros Ho (H1 & H2 & H3 & H4 & H5). split; [done|].
  split; [simpl; by rewrite H2|]. split; [done|]. split; [done|].
  intros t loc data Ht Hpc. destruct (H5 t loc data Ht Hpc) as [? ?].
  split; [done|]. by right.
Qed.

Lemma Inv_log_other o new s :
  match o with Render _ _ => False | _ => True end ->
  Inv pg last tr0 new s -> Inv pg last tr0 (o :: new) (log o s).
Proof.
  intros Ho HI. apply Inv_log; [|done].
  split; [by destruct HI as (_&_&?&_)|]. by destruct o.
Qed.

Lemma Inv_log_render data c new s :
  ForecastPayload last data ∈ new -> rendered_from pg data c ->
  Inv pg last tr0 new s ->
  Inv pg last tr0 (Render last c :: new) (log (Render last c) s).
Proof.
  intros Hp Hc HI. apply Inv_log; [|done].
  split; [by destruct HI as (_&_&?&_)|]. split; [done|]. by exists data.
Qed.

Lemma Inv_suspend rid t p new s :
  (rid = last -> forall loc data, p <> AwaitRenderDelay loc data) ->
  (rid <> last -> quietPc p = true) ->
  Inv pg last tr0 new s -> Inv pg last tr0 new (suspend rid t p s).
Proof.
  intros Hp1 Hp2 (H1 & H2 & H3 & H4 & H5).
  split; [done|]. split; [done|]. split; [done|]. split.
  - intros k t' Hk Hne. unfold suspend in Hk. cbn [tasks set_tasks] in Hk.
    destruct (decide (k = rid)) as [->|Hkr].
    + rewrite lookup_insert_eq in Hk. injection Hk as <-. by apply Hp2.
    + rewrite lookup_insert_ne in Hk by done. by eapply H4.
  - intros t' loc data Hk Hpc. unfold suspend in Hk. cbn [tasks set_tasks] in Hk.
    destruct (decide (last = rid)) as [<-|Hkr].
    + rewrite lookup_insert_eq in Hk. injection Hk as <-.
      by destruct (Hp1 eq_refl loc data).
    + rewrite lookup_insert_ne in Hk by done. by eapply H5.
Qed.

Lemma Inv_finish rid new s :
  Inv pg last tr0 new s -> Inv pg last tr0 new (finish rid s).
Proof.
  intros (H1 & H2 & H3 & H4 & H5).
  split; [done|]. split; [done|]. split; [done|]. split.
  - intros k t' Hk Hne. unfold finish in Hk. cbn [tasks set_tasks] in Hk.
    apply lookup_delete_Some in Hk as [_ Hk]. by eapply H4.
  - intros t' loc data Hk Hpc. unfold finish in Hk. cbn [tasks set_tasks] in Hk.
    apply lookup_delete_Some in Hk as [_ Hk]. by eapply H5.
Qed.

Lemma Inv_enter_render t loc data new s :
  ForecastPayload last data ∈ new ->
  Inv pg last tr0 new s ->
  Inv pg last tr0 new
      (suspend last t (AwaitRenderDelay loc data) (set_lastWeatherData (Some data) s)).
Proof.
  intros Hp (H1 & H2 & H3 & H4 & H5).
  split; [done|]. split; [done|]. split; [done|]. split.
  - intros k t' Hk Hne. unfold suspend in Hk. cbn [tasks set_tasks set_lastWeatherData] in Hk.
    rewrite lookup_insert_ne in Hk by done. by eapply H4.
  - intros t' loc' data' Hk Hpc. unfold suspend in Hk.
    cbn [tasks set_tasks set_lastWeatherData] in Hk.
    rewrite lookup_insert_eq in Hk. injection Hk as <-.
    simpl in Hpc. injection Hpc as <- <-. done.
Qed.

(** The render step of request [last], run while the stored snapshot
    is that request's own payload, records only calls made from that
    payload. *)
Lemma Inv_render loc data new s :
  lastWeatherData s = Some data ->
  ForecastPayload last data ∈ new ->
  Inv pg last tr0 new s ->
  exists add,
    Inv pg last tr0 (add ++ new) (fst (render pg last loc data s))
    /\ tasks (fst (render pg last loc data s)) = tasks s.
Proof.
  intros Hsnap Hp HI. unfold render.
  destruct (current_weather data) as [current|] eqn:Hc; [|by exists []].
  destruct (hourly data) as [hr|] eqn:Hh; [|by exists []].
  pose proof (Inv_log_render data (updateInfoCards current hr) _ _ Hp
                (conj Hc Hh) HI) as HI1.
  assert (Hp1 : ForecastPayload last data ∈ Render last (updateInfoCards current hr) :: new)
    by (by right).
  pose proof (Inv_log_render data (updateDailyForecast (daily data)) _ _ Hp1
                eq_refl HI1) as HI2.
  set (s2 := log (Render last (updateDailyForecast (daily data)))
               (log (Render last (updateInfoCards current hr)) s)) in *.
  set (new2 := Render last (updateDailyForecast (daily data))
               :: Render last (updateInfoCards current hr) :: new) in *.
  assert (Hp2 : ForecastPayload last data ∈ new2) by (by right).
  destruct (daily data) as [dl|] eqn:Hd.
  2:{ exists [Render last (updateDailyForecast None);
              Render last (updateInfoCards current hr)]. done. }
  assert (HI3 : Inv pg last tr0 (Render last (populateDaysDropdown (dl_time dl)) :: new2)
                    (log (Render last (populateDaysDropdown (dl_time dl))) s2)).
  { apply (Inv_log_render data); [done| |done]. by exists dl. }
  set (s3 := log (Render last (populateDaysDropdown (dl_time dl))) s2) in *.
  set (new3 := Render last (populateDaysDropdown (dl_time dl)) :: new2) in *.
  assert (Hp3 : ForecastPayload last data ∈ new3) by (by right).
  assert (Hsnap3 : lastWeatherData s3 = Some data) by done.
  assert (Htasks3 : tasks s3 = tasks s) by done.
  assert (Hnew3 : exists add3, new3 = add3 ++ new).
  { by exists [Render last (populateDaysDropdown (dl_time dl));
               Render last (updateDailyForecast (Some dl));
               Render last (updateInfoCards current hr)]. }
  clearbody s3 new3. destruct Hnew3 as [add3 ->].
  unfold setHourlyToToday. rewrite Hsnap3.
  destruct (dl_time dl) as [|todayDate times] eqn:Ht.
  - destruct (todayElements pg); [|by exists add3].
    exists (Render last (renderToday loc current) :: add3). split; [|done].
    eapply Inv_agree; [|apply (Inv_log_render data); [exact Hp3| |exact HI3]]; done.
  - destruct data as [dc dh dd]. simpl in Hc, Hh, Hd. subst dc dh dd.
    assert (HI4 : Inv pg last tr0
              (Render last (renderHourly (getHourlyForDay (host pg) hr todayDate))
               :: add3 ++ new)
              (log (Render last (renderHourly (getHourlyForDay (host pg) hr todayDate))) s3)).
    { apply (Inv_log_render {| current_weather := Some current;
                               hourly := Some hr; daily := Some dl |});
        [done| |done].
      exists hr, dl, todayDate. rewrite Ht. done. }
    destruct (todayElements pg).
    2:{ exists (Render last (renderHourly (getHourlyForDay (host pg) hr todayDate)) :: add3).
        done. }
    exists (Render last (renderToday loc current)
            :: Render last (renderHourly (getHourlyForDay (host pg) hr todayDate))
            :: add3).
    split; [|done].
    eapply Inv_agree;
      [|apply (Inv_log_render {| current_weather := Some current;
                                 hourly := Some hr; daily := Some dl |});
        [by right| |exact HI4]]; done.
Qed.

(** Every settlement preserves the invariant. *)
Lemma Inv_resume rid t r new s :
  tasks s !! rid = Some t ->
  Inv pg last tr0 new s ->
  exists add, Inv pg last tr0 (add ++ new) (resume pg rid t r s).
Proof.
  intros Ht HI.
  destruct (decide (rid = last)) as [->|Hne].
  2:{ exists []. simpl.
      assert (Hq : quietPc (pc t) = true).
      { destruct HI as (_&_&_&H4&_). by eapply H4. }
      assert (Hl : rid <> latestRequestId s).
      { destruct HI as (H1&_). by rewrite H1. }
      destruct (resume_superseded pg rid t r s Hl Hq) as [->|[->|(p & Hp & ->)]].
      - done.
      - by apply Inv_finish.
      - apply Inv_suspend; done. }
  assert (Hs : isStale last s = false).
  { destruct HI as (H1&_). unfold isStale. by rewrite H1, Z.eqb_refl. }
  unfold resume.
  destruct (pc t) as [| | |loc|loc|loc data|e] eqn:Hpc;
    destruct r as [|[] st| | |results|data'|];
    try (exists []; exact HI);
    try (exists []; apply Inv_suspend; [discriminate|done|exact HI]).
  - (* line 541, current *)
    unfold afterGeocode. rewrite Hs.
    destruct (coordinatesOf results) as [loc|].
    + destruct (getUnitParams (unitPreferences s) (currentUnits s)) as [units cu].
      eexists [_]. unfold andThen.
      apply Inv_suspend; [discriminate|done|].
      apply Inv_log_other; [done|].
      eapply Inv_agree; [|exact HI]. done.
    + exists []. apply Inv_suspend; [discriminate|done|exact HI].
  - (* the no-result panel *)
    exists []. unfold showNoResult, andThen. apply Inv_finish.
    eapply Inv_agree; [|exact HI]. done.
  - (* the forecast payload arrives *)
    exists [ForecastPayload last data'].
    assert (HI1 : Inv pg last tr0 (ForecastPayload last data' :: new)
                      (log (ForecastPayload last data') s))
      by (by apply Inv_log_other).
    unfold afterForecast.
    destruct (current_weather data'), (hourly data');
      try (apply Inv_suspend; [discriminate|done|exact HI1]).
    unfold andThen. apply Inv_enter_render; [by left | exact HI1].
  - (* line 581, current: the render step *)
    destruct HI as (H1 & H2 & H3 & H4 & H5).
    destruct (H5 t loc data Ht Hpc) as [Hsnap Hp].
    destruct (Inv_render loc data new s Hsnap Hp
                (conj H1 (conj H2 (conj H3 (conj H4 H5))))) as (add & HI' & Htasks).
    exists add. unfold afterRenderDelay. rewrite Hs.
    destruct (render pg last loc data s) as [s' [e|]]; simpl in HI', Htasks.
    + apply Inv_suspend; [discriminate|done|exact HI'].
    + by apply Inv_finish.
  - (* line 633, current: the error panel *)
    exists [ConsoleError last e]. unfold afterErrorDelay. rewrite Hs.
    unfold andThen. apply Inv_finish.
    eapply Inv_agree; [apply showError_agree|].
    apply Inv_log_other; [done|].
    eapply Inv_agree; [|exact HI]. done.
Qed.

Lemma Inv_settlements rs new s :
  Inv pg last tr0 new s ->
  exists add, Inv pg last tr0 (add ++ new) (run pg (settlements rs) s).
Proof.
  revert new s. induction rs as [|[rid r] rs IH]; intros new s HI.
  - by exists [].
  - simpl. destruct (tasks s !! rid) as [t|] eqn:Ht.
    + destruct (Inv_resume rid t r new s Ht HI) as (add1 & HI1).
      destruct (IH _ _ HI1) as (add2 & HI2).
      exists (add2 ++ add1). by rewrite <- app_assoc.
    + by apply IH.
Qed.

Lemma renders_ok_spec new :
  renders_ok pg last new ->
  forall rid call, Render rid call ∈ new ->
    rid = last /\
    exists data, ForecastPayload last data ∈ new /\ rendered_from pg data call.
Proof.
  induction new as [|o new IH]; intros Hok rid call Hin.
  - by apply elem_of_nil in Hin.
  - destruct Hok as [Hok Ho]. apply elem_of_cons in Hin as [<-|Hin].
    + destruct Ho as (-> & data & Hd & Hr). split; [done|].
      exists data. split; [by right | done].
    + destruct (IH Hok rid call Hin) as (-> & data & Hd & Hr). split; [done|].
      exists data. split; [by right | done].
Qed.

End Burst.

(** *** The calls of a burst *)

Lemma calls_effect pg cs s :
  map_Forall (fun _ t => quietPc (pc t) = true) (tasks s) ->
  let s' := run pg (calls cs) s in
  latestRequestId s' = latestRequestId s + Z.of_nat (length cs)
  /\ (exists new, trace s' = new ++ trace s /\ Forall isGeocodeRequest new)
  /\ map_Forall (fun _ t => quietPc (pc t) = true) (tasks s').
Proof.
  revert s. induction cs as [|[c l] cs IH]; intros s Hq.
  - simpl. split; [lia|]. split; [by exists []|done].
  - cbn [calls List.map run fold_left step fst snd].
    destruct (fetchTodayWeather_effect c l s) as (_ & E2 & _ & E4 & E5).
    set (s1 := fetchTodayWeather c l s) in *.
    assert (Hq1 : map_Forall (fun _ t => quietPc (pc t) = true) (tasks s1)).
    { rewrite E4. by apply map_Forall_insert_2. }
    destruct (IH s1 Hq1) as (F1 & (new & F2 & F3) & F4).
    split; [|split].
    + unfold run, calls in F1. rewrite F1, E2.
      rewrite length_cons. lia.
    + exists (new ++ [GeocodeRequest (latestRequestId s + 1) (default (lastCity s) c)]).
      split.
      * unfold run, calls in F2. rewrite F2, E5. by rewrite <- app_assoc.
      * apply Forall_app. split; [done|]. by repeat constructor.
    + exact F4.
Qed.

Lemma renders_ok_requests pg last new :
  Forall isGeocodeRequest new -> renders_ok pg last new.
Proof.
  induction 1 as [|o new Ho _ IH]; simpl; [done|].
  split; [done|]. by destruct o.
Qed.

Lemma Inv_of_quiet pg tr0 new s :
  map_Forall (fun _ t => quietPc (pc t) = true) (tasks s) ->
  trace s = new ++ tr0 -> Forall isGeocodeRequest new ->
  Inv pg (latestRequestId s) tr0 new s.
Proof.
  intros Hq Htr Hnew. split; [done|]. split; [done|].
  split; [by apply renders_ok_requests|]. split.
  - intros k t Hk _. by apply (Hq k t).
  - intros t loc data Hk Hpc. apply Hq in Hk. by rewrite Hpc in Hk.
Qed.

End SequencerFacts.

Section PanelFacts.
Import Units Windower Sequencer.

Lemma step_settle pg s rid t r :
  tasks s !! rid = Some t -> step pg s (Settle rid r) = resume pg rid t r s.
Proof. intros H. simpl. by rewrite H. Qed.

Lemma tasks_suspend rid t p s :
  tasks (suspend rid t p s) !! rid = Some {| city := city t; pc := p |}.
Proof. unfold suspend. cbn [tasks set_tasks]. apply lookup_insert_eq. Qed.

Lemma tasks_finish rid s : tasks (finish rid s) !! rid = None.
Proof. unfold finish. cbn [tasks set_tasks]. apply lookup_delete_eq. Qed.

Lemma hidden_remove el s :
  hidden el (classList_remove el "display-none" s) = false.
Proof.
  unfold hidden, classList, classList_remove. cbn [classes set_classes].
  rewrite lookup_insert_eq. simpl. apply bool_decide_eq_false.
  rewrite not_elem_of_difference. right. by apply elem_of_singleton.
Qed.

Lemma hidden_add el s :
  hidden el (classList_add el "display-none" s) = true.
Proof.
  unfold hidden, classList, classList_add. cbn [classes set_classes].
  rewrite lookup_insert_eq. simpl. apply bool_decide_eq_true.
  apply elem_of_union_l. by apply elem_of_singleton.
Qed.

Lemma hidden_add_other el el' c s :
  el <> el' -> hidden el (classList_add el' c s) = hidden el s.
Proof.
  intros Hne. unfold hidden, classList, classList_add. cbn [classes set_classes].
  by rewrite lookup_insert_ne.
Qed.

Lemma hidden_remove_other el el' c s :
  el <> el' -> hidden el (classList_remove el' c s) = hidden el s.
Proof.
  intros Hne. unfold hidden, classList, classList_remove. cbn [classes set_classes].
  by rewrite lookup_insert_ne.
Qed.

Lemma hidden_finish el rid s : hidden el (finish rid s) = hidden el s.
Proof. reflexivity. Qed.

Lemma hidden_suspend el rid t p s : hidden el (suspend rid t p s) = hidden el s.
Proof. reflexivity. Qed.

(** The panel of lines 546-553: "no results" shown, main content and
    error panel hidden; nothing but the DOM and the task pool change. *)
Lemma showNoResult_effect rid s :
  let s' := showNoResult rid s in
  hidden noResult s' = false
  /\ hidden mainContent s' = true
  /\ hidden errorFetchCon s' = true
  /\ lastCity s' = lastCity s
  /\ lastWeatherData s' = lastWeatherData s
  /\ latestRequestId s' = latestRequestId s
  /\ trace s' = trace s
  /\ tasks s' = delete rid (tasks s).
Proof.
  unfold showNoResult, andThen. cbv zeta.
  set (x := hideAllData (hideSearchLoading s)).
  assert (Hx : agree s x) by apply (agree_trans _ _ _ (hideSearchLoading_agree s)
                                      (hideAllData_agree _)).
  destruct Hx as (X1 & X2 & X3 & X4 & X5). clearbody x.
  split; [rewrite hidden_finish; apply hidden_remove|].
  split.
  { rewrite hidden_finish, hidden_remove_other, hidden_add_other by discriminate.
    apply hidden_add. }
  split.
  { rewrite hidden_finish, hidden_remove_other by discriminate. apply hidden_add. }
  split; [exact X1|]. split; [exact X3|]. split; [exact X2|]. split; [exact X5|].
  change (delete rid (tasks x) = delete rid (tasks s)). by rewrite X4.
Qed.

(** The panel of lines 635-637. *)
Lemma showError_shows s : hidden errorFetchCon (showError s) = false.
Proof. unfold showError, andThen. apply hidden_remove. Qed.



(** At each of the three checkpoints a superseded invocation returns
    at once. *)
Lemma stale_return pg rid t r s :
  rid <> latestRequestId s ->
  (pc t = AwaitGeoJson /\ exists results, r = GeoJson results)
  \/ (exists loc data, pc t = AwaitRenderDelay loc data /\ r = TimerFired)
  \/ (exists e, pc t = AwaitErrorDelay e /\ r = TimerFired) ->
  resume pg rid t r s = finish rid s.
Proof.
  intros Hne Hcp.
  assert (Hs : isStale rid s = true).
  { unfold isStale. by apply negb_true_iff, Z.eqb_neq. }
  unfold resume.
  destruct Hcp as [(-> & results & ->)|[(loc & data & -> & ->)|(e & -> & ->)]].
  - unfold afterGeocode. by rewrite Hs.
  - unfold afterRenderDelay. by rewrite Hs.
  - unfold afterErrorDelay. by rewrite Hs.
Qed.

(** Whatever its suspension point, a superseded invocation adds no render
    call to the trace. *)
Lemma stale_settle_no_render pg s rid r :
  rid <> latestRequestId s ->
  forall k c, Render k c ∈ trace (step pg s (Settle rid r)) -> Render k c ∈ trace s.
Proof.
  intros Hne k c. cbn [step].
  destruct (tasks s !! rid) as [t|]; [|exact id].
  assert (Hs : isStale rid s = true).
  { unfold isStale. by apply negb_true_iff, Z.eqb_neq. }
  unfold resume, catch, afterGeocode, afterForecast, afterRenderDelay, afterErrorDelay.
  destruct (pc t); destruct r as [|[] st| | |results|data'|];
    rewrite ?Hs; try exact id.
  destruct (current_weather data'), (hourly data'); intros H.
  all: change (Render k c ∈ ForecastPayload rid data' :: trace s) in H.
  all: apply elem_of_cons in H as [H|H]; [discriminate H | exact H].
Qed.

(** A retry issues a geocoding request for [lastCity]. *)
Lemma retry_effect pg s :
  let s' := step pg s RetryClick in
  let rid := latestRequestId s + 1 in
  lastCity s' = lastCity s
  /\ trace s' = GeocodeRequest rid (lastCity s) :: trace s
  /\ tasks s' !! rid = Some {| city := lastCity s; pc := AwaitGeoFetch |}.
Proof.
  cbv zeta. cbn [step]. unfold andThen.
  match goal with |- context [fetchTodayWeather ?c ?l ?x] =>
    destruct (fetchTodayWeather_effect c l x) as (E1 & _ & _ & E4 & E5)
  end.
  split; [exact E1|]. split; [exact E5|].
  rewrite E4. apply lookup_insert_eq.
Qed.

Lemma settlements_lastCity pg rs s :
  lastCity (run pg (settlements rs) s) = lastCity s.
Proof.
  revert s. induction rs as [|[rid r] rs IH]; intros s; [done|].
  cbn [settlements List.map run fold_left fst snd].
  unfold run, settlements in IH. rewrite IH.
  simpl. destruct (tasks s !! rid); [apply resume_lastCity | done].
Qed.

End PanelFacts.

(** A burst of calls: when all the calls to [fetchTodayWeather] are
    issued before any of the pending promises settles, and whatever was
    already in flight is still geocoding, then in every order in which
    the promises settle afterwards every call of the render step is made
    by the last request issued and passes data of the payload that
    request received; and an invocation whose captured id differs from
    the live counter at the checkpoint after the fetch returns without
    rendering (in any state, a superseded invocation adds no render call
    at all).  The restriction to bursts matters: a call that arrives
    after an older request has passed the check of line 541 can make
    the last request draw the hours of a superseded payload. *)
Theorem last_request_wins
        (pg : Sequencer.Page) (s0 : Sequencer.State)
        (cs : list (option string * option bool))
        (rs : list (Z * Sequencer.Settled)) :
  map_Forall (fun _ t => Sequencer.quietPc (Sequencer.pc t) = true)
             (Sequencer.tasks s0) ->
  let last := Sequencer.latestRequestId s0 + Z.of_nat (length cs) in
  let s := Sequencer.run pg (Sequencer.settlements rs)
             (Sequencer.run pg (Sequencer.calls cs) s0) in
  Sequencer.latestRequestId s = last
  /\ (exists new,
        Sequencer.trace s = new ++ Sequencer.trace s0 /\
        forall rid call,
          Sequencer.Render rid call ∈ new ->
          rid = last /\
          exists data,
            Sequencer.ForecastPayload last data ∈ new /\
            Sequencer.rendered_from pg data call)
  /\ (forall s' rid t loc data,
        Sequencer.tasks s' !! rid = Some t ->
        Sequencer.pc t = Sequencer.AwaitRenderDelay loc data ->
        rid <> Sequencer.latestRequestId s' ->
        Sequencer.step pg s' (Sequencer.Settle rid Sequencer.TimerFired)
        = Sequencer.finish rid s'
        /\ Sequencer.trace
             (Sequencer.step pg s' (Sequencer.Settle rid Sequencer.TimerFired))
           = Sequencer.trace s')
  /\ (forall s' rid r,
        rid <> Sequencer.latestRequestId s' ->
        forall k c,
          Sequencer.Render k c
          ∈ Sequencer.trace (Sequencer.step pg s' (Sequencer.Settle rid r)) ->
          Sequencer.Render k c ∈ Sequencer.trace s').
Proof.
  intros Hq last s.
  destruct (calls_effect pg cs s0 Hq) as (E1 & (new1 & E2 & E3) & E4).
  set (s1 := Sequencer.run pg (Sequencer.calls cs) s0) in *.
  pose proof (Inv_of_quiet pg (Sequencer.trace s0) new1 s1 E4 E2 E3) as HI.
  rewrite E1 in HI. fold last in HI.
  destruct (Inv_settlements pg last (Sequencer.trace s0) rs new1 s1 HI)
    as (add & H1 & H2 & H3 & _).
  fold s in H1, H2. split; [done|]. split; [|split].
  - exists (add ++ new1). split; [done|]. by apply renders_ok_spec.
  - intros s' rid t loc data Ht Hpc Hne.
    assert (E : Sequencer.step pg s' (Sequencer.Settle rid Sequencer.TimerFired)
                = Sequencer.finish rid s').
    { simpl. rewrite Ht. unfold Sequencer.resume. rewrite Hpc.
      unfold Sequencer.afterRenderDelay, Sequencer.isStale.
      apply Z.eqb_neq in Hne. by rewrite Hne. }
    by rewrite E.
  - intros s' rid r. apply stale_settle_no_render.
Qed.



Lemma last_request_wins_witness :
  map_Forall (fun _ t => Sequencer.quietPc (Sequencer.pc t) = true)
             (Sequencer.tasks Scenario.fresh)
  /\ Sequencer.latestRequestId
       (Sequencer.run Scenario.page
          (Sequencer.settlements
             [(1, Scenario.ok); (2, Scenario.ok);
              (2, Sequencer.GeoJson (Some [Scenario.paris]));
              (1, Sequencer.GeoJson (Some [Scenario.amman]));
              (2, Scenario.ok);
              (2, Sequencer.ForecastJson Scenario.parisData);
              (2, Sequencer.TimerFired)])
          (Sequencer.run Scenario.page
             (Sequencer.calls [(Some "Amman", None); (Some "Paris", None)]%string)
             Scenario.fresh))
     = Sequencer.latestRequestId Scenario.fresh + Z.of_nat 2.
Proof.
  split; [apply map_Forall_empty|].
  apply (last_request_wins Scenario.page Scenario.fresh
           [(Some "Amman", None); (Some "Paris", None)]%string).
  apply map_Forall_empty.
Defined.

Example burst_renders_last :
  let s := Sequencer.run Scenario.page
             (Sequencer.settlements
                [(1, Scenario.ok); (2, Scenario.ok);
                 (2, Sequencer.GeoJson (Some [Scenario.paris]));
                 (1, Sequencer.GeoJson (Some [Scenario.amman]));
                 (2, Scenario.ok);
                 (2, Sequencer.ForecastJson Scenario.parisData);
                 (2, Sequencer.TimerFired)])
             (Sequencer.run Scenario.page
                (Sequencer.calls [(Some "Amman", None); (Some "Paris", None)]%string)
                Scenario.fresh) in
  Sequencer.tasks s = ∅
  /\ head (Sequencer.trace s)
     = Some (Sequencer.Render 2
               (Sequencer.renderToday Scenario.paris
                  {| Sequencer.cw_temperature := 0; Sequencer.cw_windspeed := 5;
                     Sequencer.cw_weathercode := 0;
                     Sequencer.cw_time := "2024-01-15T10:00" |}))
  /\ Sequencer.Render 2 (Sequencer.renderHourly (Scenario.todayHours [1; 2; 3]))
     ∈ Sequencer.trace s
  /\ Sequencer.hidden Sequencer.loadingCon s = true.
Proof.
  vm_compute. repeat split. do 1 right. left.
Qed.

(** C1 (the code departs from it): two calls, request 1 ("Amman", at
    load) and request 2 ("Paris", searched once request 1 has its
    coordinates), with the forecast of request 2 arriving before that of
    request 1 and the forecast of request 1 arriving during the delay of
    request 2.  Every render call is made by request 2, the last one
    issued, and the only payload request 2 ever received is the one for
    Paris; yet the hour cards it passes to [renderHourly] are the hours
    of the payload of request 1, which are not data of its own payload:
    [setHourlyToToday] reads them from [lastWeatherData], which request 1
    has written (line 578) before its staleness check (line 581). *)
Theorem last_request_draws_superseded_hours :
  let s := Sequencer.run Scenario.page
             (Scenario.overtaken
              ++ [Sequencer.Settle 1 (Sequencer.ForecastJson Scenario.ammanData);
                  Sequencer.Settle 2 Sequencer.TimerFired;
                  Sequencer.Settle 1 Sequencer.TimerFired])
             Scenario.booted in
  let drawn := Sequencer.renderHourly (Scenario.todayHours [11; 12; 13]) in
  Sequencer.latestRequestId s = 2
  /\ Sequencer.tasks s = ∅
  /\ (forall rid call, Sequencer.Render rid call ∈ Sequencer.trace s -> rid = 2)
  /\ (forall data,
        Sequencer.ForecastPayload 2 data ∈ Sequencer.trace s ->
        data = Scenario.parisData)
  /\ Sequencer.ForecastPayload 1 Scenario.ammanData ∈ Sequencer.trace s
  /\ Sequencer.Render 2 drawn ∈ Sequencer.trace s
  /\ Sequencer.rendered_from Scenario.page Scenario.ammanData drawn
  /\ ~ Sequencer.rendered_from Scenario.page Scenario.parisData drawn.
Proof.
  intros s drawn.
  assert (Hr : Forall (fun o => match o with
                                | Sequencer.Render rid _ => rid = 2
                                | Sequencer.ForecastPayload 2 data =>
                                  data = Scenario.parisData
                                | _ => True
                                end) (Sequencer.trace s)).
  { vm_compute. repeat constructor. }
  rewrite Forall_forall in Hr.
  split; [reflexivity|]. split; [reflexivity|]. split.
  { intros rid call H. exact (Hr _ H). }
  split.
  { intros data H. exact (Hr _ H). }
  split.
  { vm_compute. repeat first [left | right]. }
  split.
  { vm_compute. repeat first [left | right]. }
  split.
  { exists (Windower.Build_Hourly
              ["2024-01-15T10:00"; "2024-01-15T11:00"; "2024-01-16T00:00"]%string
              [11; 12; 13] [0; 1; 2] [11; 12; 13] [40; 41; 42] [0; 0; 0]),
           (Sequencer.Build_Daily ["2024-01-15"; "2024-01-16"]%string
              [3; 4] [12; 13] [0; 2]),
           "2024-01-15"%string.
    repeat split. }
  intros (hr & dl & today & H1 & H2 & H3 & H4).
  injection H1 as <-. injection H2 as <-. injection H3 as <-.
  vm_compute in H4. discriminate H4.
Qed.

(** C2 (the code departs from it): request 1 has been superseded by
    request 2 when its forecast arrives, and yet it overwrites
    [lastWeatherData], which held the payload of request 2; the render
    step of request 2 then draws its hour cards from the payload of
    request 1. *)
Theorem superseded_request_overwrites_snapshot :
  let s := Sequencer.run Scenario.page Scenario.overtaken Scenario.booted in
  let s' := Sequencer.step Scenario.page s
              (Sequencer.Settle 1 (Sequencer.ForecastJson Scenario.ammanData)) in
  let s'' := Sequencer.run Scenario.page Scenario.overtaken_rest s in
  Sequencer.latestRequestId s = 2
  /\ Sequencer.tasks s !! 1
     = Some {| Sequencer.city := "Amman";
               Sequencer.pc := Sequencer.AwaitForecastJson Scenario.amman |}
  /\ Sequencer.isStale 1 s = true
  /\ Sequencer.lastWeatherData s = Some Scenario.parisData
  /\ Sequencer.lastWeatherData s' = Some Scenario.ammanData
  /\ Sequencer.Render 2 (Sequencer.renderHourly (Scenario.todayHours [11; 12; 13]))
     ∈ Sequencer.trace s''
  /\ Scenario.todayHours [11; 12; 13] <> Scenario.todayHours [1; 2; 3].
Proof.
  vm_compute. repeat split; [|discriminate]. right. left.
Qed.

(** C3, as the code has it: wherever the staleness check fires (after
    geocoding, after the delay of the success path, after the delay of the
    [catch] block) the invocation returns at once and touches nothing: no
    state is written, nothing is rendered, and the search loader and the
    loading panel are left exactly as they were. *)
Theorem stale_return_touches_nothing
        (pg : Sequencer.Page) (s : Sequencer.State) (rid : Z)
        (t : Sequencer.Task) (r : Sequencer.Settled) :
  Sequencer.tasks s !! rid = Some t ->
  rid <> Sequencer.latestRequestId s ->
  (Sequencer.pc t = Sequencer.AwaitGeoJson
   /\ exists results, r = Sequencer.GeoJson results)
  \/ (exists loc data,
        Sequencer.pc t = Sequencer.AwaitRenderDelay loc data
        /\ r = Sequencer.TimerFired)
  \/ (exists e,
        Sequencer.pc t = Sequencer.AwaitErrorDelay e /\ r = Sequencer.TimerFired) ->
  let s' := Sequencer.step pg s (Sequencer.Settle rid r) in
  s' = Sequencer.finish rid s
  /\ Sequencer.tasks s' !! rid = None
  /\ Sequencer.classes s' = Sequencer.classes s
  /\ Sequencer.searchBtn_disabled s' = Sequencer.searchBtn_disabled s
  /\ Sequencer.hidden Sequencer.searchLoading s'
     = Sequencer.hidden Sequencer.searchLoading s
  /\ Sequencer.hidden Sequencer.loadingCon s'
     = Sequencer.hidden Sequencer.loadingCon s
  /\ Sequencer.lastWeatherData s' = Sequencer.lastWeatherData s
  /\ Sequencer.currentUnits s' = Sequencer.currentUnits s
  /\ Sequencer.trace s' = Sequencer.trace s.
Proof.
  intros Ht Hne Hcp s'. subst s'.
  rewrite (step_settle pg s rid t r Ht), (stale_return pg rid t r s Hne Hcp).
  split; [done|]. split; [apply tasks_finish|]. done.
Qed.

Lemma stale_return_touches_nothing_witness :
  let s := Sequencer.run Scenario.page Scenario.superseded Scenario.booted in
  Sequencer.tasks s !! 1
  = Some {| Sequencer.city := "Amman"; Sequencer.pc := Sequencer.AwaitGeoJson |}
  /\ 1 <> Sequencer.latestRequestId s
  /\ Sequencer.step Scenario.page s
       (Sequencer.Settle 1 (Sequencer.GeoJson (Some [Scenario.amman])))
     = Sequencer.finish 1 s.
Proof.
  assert (H1 : Sequencer.tasks
                 (Sequencer.run Scenario.page Scenario.superseded Scenario.booted) !! 1
               = Some {| Sequencer.city := "Amman";
                         Sequencer.pc := Sequencer.AwaitGeoJson |})
    by (vm_compute; reflexivity).
  assert (H2 : 1 <> Sequencer.latestRequestId
                      (Sequencer.run Scenario.page Scenario.superseded Scenario.booted))
    by (vm_compute; discriminate).
  split; [exact H1|]. split; [exact H2|].
  apply (stale_return_touches_nothing Scenario.page _ 1 _
           (Sequencer.GeoJson (Some [Scenario.amman])) H1 H2).
  left. split; [reflexivity|]. by eexists.
Defined.

(** C3, as claimed, fails: request 1 is superseded while it geocodes; when
    its check of line 541 fires it returns, and the search loader and the
    loading panel are not hidden. *)
Lemma stale_return_runs_no_cleanup :
  let s := Sequencer.run Scenario.page Scenario.superseded Scenario.booted in
  let s' := Sequencer.step Scenario.page s
              (Sequencer.Settle 1 (Sequencer.GeoJson (Some [Scenario.amman]))) in
  Sequencer.tasks s !! 1
  = Some {| Sequencer.city := "Amman"; Sequencer.pc := Sequencer.AwaitGeoJson |}
  /\ Sequencer.isStale 1 s = true
  /\ Sequencer.tasks s' !! 1 = None
  /\ ~ (Sequencer.hidden Sequencer.searchLoading s' = true
        /\ Sequencer.hidden Sequencer.loadingCon s' = true)
  /\ Sequencer.hidden Sequencer.searchLoading s' = false
  /\ Sequencer.hidden Sequencer.loadingCon s' = false.
Proof.
  vm_compute. repeat split. intros [? _]. discriminate.
Qed.

(** C6 (the code departs from it): request 2 finds no city; while it waits
    out its delay it is superseded by requests 3 and 4, and when the delay
    ends it shows the "no results" panel and hides the main content all the
    same.  Request 4 then succeeds and renders, with the main content
    still hidden and "no results" still shown. *)
Theorem stale_no_result_panel_shown :
  let s := Sequencer.run Scenario.page Scenario.notFound Scenario.booted in
  let s' := Sequencer.step Scenario.page s (Sequencer.Settle 2 Sequencer.TimerFired) in
  let s'' := Sequencer.run Scenario.page Scenario.notFound_rest s' in
  Sequencer.tasks s !! 2
  = Some {| Sequencer.city := "Atlantis"; Sequencer.pc := Sequencer.AwaitNoResultDelay |}
  /\ Sequencer.latestRequestId s = 4
  /\ Sequencer.isStale 2 s = true
  /\ Sequencer.hidden Sequencer.noResult s = true
  /\ Sequencer.hidden Sequencer.mainContent s = false
  /\ Sequencer.hidden Sequencer.noResult s' = false
  /\ Sequencer.hidden Sequencer.mainContent s' = true
  /\ head (Sequencer.trace s'')
     = Some (Sequencer.Render 4
               (Sequencer.renderToday Scenario.amman
                  {| Sequencer.cw_temperature := 0; Sequencer.cw_windspeed := 5;
                     Sequencer.cw_weathercode := 0;
                     Sequencer.cw_time := "2024-01-15T10:00" |}))
  /\ Sequencer.hidden Sequencer.noResult s'' = false
  /\ Sequencer.hidden Sequencer.mainContent s'' = true.
Proof.
  vm_compute. repeat split.
Qed.

(** C10: every call of [fetchTodayWeather] stores its city argument in
    [lastCity] in the step that issues the geocoding request, whatever the
    city; no settlement changes [lastCity]; so however the search then
    ends, a click on the retry button requests the city searched last. *)
Theorem retry_fetches_last_searched_city
        (pg : Sequencer.Page) (s : Sequencer.State) (city : string)
        (showLoader : option bool) (rs : list (Z * Sequencer.Settled)) :
  let s1 := Sequencer.fetchTodayWeather (Some city) showLoader s in
  let s2 := Sequencer.run pg (Sequencer.settlements rs) s1 in
  let s3 := Sequencer.step pg s2 Sequencer.RetryClick in
  Sequencer.lastCity s1 = city
  /\ Sequencer.trace s1
     = Sequencer.GeocodeRequest (Sequencer.latestRequestId s + 1) city
       :: Sequencer.trace s
  /\ Sequencer.lastCity s2 = city
  /\ Sequencer.trace s3
     = Sequencer.GeocodeRequest (Sequencer.latestRequestId s2 + 1) city
       :: Sequencer.trace s2
  /\ Sequencer.tasks s3 !! (Sequencer.latestRequestId s2 + 1)
     = Some {| Sequencer.city := city; Sequencer.pc := Sequencer.AwaitGeoFetch |}.
Proof.
  intros s1 s2 s3.
  destruct (fetchTodayWeather_effect (Some city) showLoader s) as (E1 & _ & _ & _ & E5).
  assert (E2 : Sequencer.lastCity s2 = city).
  { unfold s2. rewrite settlements_lastCity. exact E1. }
  destruct (retry_effect pg s2) as (_ & F2 & F3).
  rewrite E2 in F2, F3. done.
Qed.

Example retry_after_failed_search :
  let s := Sequencer.run Scenario.page
             [Sequencer.Settle 1 Scenario.ok;
              Sequencer.Settle 1 (Sequencer.GeoJson (Some [Scenario.amman]));
              Sequencer.Settle 1 Scenario.ok;
              Sequencer.Settle 1 (Sequencer.ForecastJson Scenario.ammanData);
              Sequencer.Settle 1 Sequencer.TimerFired;
              Sequencer.SearchClick "Atlantis";
              Sequencer.Settle 2 Scenario.ok;
              Sequencer.Settle 2 (Sequencer.GeoJson None);
              Sequencer.Settle 2 Sequencer.TimerFired;
              Sequencer.RetryClick] Scenario.booted in
  Sequencer.lastWeatherData s = Some Scenario.ammanData
  /\ head (Sequencer.trace s) = Some (Sequencer.GeocodeRequest 3 "Atlantis")
  /\ Sequencer.hidden Sequencer.noResult s = true.
Proof. vm_compute. repeat split. Qed.

(* ===================================================================== *)
(** * Further properties *)
(* ===================================================================== *)

(** ** Hour cards and day slices *)

Section SliceFacts.
Import DateTime Windower.

Lemma lookup_map_seq {A} (g : nat -> A) (start n i : nat) :
  (i < n)%nat -> List.map g (seq start n) !! i = Some (g (start + i)%nat).
Proof.
  revert start i. induction n as [|n IH]; intros start i Hi; [lia|].
  destruct i as [|i]; simpl.
  - by rewrite Nat.add_0_r.
  - rewrite IH by lia. f_equal. f_equal. lia.
Qed.

Lemma shown_cards (host : Host) (hours : list HourlyData) (n start : nat) :
  omap (fun c : option (string * HourlyData) => snd <$> c)
       (List.map (fun i => match hours !! i with
                           | None => None
                           | Some h => Some (hourLabel host h, h)
                           end) (seq start n))
  = take n (drop start hours).
Proof.
  revert start. induction n as [|n IH]; intros start; simpl.
  - by rewrite take_0.
  - destruct (hours !! start) as [h|] eqn:E; simpl.
    + rewrite IH. by rewrite (drop_S _ _ _ E).
    + rewrite IH. apply lookup_ge_None in E.
      rewrite !drop_ge by lia. by rewrite take_nil.
Qed.

(** On a host whose engine accepts the date-time string format only, a
    day key that is not a whole date of the format gives no window. *)
Lemma no_window tza dayKey :
  (forall y m d, parse_date (list_ascii_of_string dayKey) <> Some (y, m, d, [])) ->
  new_Date (strict tza) (dayKey +:+ "T00:00") = None.
Proof.
  intros Hbad. rewrite new_Date_strict, list_ascii_of_string_app.
  change (list_ascii_of_string "T00:00")
    with ("T"%char :: list_ascii_of_string "00:00").
  destruct (parse tza _) as [v|] eqn:E; [|done].
  apply parse_date_time in E as (y & m & d & _ & _ & Hd & _).
  by destruct (Hbad y m d).
Qed.

Lemma slice_member (host : Host) hourly dayKey y m d h :
  parse_date (list_ascii_of_string dayKey) = Some (y, m, d, []) ->
  h ∈ getHourlyForDay host hourly dayKey ->
  exists t,
    new_Date host (hd_time h) = Some t /\
    localDay host t = MakeDay y (m - 1) d.
Proof.
  intros Hd Hin. unfold getHourlyForDay in Hin.
  pose proof (filter_Forall (inWindow host
    (new_Date host (dayKey +:+ "T00:00")) (new_Date host (dayKey +:+ "T23:59")))
    (samples hourly)) as HF.
  rewrite Forall_forall in HF. apply HF in Hin.
  destruct (slice_day host dayKey y m d h Hd Hin) as (t & Ht & Hle).
  exists t. split; [done|]. by apply day_of_window.
Qed.

End SliceFacts.

(** X1: [renderHourly] writes one entry per hour card; card [i] shows
    sample [i] with its label when there is one and is hidden otherwise;
    the samples shown are, in order, the first [cards] of the slice. *)
Theorem renderHourly_layout
        (host : DateTime.Host) (cards : nat) (hours : list Windower.HourlyData) :
  let out := Windower.renderHourly host cards hours in
  length out = cards
  /\ (forall i, (i < cards)%nat ->
        out !! i = Some (match hours !! i with
                         | Some h => Some (Windower.hourLabel host h, h)
                         | None => None
                         end))
  /\ (forall i, (i < cards)%nat -> (length hours <= i)%nat -> out !! i = Some None)
  /\ omap (fun c : option (string * Windower.HourlyData) => snd <$> c) out
     = take cards hours.
Proof.
  unfold Windower.renderHourly. cbv zeta.
  split; [by rewrite length_map, length_seq|].
  split; [intros i Hi; by rewrite lookup_map_seq|].
  split.
  - intros i Hi Hlen. rewrite lookup_map_seq by done. simpl.
    by rewrite (proj2 (lookup_ge_None hours i) Hlen).
  - by rewrite shown_cards, drop_0.
Qed.

(** X2: when [new Date] gives an Invalid Date for either bound of the
    window, [getHourlyForDay] returns no sample, whatever the series
    (every comparison with the bound is false), and [renderHourly] then
    hides every hour card.  Which day keys give an Invalid Date is up
    to the engine; one that accepts the date-time string format only
    does so for every day key that is not a whole date of the format,
    such as the empty string the menu handler falls back to. *)
Theorem slice_of_invalid_day_empty
        (host : DateTime.Host) (hourly : Windower.Hourly) (dayKey : string)
        (cards : nat) :
  DateTime.new_Date host (dayKey +:+ "T00:00") = None
  \/ DateTime.new_Date host (dayKey +:+ "T23:59") = None ->
  Windower.getHourlyForDay host hourly dayKey = []
  /\ Windower.renderHourly host cards (Windower.getHourlyForDay host hourly dayKey)
     = replicate cards None.
Proof.
  intros Hbad.
  assert (E : Windower.getHourlyForDay host hourly dayKey = []).
  { unfold Windower.getHourlyForDay. apply filter_none. intros h _.
    unfold Windower.inWindow, DateTime.ge, DateTime.le.
    destruct Hbad as [-> | ->];
      destruct (DateTime.new_Date host (Windower.hd_time h)); simpl;
      rewrite ?andb_false_r; try done;
      by destruct (DateTime.new_Date host (dayKey +:+ "T23:59")). }
  split; [exact E|]. rewrite E. unfold Windower.renderHourly.
  generalize 0%nat. induction cards as [|n IH]; intros start; [done|].
  simpl. by rewrite IH.
Qed.

Lemma slice_of_invalid_day_empty_witness :
  Windower.getHourlyForDay (DateTime.strict 10800000)
    {| Windower.hr_time := ["2024-01-15T10:00"]%string;
       Windower.temperature_2m := [1];
       Windower.hr_weathercode := [0];
       Windower.apparent_temperature := [1];
       Windower.relative_humidity_2m := [40];
       Windower.precipitation := [0] |} "" = [].
Proof.
  apply (slice_of_invalid_day_empty (DateTime.strict 10800000) _ "" 8).
  left. reflexivity.
Defined.

(** X3: the slices of two day keys that name different calendar days
    share no sample. *)
Theorem slices_of_distinct_days_disjoint
        (host : DateTime.Host) (hourly : Windower.Hourly) (day1 day2 : string)
        (y1 m1 d1 y2 m2 d2 : Z) :
  DateTime.parse_date (list_ascii_of_string day1) = Some (y1, m1, d1, []) ->
  DateTime.parse_date (list_ascii_of_string day2) = Some (y2, m2, d2, []) ->
  DateTime.MakeDay y1 (m1 - 1) d1 <> DateTime.MakeDay y2 (m2 - 1) d2 ->
  forall h,
    h ∈ Windower.getHourlyForDay host hourly day1 ->
    h ∉ Windower.getHourlyForDay host hourly day2.
Proof.
  intros H1 H2 Hne h Hin1 Hin2.
  apply (slice_member host hourly day1 y1 m1 d1 h H1) in Hin1 as (t & Ht & Hday).
  apply (slice_member host hourly day2 y2 m2 d2 h H2) in Hin2 as (t' & Ht' & Hday').
  rewrite Ht in Ht'. injection Ht' as <-. congruence.
Qed.

Lemma slices_of_distinct_days_disjoint_witness :
  let hourly :=
    {| Windower.hr_time := ["2024-01-15T23:00"; "2024-01-16T00:00"]%string;
       Windower.temperature_2m := [1; 2];
       Windower.hr_weathercode := [0; 0];
       Windower.apparent_temperature := [1; 2];
       Windower.relative_humidity_2m := [40; 40];
       Windower.precipitation := [0; 0] |} in
  let h := {| Windower.hd_time := "2024-01-15T23:00";
              Windower.hd_temperature := Some 1;
              Windower.hd_weathercode := Some 0 |} in
  h ∈ Windower.getHourlyForDay (DateTime.strict 10800000) hourly "2024-01-15"
  /\ h ∉ Windower.getHourlyForDay (DateTime.strict 10800000) hourly "2024-01-16".
Proof.
  intros hourly h.
  assert (Hin : h ∈ Windower.getHourlyForDay (DateTime.strict 10800000)
                      hourly "2024-01-15")
    by (vm_compute; constructor).
  split; [exact Hin|].
  apply (slices_of_distinct_days_disjoint (DateTime.strict 10800000) hourly "2024-01-15" "2024-01-16"
           2024 1 15 2024 1 16);
    [reflexivity | reflexivity | vm_compute; discriminate | exact Hin].
Defined.

(** X4: every hour card that shows a sample of a day slice carries one of
    the 24 listed labels. *)
Theorem slice_labels_listed
        (host : DateTime.Host) (hourly : Windower.Hourly) (dayKey : string)
        (h : Windower.HourlyData) :
  h ∈ Windower.getHourlyForDay host hourly dayKey ->
  Windower.hourLabel host h ∈ Windower.hourLabels.
Proof. apply hourLabel_of_slice. Qed.

Lemma slice_labels_listed_witness :
  Windower.hourLabel (DateTime.strict 10800000)
    {| Windower.hd_time := "2024-01-15T10:00";
       Windower.hd_temperature := Some 1;
       Windower.hd_weathercode := Some 0 |} ∈ Windower.hourLabels.
Proof.
  apply (slice_labels_listed (DateTime.strict 10800000)
           {| Windower.hr_time := ["2024-01-15T10:00"]%string;
              Windower.temperature_2m := [1];
              Windower.hr_weathercode := [0];
              Windower.apparent_temperature := [1];
              Windower.relative_humidity_2m := [40];
              Windower.precipitation := [0] |} "2024-01-15").
  vm_compute. left.
Defined.

(** ** Day names, the day menu, the info cards *)

Section CalendarFacts.
Import DateTime Windower Calendar.

Lemma find_seq_first (P : nat -> bool) (start n k : nat) :
  (k < n)%nat -> P (start + k)%nat = true ->
  (forall i, (i < k)%nat -> P (start + i)%nat = false) ->
  List.find P (seq start n) = Some (start + k)%nat.
Proof.
  revert start n. induction k as [|k IH]; intros start n Hk Hp Hnot.
  - destruct n as [|n]; [lia|]. simpl. rewrite Nat.add_0_r in Hp. rewrite Hp.
    by rewrite Nat.add_0_r.
  - destruct n as [|n]; [lia|]. simpl.
    pose proof (Hnot 0%nat ltac:(lia)) as H0. rewrite Nat.add_0_r in H0. rewrite H0.
    replace (start + S k)%nat with (S start + k)%nat by lia.
    apply IH; [lia | by replace (S start + k)%nat with (start + S k)%nat by lia |].
    intros i Hi. replace (S start + i)%nat with (start + S i)%nat by lia.
    apply Hnot. lia.
Qed.

Lemma filter_seq_none (P : nat -> bool) (start n : nat) :
  (forall i, (i < n)%nat -> P (start + i)%nat = false) ->
  List.filter P (seq start n) = [].
Proof.
  revert start. induction n as [|n IH]; intros start H; [done|]. simpl.
  pose proof (H 0%nat ltac:(lia)) as H0. rewrite Nat.add_0_r in H0. rewrite H0.
  apply IH. intros i Hi. replace (S start + i)%nat with (start + S i)%nat by lia.
  apply H. lia.
Qed.

Lemma filter_seq_single (P : nat -> bool) (n k : nat) :
  (k < n)%nat -> (forall i, (i < n)%nat -> P i = bool_decide (i = k)) ->
  List.filter P (seq 0 n) = [k].
Proof.
  intros Hk HP.
  replace n with (k + S (n - S k))%nat by lia.
  rewrite seq_app, List.filter_app. simpl.
  rewrite (HP k Hk), bool_decide_eq_true_2 by done.
  rewrite filter_seq_none.
  2:{ intros i Hi. simpl. rewrite HP by lia. apply bool_decide_eq_false_2. lia. }
  rewrite filter_seq_none; [done|].
  intros i Hi. rewrite HP by lia. apply bool_decide_eq_false_2. lia.
Qed.

Lemma activeEntries_single menu a :
  activeEntries menu = [a] ->
  (a < length menu)%nat /\
  (forall i, (i < length menu)%nat -> isActive menu i = bool_decide (i = a)).
Proof.
  unfold activeEntries. fold (isActive menu). intros E.
  assert (Hin : forall i, List.In i (List.filter (isActive menu) (seq 0 (length menu)))
                          <-> i = a).
  { intros i. rewrite E. simpl. split; [intros [->|[]]; done | intros ->; by left]. }
  split.
  - pose proof (proj2 (Hin a) eq_refl) as H. apply List.filter_In in H as [H _].
    apply in_seq in H. lia.
  - intros i Hi. destruct (isActive menu i) eqn:Hact.
    + symmetry. apply bool_decide_eq_true_2. apply Hin. apply List.filter_In.
      split; [apply in_seq; lia | done].
    + symmetry. apply bool_decide_eq_false_2. intros ->.
      pose proof (proj2 (Hin a) eq_refl) as H. apply List.filter_In in H as [_ H].
      congruence.
Qed.

Lemma firstActive_single menu a : activeEntries menu = [a] -> firstActive menu = Some a.
Proof.
  intros E. destruct (activeEntries_single menu a E) as [Ha Hall].
  unfold firstActive. fold (isActive menu).
  apply (find_seq_first (isActive menu) 0 (length menu) a Ha).
  - simpl. rewrite Hall by done. by apply bool_decide_eq_true_2.
  - intros i Hi. simpl. rewrite Hall by lia. apply bool_decide_eq_false_2. lia.
Qed.

Lemma fmap_alter_same {A B} (f : A -> B) (g : A -> A) (i : nat) (l : list A) :
  (forall x, f (g x) = f x) -> f <$> alter g i l = f <$> l.
Proof.
  intros H. apply list_eq. intros j. rewrite !list_lookup_fmap.
  destruct (decide (i = j)) as [->|Hne].
  - rewrite list_lookup_alter_eq. destruct (l !! j); simpl; [by rewrite H | done].
  - by rewrite list_lookup_alter_ne.
Qed.

Lemma activate_single menu a k :
  activeEntries menu = [a] -> (k < length menu)%nat ->
  activeEntries (activate k menu) = [k]
  /\ length (activate k menu) = length menu
  /\ li_date <$> activate k menu = li_date <$> menu
  /\ li_text <$> activate k menu = li_text <$> menu.
Proof.
  intros E Hk. destruct (activeEntries_single menu a E) as [Ha Hall].
  unfold activate. rewrite (firstActive_single menu a E).
  assert (Hlen : length (alter (set_active true) k (alter (set_active false) a menu))
                 = length menu) by (by rewrite !length_alter).
  split; [|split; [done|split]].
  - unfold activeEntries. rewrite Hlen.
    apply filter_seq_single; [done|]. intros i Hi.
    destruct (decide (i = k)) as [->|Hik].
    + rewrite list_lookup_alter_eq.
      destruct (alter (set_active false) a menu !! k) as [li|] eqn:El.
      * simpl. symmetry. by apply bool_decide_eq_true_2.
      * apply lookup_ge_None in El. rewrite length_alter in El. lia.
    + rewrite list_lookup_alter_ne by done.
      rewrite (bool_decide_eq_false_2 _ Hik).
      destruct (decide (i = a)) as [->|Hia].
      * rewrite list_lookup_alter_eq. by destruct (menu !! a).
      * rewrite list_lookup_alter_ne by done.
        pose proof (Hall i Hi) as H. unfold isActive in H.
        rewrite H. by apply bool_decide_eq_false_2.
  - by rewrite !fmap_alter_same.
  - by rewrite !fmap_alter_same.
Qed.

Lemma populate_active names (host : Host) times :
  times <> [] ->
  activeEntries (populateDaysDropdown names host times) = [0%nat]
  /\ length (populateDaysDropdown names host times) = length times
  /\ li_date <$> populateDaysDropdown names host times = times.
Proof.
  intros Hne. unfold populateDaysDropdown.
  assert (Hlen : length (imap (fun index dateStr =>
            {| li_text := if Nat.eqb index 0 then "Today"
                          else getWeekday names host dateStr;
               li_date := dateStr; li_active := Nat.eqb index 0 |}) times)
          = length times) by apply length_imap.
  split; [|split; [done|]].
  - unfold activeEntries. rewrite Hlen. apply filter_seq_single.
    + destruct times; [done | simpl; lia].
    + intros i Hi. rewrite list_lookup_imap.
      destruct (times !! i) as [t|] eqn:E; simpl.
      * by destruct i.
      * apply lookup_ge_None in E. lia.
  - apply list_eq. intros i. rewrite list_lookup_fmap, list_lookup_imap.
    by destruct (times !! i).
Qed.

Lemma clicks_active clicks : forall menu a,
  activeEntries menu = [a] ->
  Forall (fun k => (k < length menu)%nat) clicks ->
  let menu' := fold_left (fun m k => activate k m) clicks menu in
  activeEntries menu' = [default a (last clicks)]
  /\ length menu' = length menu
  /\ li_date <$> menu' = li_date <$> menu
  /\ li_text <$> menu' = li_text <$> menu.
Proof.
  induction clicks as [|k clicks IH]; intros menu a E Hall; [done|].
  apply Forall_cons in Hall as [Hk Hall]. simpl.
  destruct (activate_single menu a k E Hk) as (E1 & L1 & D1 & T1).
  rewrite <- L1 in Hall.
  destruct (IH (activate k menu) k E1 Hall) as (E2 & L2 & D2 & T2).
  rewrite last_cons. split; [|split; [congruence | split; congruence]].
  rewrite E2. by destruct (last clicks).
Qed.

(** The time value of a date-only string is UTC midnight of that day. *)
Lemma date_only_value (host : Host) dateStr y m d :
  parse_date (list_ascii_of_string dateStr) = Some (y, m, d, []) ->
  Z.abs (MakeDay y (m - 1) d * msPerDay) <= 8640000000000000 ->
  new_Date host dateStr = Some (MakeDay y (m - 1) d * msPerDay).
Proof.
  intros Hd Hclip. unfold new_Date, format. rewrite Hd.
  unfold TimeClip, MakeDate. rewrite Z.add_0_r.
  destruct (Z.gtb_spec (Z.abs (MakeDay y (m - 1) d * msPerDay)) 8640000000000000);
    [lia | done].
Qed.

Lemma hour_of_sample s tza i :
  (s + tza) mod msPerDay = 0 -> 0 <= i < 24 ->
  HourFromTime (LocalTime tza (s + i * msPerHour)) = i.
Proof.
  intros Hmid Hi. unfold HourFromTime, LocalTime, msPerDay, msPerHour in *.
  apply Z.mod_divide in Hmid as [q Hq]; [|lia].
  replace (s + i * 3600000 + tza) with ((q * 24 + i) * 3600000) by lia.
  rewrite Z.div_mul by lia.
  rewrite Z.add_comm, Z.mod_add by lia. apply Z.mod_small. lia.
Qed.

End CalendarFacts.

(** X5: in the day menu built by [populateDaysDropdown] from a non-empty
    list of days, and after any clicks on its entries, exactly one entry is
    active (the first one, then the one clicked last), and the entries
    keep the days of the list, in order, as their [data-date]. *)
Theorem day_menu_one_active
        (names : Z -> string) (host : DateTime.Host) (times : list string)
        (clicks : list nat) :
  times <> [] ->
  Forall (fun k => (k < length times)%nat) clicks ->
  let menu := fold_left (fun m k => Calendar.activate k m) clicks
                (Calendar.populateDaysDropdown names host times) in
  Calendar.activeEntries menu = [default 0%nat (last clicks)]
  /\ Calendar.li_date <$> menu = times
  /\ length menu = length times
  /\ (Calendar.li_text <$> menu) !! 0%nat = Some "Today"%string.
Proof.
  intros Hne Hall.
  destruct (populate_active names host times Hne) as (E & L & D).
  rewrite <- L in Hall.
  destruct (clicks_active clicks _ 0%nat E Hall) as (E1 & L1 & D1 & T1).
  cbv zeta. split; [exact E1|]. split; [congruence|]. split; [congruence|].
  rewrite T1. unfold Calendar.populateDaysDropdown.
  rewrite list_lookup_fmap, list_lookup_imap.
  destruct times as [|t times]; [done|]. reflexivity.
Qed.

Lemma day_menu_one_active_witness :
  Calendar.activeEntries
    (fold_left (fun m k => Calendar.activate k m) [2%nat; 1%nat]
       (Calendar.populateDaysDropdown (fun _ => "day"%string) (DateTime.strict 0)
          ["2024-01-15"; "2024-01-16"; "2024-01-17"]%string))
  = [1%nat].
Proof.
  apply (day_menu_one_active (fun _ => "day"%string) (DateTime.strict 0)
           ["2024-01-15"; "2024-01-16"; "2024-01-17"]%string [2%nat; 1%nat]).
  - discriminate.
  - repeat constructor.
Defined.

(** X6: [getWeekday] reads a date-only string as UTC midnight and names
    the weekday of that instant in the host's zone: on a host at or east
    of UTC it is the weekday of the named day, on a host west of UTC the
    weekday of the day before. *)
Theorem getWeekday_of_date_only
        (names : Z -> string) (host : DateTime.Host) (dateStr : string)
        (y m d : Z) :
  DateTime.parse_date (list_ascii_of_string dateStr) = Some (y, m, d, []) ->
  Z.abs (DateTime.MakeDay y (m - 1) d * DateTime.msPerDay) <= 8640000000000000 ->
  (0 <= DateTime.offset host < DateTime.msPerDay ->
   Calendar.getWeekday names host dateStr
   = names ((DateTime.MakeDay y (m - 1) d + 4) mod 7))
  /\ (- DateTime.msPerDay <= DateTime.offset host < 0 ->
      Calendar.getWeekday names host dateStr
      = names ((DateTime.MakeDay y (m - 1) d - 1 + 4) mod 7)).
Proof.
  intros Hd Hclip. unfold Calendar.getWeekday.
  rewrite (date_only_value host dateStr y m d Hd Hclip).
  unfold Calendar.WeekDay, DateTime.Day, DateTime.LocalTime, DateTime.msPerDay.
  set (day := DateTime.MakeDay y (m - 1) d).
  set (tza := DateTime.offset host).
  split; intros Htz.
  - assert (E : (day * 86400000 + tza) / 86400000 = day).
    { symmetry. apply (Z.div_unique _ _ _ tza); lia. }
    by rewrite E.
  - assert (E : (day * 86400000 + tza) / 86400000 = day - 1).
    { symmetry. apply (Z.div_unique _ _ _ (tza + 86400000)); lia. }
    by rewrite E.
Qed.

Lemma getWeekday_of_date_only_witness :
  Calendar.getWeekday Windower.Z_to_string (DateTime.strict (-18000000)) "2024-01-15"
  = Windower.Z_to_string ((DateTime.MakeDay 2024 (1 - 1) 15 - 1 + 4) mod 7).
Proof.
  apply (getWeekday_of_date_only Windower.Z_to_string
           (DateTime.strict (-18000000)) "2024-01-15"
           2024 1 15); [reflexivity | vm_compute; discriminate | vm_compute; split; [discriminate | reflexivity]].
Defined.

Example getWeekday_west_and_east (f : string -> DateTime.Date) :
  let host tza := {| DateTime.offset := tza; DateTime.legacy := f |} in
  Calendar.getWeekday Windower.Z_to_string (host (-18000000)) "2024-01-15"
  = "0"%string
  /\ Calendar.getWeekday Windower.Z_to_string (host 10800000) "2024-01-15"
     = "1"%string
  /\ Calendar.getWeekday Windower.Z_to_string (host (-18000000)) "2024-01-15T00:00"
     = "1"%string.
Proof. repeat split; reflexivity. Qed.

(** X7: when the hourly series starts at a local midnight and advances by
    the hour for at least a day, [updateInfoCards] reads the arrays at
    the index equal to the current hour of the day, that is at the sample
    of the first day of the series for that hour, whatever the current
    date. *)
Theorem hourIndex_is_current_hour
        (host : DateTime.Host) (now s : Z) (times : list string) :
  (24 <= length times)%nat ->
  (s + DateTime.offset host) mod DateTime.msPerDay = 0 ->
  (forall i t, (i < 24)%nat -> times !! i = Some t ->
     DateTime.new_Date host t = Some (s + Z.of_nat i * DateTime.msPerHour)) ->
  Calendar.hourIndex host now times
  = Some (Z.to_nat (DateTime.HourFromTime
                      (DateTime.LocalTime (DateTime.offset host) now))).
Proof.
  intros Hlen Hmid Hseries. unfold Calendar.hourIndex.
  set (tza := DateTime.offset host) in *.
  set (H := DateTime.HourFromTime (DateTime.LocalTime tza now)).
  assert (HH : 0 <= H < 24) by (apply Z.mod_pos_bound; lia).
  assert (Hhour : forall i, (i < 24)%nat ->
            exists t, times !! i = Some t /\
              DateTime.getHours tza (DateTime.new_Date host t) = Some (Z.of_nat i)).
  { intros i Hi. destruct (times !! i) as [t|] eqn:E.
    - exists t. split; [done|]. rewrite (Hseries i t Hi E). simpl.
      f_equal. apply hour_of_sample; [done | lia].
    - apply lookup_ge_None in E. lia. }
  apply (find_seq_first _ 0 (length times) (Z.to_nat H)); [lia | |].
  - simpl. destruct (Hhour (Z.to_nat H) ltac:(lia)) as (t & -> & ->).
    apply Z.eqb_eq. lia.
  - intros i Hi. simpl. destruct (Hhour i ltac:(lia)) as (t & -> & ->).
    apply Z.eqb_neq. lia.
Qed.

Lemma hourIndex_is_current_hour_witness :
  Calendar.hourIndex (DateTime.strict 10800000) 1705312800000
    ["2024-01-15T00:00"; "2024-01-15T01:00"; "2024-01-15T02:00"; "2024-01-15T03:00";
     "2024-01-15T04:00"; "2024-01-15T05:00"; "2024-01-15T06:00"; "2024-01-15T07:00";
     "2024-01-15T08:00"; "2024-01-15T09:00"; "2024-01-15T10:00"; "2024-01-15T11:00";
     "2024-01-15T12:00"; "2024-01-15T13:00"; "2024-01-15T14:00"; "2024-01-15T15:00";
     "2024-01-15T16:00"; "2024-01-15T17:00"; "2024-01-15T18:00"; "2024-01-15T19:00";
     "2024-01-15T20:00"; "2024-01-15T21:00"; "2024-01-15T22:00"; "2024-01-15T23:00";
     "2024-01-16T00:00"]%string
  = Some (Z.to_nat (DateTime.HourFromTime (DateTime.LocalTime 10800000 1705312800000))).
Proof.
  apply (hourIndex_is_current_hour (DateTime.strict 10800000)
           1705312800000 1705266000000).
  - simpl. lia.
  - reflexivity.
  - intros i t Hi E.
    do 24 (destruct i as [|i]; [injection E as <-; reflexivity|]). lia.
Defined.

(** ** The units dropdown *)

Section DropdownFacts.
Import Units Dropdown.

Lemma filter_seq_single_inv (P : nat -> bool) (n a : nat) :
  List.filter P (seq 0 n) = [a] ->
  (a < n)%nat /\ (forall i, (i < n)%nat -> P i = bool_decide (i = a)).
Proof.
  intros E.
  assert (Hin : forall i, List.In i (List.filter P (seq 0 n)) <-> i = a).
  { intros i. rewrite E. simpl. split; [intros [->|[]]; done | intros ->; by left]. }
  split.
  - pose proof (proj2 (Hin a) eq_refl) as H. apply List.filter_In in H as [H _].
    apply in_seq in H. lia.
  - intros i Hi. destruct (P i) eqn:Hact.
    + symmetry. apply bool_decide_eq_true_2. apply Hin. apply List.filter_In.
      split; [apply in_seq; lia | done].
    + symmetry. apply bool_decide_eq_false_2. intros ->.
      pose proof (proj2 (Hin a) eq_refl) as H. apply List.filter_In in H as [_ H].
      congruence.
Qed.

Lemma find_seq_Some (P : nat -> bool) (start n k : nat) :
  List.find P (seq start n) = Some k ->
  (start <= k < start + n)%nat /\ P k = true.
Proof.
  intros H. apply List.find_some in H as [H1 H2]. apply in_seq in H1. done.
Qed.

(** [querySelector(".option.selected")] and the selected index. *)
Lemma queryOption_index c sec k :
  optionIndex c sec = Some k ->
  queryOption c sec = (sec_options sec) !! k.
Proof.
  unfold optionIndex, queryOption. generalize (sec_options sec). intros l.
  assert (G : forall (pre : list (gset string)),
    List.find (fun i => contains (default ∅ ((pre ++ l) !! i)) c)
              (seq (length pre) (length l)) = Some k ->
    List.find (fun o => contains o c) l = (pre ++ l) !! k).
  { induction l as [|o l IH]; intros pre; [done|]. simpl.
    rewrite lookup_app_r by lia. rewrite Nat.sub_diag. simpl.
    destruct (contains o c) eqn:Ho.
    - intros [= <-]. rewrite lookup_app_r by lia. by rewrite Nat.sub_diag.
    - intros H. specialize (IH (pre ++ [o])).
      rewrite <- !app_assoc in IH. simpl in IH. apply IH.
      rewrite length_app. simpl. by rewrite Nat.add_1_r. }
  apply (G []).
Qed.

Lemma map_fmap {A B} (f : A -> B) (l : list A) : List.map f l = f <$> l.
Proof. induction l as [|x l IH]; simpl; [done | by rewrite IH]. Qed.

Lemma save_other sections : forall acc t,
  t ∉ titles sections -> fold_left saveStep sections acc !! t = acc !! t.
Proof.
  induction sections as [|sec l IH]; intros acc t Hnot; [done|]. simpl.
  unfold titles in Hnot. simpl in Hnot.
  destruct (sec_title sec) as [title|] eqn:Et; simpl in Hnot.
  - apply not_elem_of_cons in Hnot as [Hne Hnot]. rewrite IH by done.
    destruct (queryOption "selected" sec); [|done].
    by rewrite lookup_insert_ne.
  - by rewrite IH.
Qed.

Lemma save_lookup sections : forall acc sec title o,
  NoDup (titles sections) -> sec ∈ sections ->
  sec_title sec = Some title -> queryOption "selected" sec = Some o ->
  fold_left saveStep sections acc !! title = Some (preferenceOf o).
Proof.
  induction sections as [|hd l IH]; intros acc sec title o Hnd Hin Ht Hq.
  - by apply elem_of_nil in Hin.
  - simpl. unfold titles in Hnd. simpl in Hnd.
    apply elem_of_cons in Hin as [<-|Hin].
    + rewrite Ht, Hq. rewrite Ht in Hnd. simpl in Hnd.
      apply NoDup_cons in Hnd as [Hnot _].
      rewrite save_other by done. by rewrite lookup_insert_eq.
    + apply (IH _ sec title o); [|done..].
      destruct (sec_title hd); simpl in Hnd; [by apply NoDup_cons in Hnd as [_ ?] | done].
Qed.

(** Every value [savePreferences] stores is "metric" or "imperial", under
    the title of a section that has a selected option. *)
Lemma save_values sections : forall acc k v,
  fold_left saveStep sections acc !! k = Some v ->
  acc !! k = Some v
  \/ exists sec o, sec ∈ sections /\ sec_title sec = Some k /\
                   queryOption "selected" sec = Some o /\ v = preferenceOf o.
Proof.
  induction sections as [|hd l IH]; intros acc k v H; [by left|].
  simpl in H. apply IH in H as [H|(sec & o & Hin & Ht & Hq & ->)].
  - destruct (sec_title hd) as [title|] eqn:Et; [|by left].
    destruct (queryOption "selected" hd) as [o|] eqn:Eq; [|by left].
    destruct (decide (title = k)) as [->|Hne].
    + rewrite lookup_insert_eq in H. injection H as <-.
      right. exists hd, o. split; [by left | done].
    + rewrite lookup_insert_ne in H by done. by left.
  - right. exists sec, o. split; [by right | done].
Qed.

Lemma wellFormed_facts sec :
  wellFormed sec = true ->
  exists title k o,
    sec_title sec = Some title
    /\ sec_options sec !! k = Some o
    /\ "selected"%string ∈ o
    /\ (forall i o', i <> k -> sec_options sec !! i = Some o' -> "selected"%string ∉ o')
    /\ queryOption "selected" sec = Some o
    /\ optionIndex (preferenceOf o) sec = Some k.
Proof.
  unfold wellFormed. destruct (sec_title sec) as [title|]; [|done].
  destruct (optionsWith "selected" sec) as [|k [|? ?]] eqn:E; [done| |done].
  intros Hidx. apply bool_decide_eq_true in Hidx.
  apply filter_seq_single_inv in E as [Hk Hall].
  destruct (sec_options sec !! k) as [o|] eqn:Eo.
  2:{ apply lookup_ge_None in Eo. lia. }
  simpl in Hidx.
  assert (Hsel : "selected"%string ∈ o).
  { pose proof (Hall k Hk) as H. rewrite Eo in H. simpl in H.
    rewrite bool_decide_eq_true_2 in H by done. by apply bool_decide_eq_true in H. }
  assert (Hothers : forall i o', i <> k -> sec_options sec !! i = Some o' ->
                                 "selected"%string ∉ o').
  { intros i o' Hne Ei.
    pose proof (Hall i (lookup_lt_Some _ _ _ Ei)) as H. rewrite Ei in H. simpl in H.
    rewrite (bool_decide_eq_false_2 _ Hne) in H. by apply bool_decide_eq_false in H. }
  exists title, k, o. split; [done|]. split; [done|]. split; [done|].
  split; [done|]. split; [|done].
  rewrite <- Eo. apply queryOption_index. unfold optionIndex.
  apply (find_seq_first _ 0 _ k Hk).
  - simpl. rewrite Eo. simpl. by apply bool_decide_eq_true_2.
  - intros i Hi. simpl. rewrite (Hall i) by lia. apply bool_decide_eq_false_2. lia.
Qed.

Lemma reselect_same (opts : list (gset string)) k o :
  opts !! k = Some o -> "selected"%string ∈ o ->
  (forall i o', i <> k -> opts !! i = Some o' -> "selected"%string ∉ o') ->
  alter (fun o => {["selected"%string]} ∪ o) k
        (List.map (fun o => o ∖ {["selected"%string]}) opts) = opts.
Proof.
  intros Ek Hsel Hothers. rewrite map_fmap. apply list_eq. intros i.
  destruct (decide (k = i)) as [<-|Hne].
  - rewrite list_lookup_alter_eq, list_lookup_fmap, Ek. simpl. f_equal.
    apply set_eq. intros x.
    rewrite elem_of_union, elem_of_difference, elem_of_singleton.
    split; [intros [->|[? _]]; done|]. intros Hx.
    destruct (decide (x = "selected"%string)); [by left | by right].
  - rewrite list_lookup_alter_ne by done. rewrite list_lookup_fmap.
    destruct (opts !! i) as [o'|] eqn:Ei; [|done]. simpl. f_equal.
    apply set_eq. intros x. rewrite elem_of_difference, elem_of_singleton.
    split; [by intros [? _]|]. intros Hx. split; [done|]. intros ->.
    by apply (Hothers i o' ltac:(done) Ei).
Qed.

Lemma restoreSection_same saved sec title k o :
  sec_title sec = Some title -> sec_options sec !! k = Some o ->
  "selected"%string ∈ o ->
  (forall i o', i <> k -> sec_options sec !! i = Some o' -> "selected"%string ∉ o') ->
  optionIndex (preferenceOf o) sec = Some k ->
  saved !! title = Some (preferenceOf o) ->
  restoreSection saved sec = sec.
Proof.
  intros Ht Ek Hsel Hothers Hidx Hsaved. unfold restoreSection.
  rewrite Ht, Hsaved.
  assert (Hne : String.eqb (preferenceOf o) "" = false).
  { unfold preferenceOf. by destruct (contains o "metric"). }
  rewrite Hne. unfold optionIndex in Hidx. rewrite Hidx.
  rewrite (reselect_same _ k o Ek Hsel Hothers).
  destruct sec as [t opts]. simpl in *. by rewrite Ht.
Qed.

End DropdownFacts.

(** X8: for any dropdown, [getCurrentSystem] answers "metric" exactly when
    no section has a selected option without class [metric] (in
    particular when there is no section, or nothing is selected); it
    answers "imperial" exactly when some selected option lacks [metric]
    and none lacks [imperial]; otherwise "mixed". *)
Theorem getCurrentSystem_general (sections : list Units.SectionEl) :
  (Units.getCurrentSystem sections = Units.metric
   <-> Forall (fun sec => Units.selectedHas "metric" sec = true) sections)
  /\ (Units.getCurrentSystem sections = Units.imperial
      <-> ~ Forall (fun sec => Units.selectedHas "metric" sec = true) sections
          /\ Forall (fun sec => Units.selectedHas "imperial" sec = true) sections)
  /\ (Units.getCurrentSystem sections = Units.mixed
      <-> ~ Forall (fun sec => Units.selectedHas "metric" sec = true) sections
          /\ ~ Forall (fun sec => Units.selectedHas "imperial" sec = true) sections)
  /\ (Forall (fun sec => Units.queryOption "selected" sec = None) sections ->
      Units.getCurrentSystem sections = Units.metric).
Proof.
  rewrite getCurrentSystem_flags.
  assert (F : forall c, forallb (Units.selectedHas c) sections = true
                        <-> Forall (fun sec => Units.selectedHas c sec = true) sections).
  { intros c. rewrite forallb_forall, Forall_forall.
    split; intros H x Hx; apply H; by apply list_elem_of_In. }
  destruct (forallb (Units.selectedHas "metric") sections) eqn:Em;
    destruct (forallb (Units.selectedHas "imperial") sections) eqn:Ei.
  all: pose proof (F "metric"%string) as Fm; pose proof (F "imperial"%string) as Fi.
  all: rewrite Em in Fm; rewrite Ei in Fi.
  all: repeat split; try done; try (intros; exfalso; intuition congruence);
       try (intros _; intuition congruence); try (intros; intuition congruence).
  all: try (intros Hn; exfalso;
            assert (Hall : Forall (fun sec => Units.selectedHas "metric" sec = true) sections);
            [eapply Forall_impl; [exact Hn|]; intros sec Hq; unfold Units.selectedHas;
             by rewrite Hq | intuition congruence]).
Qed.

(** X9: every value [savePreferences] stores is "metric" or "imperial",
    and is stored under the title of a section that has a selected
    option: "metric" if that option carries class [metric], "imperial" in
    every other case. *)
Theorem stored_preferences_shape
        (sections : list Units.SectionEl) (key value : string) :
  Units.collectPreferences sections !! key = Some value ->
  (value = "metric"%string \/ value = "imperial"%string)
  /\ exists sec selected,
       sec ∈ sections /\ Units.sec_title sec = Some key
       /\ Units.queryOption "selected" sec = Some selected
       /\ value = if Units.contains selected "metric" then "metric"%string
                  else "imperial"%string.
Proof.
  intros H. apply save_values in H as [H|(sec & o & Hin & Ht & Hq & ->)].
  - by rewrite lookup_empty in H.
  - split.
    + unfold Dropdown.preferenceOf. destruct (Units.contains o "metric"); auto.
    + by exists sec, o.
Qed.

Lemma stored_preferences_shape_witness :
  "imperial"%string = "metric"%string \/ "imperial"%string = "imperial"%string.
Proof.
  apply (stored_preferences_shape
           (Units.sectionsOf Dropdown.imperialUnits) "Wind Speed" "imperial").
  vm_compute. reflexivity.
Defined.

(** X10: saving and restoring is a round trip: on a dropdown whose
    sections have distinct titles and each exactly one selected option
    (the first of its kind), [restorePreferences] applied to what
    [savePreferences] stored reproduces the dropdown. *)
Theorem restore_saved_preferences (sections : list Units.SectionEl) :
  NoDup (Dropdown.titles sections) ->
  Forall (fun sec => Dropdown.wellFormed sec = true) sections ->
  Units.restorePreferences (Some (Units.collectPreferences sections)) sections
  = sections.
Proof.
  intros Hnd Hwf. unfold Units.restorePreferences, Units.readPreferences. simpl.
  case_bool_decide; [done|].
  transitivity (List.map id sections); [|apply List.map_id].
  apply List.map_ext_in.
  intros sec Hin. apply list_elem_of_In in Hin.
  rewrite Forall_forall in Hwf.
  destruct (wellFormed_facts sec (Hwf sec Hin))
    as (title & k & o & Ht & Ek & Hsel & Hothers & Hq & Hidx).
  apply (restoreSection_same _ sec title k o); try done.
  unfold Units.collectPreferences. by apply (save_lookup sections ∅ sec title o).
Qed.

Lemma restore_saved_preferences_witness :
  Units.restorePreferences
    (Some (Units.collectPreferences
             (Units.sectionsOf {| Units.temperature := Units.fahrenheit;
                                  Units.wind := Units.kmh;
                                  Units.precipitation := Units.inch |})))
    (Units.sectionsOf {| Units.temperature := Units.fahrenheit;
                         Units.wind := Units.kmh;
                         Units.precipitation := Units.inch |})
  = Units.sectionsOf {| Units.temperature := Units.fahrenheit;
                        Units.wind := Units.kmh;
                        Units.precipitation := Units.inch |}.
Proof.
  apply restore_saved_preferences.
  - apply (bool_decide_unpack _). vm_compute. exact I.
  - repeat constructor.
Defined.

Section ClickFacts.
Import Units Dropdown.

Lemma selectOption_lookup j sec k :
  sec_options (selectOption j sec) !! k
  = (fun o => if Nat.eqb k j
              then {["selected"%string]} ∪ (o ∖ {["selected"%string]})
              else o ∖ {["selected"%string]}) <$> sec_options sec !! k.
Proof. unfold selectOption. simpl. by rewrite list_lookup_imap. Qed.

Lemma selectOption_selected j sec :
  (j < length (sec_options sec))%nat ->
  optionsWith "selected" (selectOption j sec) = [j].
Proof.
  intros Hj. unfold optionsWith.
  assert (Hlen : length (sec_options (selectOption j sec)) = length (sec_options sec)).
  { unfold selectOption. simpl. apply length_imap. }
  rewrite Hlen. apply filter_seq_single; [done|]. intros i Hi.
  rewrite selectOption_lookup.
  destruct (sec_options sec !! i) as [o|] eqn:E.
  2:{ apply lookup_ge_None in E. lia. }
  simpl. unfold contains. destruct (Nat.eqb_spec i j) as [->|Hne].
  - rewrite bool_decide_eq_true_2; [by rewrite bool_decide_eq_true_2|].
    apply elem_of_union_l. by apply elem_of_singleton.
  - rewrite bool_decide_eq_false_2; [by rewrite bool_decide_eq_false_2|].
    rewrite elem_of_difference, elem_of_singleton. tauto.
Qed.

Lemma selectOption_sectionFor title b j :
  (j < 2)%nat ->
  selectOption j (sectionFor title b) = sectionFor title (Nat.eqb j 1).
Proof.
  intros Hj. unfold selectOption, sectionFor.
  destruct j as [|[|j]]; [| |lia]; destruct b; simpl; do 3 f_equal;
    vm_compute; reflexivity.
Qed.

End ClickFacts.

(** X11: a click on option [j] of section [i] leaves exactly that option
    selected in its section; the other classes of its options, its title,
    and all other sections stay as they were. *)
Theorem click_selects_one
        (sections : list Units.SectionEl) (i j : nat) (sec : Units.SectionEl) :
  sections !! i = Some sec ->
  (j < length (Units.sec_options sec))%nat ->
  let sec' := Units.selectOption j sec in
  Units.clickOption i j sections !! i = Some sec'
  /\ Dropdown.optionsWith "selected" sec' = [j]
  /\ Units.sec_title sec' = Units.sec_title sec
  /\ (forall k o, Units.sec_options sec !! k = Some o ->
        exists o', Units.sec_options sec' !! k = Some o'
                   /\ o' ∖ {["selected"%string]} = o ∖ {["selected"%string]})
  /\ (forall k, k <> i -> Units.clickOption i j sections !! k = sections !! k).
Proof.
  intros Hi Hj sec'. unfold Units.clickOption.
  split. { rewrite list_lookup_imap, Hi. simpl. by rewrite Nat.eqb_refl. }
  split; [by apply selectOption_selected|]. split; [done|]. split.
  - intros k o Ek. unfold sec'. rewrite selectOption_lookup, Ek. simpl.
    eexists. split; [done|]. destruct (Nat.eqb k j); apply set_eq; intros x;
      rewrite ?elem_of_difference, ?elem_of_union, ?elem_of_difference,
        ?elem_of_singleton; tauto.
  - intros k Hk. rewrite list_lookup_imap.
    destruct (sections !! k); simpl; [|done].
    destruct (Nat.eqb_spec k i); [done | done].
Qed.

Lemma click_selects_one_witness :
  Dropdown.optionsWith "selected"
    (Units.selectOption 1 (Units.sectionFor "Wind Speed" false)) = [1%nat].
Proof.
  apply (click_selects_one (Units.sectionsOf Units.initialUnits) 1 1
           (Units.sectionFor "Wind Speed" false)); [reflexivity | simpl; lia].
Defined.

(** X12: on the three-category dropdown, a click on an option changes that
    category alone, and what [savePreferences] then stores resolves, through
    [getUnitParams], to the choice now shown. *)
Theorem click_then_resolve (u : Units.Units) (i j : nat) :
  (i < 3)%nat -> (j < 2)%nat ->
  Units.clickOption i j (Units.sectionsOf u) = Units.sectionsOf (Dropdown.setAxis i j u)
  /\ Units.resolved
       (Some (Units.collectPreferences (Units.clickOption i j (Units.sectionsOf u))))
     = Dropdown.setAxis i j u.
Proof.
  intros Hi Hj.
  assert (E : Units.clickOption i j (Units.sectionsOf u)
              = Units.sectionsOf (Dropdown.setAxis i j u)).
  { unfold Units.clickOption, Units.sectionsOf.
    destruct i as [|[|[|i]]]; [| | |lia];
      cbn -[Units.selectOption Units.sectionFor];
      rewrite selectOption_sectionFor by done;
      destruct j as [|[|j]]; [| |lia| | |lia| | |lia]; reflexivity. }
  split; [exact E|]. rewrite E. apply sectionsOf_round_trip.
Qed.

Lemma click_then_resolve_witness :
  Units.resolved
    (Some (Units.collectPreferences
             (Units.clickOption 2 1 (Units.sectionsOf Units.initialUnits))))
  = Dropdown.setAxis 2 1 Units.initialUnits.
Proof.
  apply (click_then_resolve Units.initialUnits 2 1); lia.
Defined.

(* ===================================================================== *)
(** ** Every reachable state *)
(* ===================================================================== *)

Section ReachFacts.
Import Units Windower Sequencer Dropdown Handlers.

Ltac frame := repeat split; reflexivity.

Lemma fetch_issued c l s :
  issued s (fetchTodayWeather c l s)
  /\ unitPreferences (fetchTodayWeather c l s) = unitPreferences s.
Proof.
  unfold issued, fetchTodayWeather. split; [|by destruct l as [[]|]].
  exists (default (lastCity s) c). by destruct l as [[]|].
Qed.

Lemma quiet_refl s : quiet s s.
Proof. frame. Qed.

Lemma quiet_trans s1 s2 s3 : quiet s1 s2 -> quiet s2 s3 -> quiet s1 s3.
Proof.
  intros [A Au] [B Bu]. split; [by eapply agree_trans | congruence].
Qed.

Lemma classList_add_quiet el c s : quiet s (classList_add el c s).
Proof. frame. Qed.
Lemma classList_remove_quiet el c s : quiet s (classList_remove el c s).
Proof. frame. Qed.
Lemma set_searchBtn_disabled_quiet b s : quiet s (set_searchBtn_disabled b s).
Proof. frame. Qed.
Lemma set_sections_quiet v s : quiet s (set_sections v s).
Proof. frame. Qed.
Lemma set_switchBtn_quiet v s : quiet s (set_switchBtn v s).
Proof. frame. Qed.
Lemma set_unitPreferences_quiet v s : quiet s (set_unitPreferences v s).
Proof. frame. Qed.

Ltac quiet_chain :=
  lazymatch goal with
  | |- quiet _ (classList_add _ _ _) =>
    eapply quiet_trans; [|apply classList_add_quiet]; quiet_chain
  | |- quiet _ (classList_remove _ _ _) =>
    eapply quiet_trans; [|apply classList_remove_quiet]; quiet_chain
  | |- quiet _ (set_searchBtn_disabled _ _) =>
    eapply quiet_trans; [|apply set_searchBtn_disabled_quiet]; quiet_chain
  | |- quiet _ (set_sections _ _) =>
    eapply quiet_trans; [|apply set_sections_quiet]; quiet_chain
  | |- quiet _ (set_switchBtn _ _) =>
    eapply quiet_trans; [|apply set_switchBtn_quiet]; quiet_chain
  | |- quiet _ (set_unitPreferences _ _) =>
    eapply quiet_trans; [|apply set_unitPreferences_quiet]; quiet_chain
  | |- _ => apply quiet_refl
  end.

Lemma hideSearchLoading_quiet s : quiet s (hideSearchLoading s).
Proof. unfold hideSearchLoading, andThen. quiet_chain. Qed.

Lemma showSearchLoading_quiet s : quiet s (showSearchLoading s).
Proof. unfold showSearchLoading, andThen. quiet_chain. Qed.

Lemma showLoading_quiet s : quiet s (showLoading s).
Proof. unfold showLoading, andThen. quiet_chain. Qed.

Lemma hideAllData_quiet s : quiet s (hideAllData s).
Proof. unfold hideAllData, andThen, DATA_SECTIONS. cbn [fold_left]. quiet_chain. Qed.

Lemma showAllData_quiet s : quiet s (showAllData s).
Proof. unfold showAllData, andThen, DATA_SECTIONS. cbn [fold_left]. quiet_chain. Qed.

Lemma showError_quiet s : quiet s (showError s).
Proof.
  unfold showError, andThen.
  eapply quiet_trans; [apply hideAllData_quiet|]. quiet_chain.
Qed.

Lemma showSuccess_quiet s : quiet s (showSuccess s).
Proof.
  unfold showSuccess, andThen.
  eapply quiet_trans; [|apply showAllData_quiet]. quiet_chain.
Qed.

Lemma issued_wrap s x y s' :
  quiet s x -> issued x y -> quiet y s' -> issued s s'.
Proof.
  intros [(A1 & A2 & A3 & A4 & A5) Au] (c & I1 & I2 & I3 & I4 & I5 & I6)
         [(B1 & B2 & B3 & B4 & B5) Bu].
  exists c. rewrite B2, B4, B5, B3, Bu, B1, I1, I2, I3, I4, I5, I6, A2, A3, A4, A5, Au.
  done.
Qed.

Ltac wrap_fetch :=
  match goal with
  | |- issued ?s ?s' =>
    match s' with
    | context [fetchTodayWeather ?c ?l ?x] =>
      apply (issued_wrap s x (fetchTodayWeather c l x) s');
      [ | apply fetch_issued | ]
    end
  end.

(** Every event but a settlement either issues one request or leaves all
    but the DOM alone. *)
Lemma step_other pg s e :
  (forall rid r, e <> Settle rid r) ->
  issued s (step pg s e) \/ idle s (step pg s e).
Proof.
  intros Hns. destruct e as [c l|value| |i j|rid r]; cbn [step].
  - left. apply fetch_issued.
  - destruct (searchBtn_disabled s); [right; frame|].
    destruct (String.eqb value ""); [right; frame|]. left. unfold andThen.
    wrap_fetch; [|apply quiet_refl].
    eapply quiet_trans; [apply showSearchLoading_quiet | apply showLoading_quiet].
  - left. unfold andThen. wrap_fetch; [quiet_chain | apply quiet_refl].
  - destruct (sections s !! i) as [sec|]; [|right; frame].
    case_bool_decide; [|right; frame]. left.
    unfold andThen, savePreferences, updateSwitchButton, andThen.
    wrap_fetch; [|apply hideSearchLoading_quiet].
    eapply quiet_trans; [|apply set_unitPreferences_quiet].
    eapply quiet_trans; [|apply hideSearchLoading_quiet].
    quiet_chain.
  - by destruct (Hns rid r).
Qed.

Lemma switchClick_other s :
  issued s (switchClick s) \/ idle s (switchClick s).
Proof.
  unfold switchClick.
  destruct (retargetAll _ (sections s)) as [secs [|]]; [|right; frame].
  left. unfold andThen, savePreferences, updateSwitchButton, andThen.
  wrap_fetch; [|apply hideSearchLoading_quiet].
  eapply quiet_trans; [|apply set_unitPreferences_quiet].
  eapply quiet_trans; [|apply hideSearchLoading_quiet].
  quiet_chain.
Qed.

Lemma menuClick_idle pg date s : idle s (fst (menuClick pg date s)).
Proof.
  unfold menuClick. destruct (lastWeatherData s) as [data|]; [|frame].
  destruct (hourly data); frame.
Qed.

Lemma initialise_issued s :
  issued s (initialise s)
  /\ lastCity (initialise s) = "Amman"%string.
Proof.
  unfold initialise, andThen, updateSwitchButton, andThen. split.
  - wrap_fetch; [|apply quiet_refl].
    eapply quiet_trans; [|apply hideSearchLoading_quiet]. quiet_chain.
  - match goal with |- lastCity (fetchTodayWeather ?c ?l ?x) = _ =>
      destruct (fetchTodayWeather_effect c l x) as (E & _) end.
    exact E.
Qed.

(** What the render step leaves alone, and what it records. *)
Lemma render_frame pg rid loc data s :
  let s' := fst (render pg rid loc data s) in
  lastCity s' = lastCity s
  /\ lastWeatherData s' = lastWeatherData s
  /\ latestRequestId s' = latestRequestId s
  /\ tasks s' = tasks s
  /\ currentUnits s' = currentUnits s
  /\ unitPreferences s' = unitPreferences s
  /\ exists add, trace s' = add ++ trace s
                 /\ Forall (fun o => exists c, o = Render rid c) add.
Proof.
  unfold render, setHourlyToToday.
  repeat case_match; simplify_eq; cbv zeta;
    (split; [reflexivity|]); (split; [reflexivity|]); (split; [reflexivity|]);
    (split; [reflexivity|]); (split; [reflexivity|]); (split; [reflexivity|]).
  all: first [ by exists []
             | eexists [_]; split; [reflexivity|]; repeat constructor; by eexists
             | eexists [_; _]; split; [reflexivity|]; repeat constructor; by eexists
             | eexists [_; _; _]; split; [reflexivity|]; repeat constructor; by eexists
             | eexists [_; _; _; _]; split; [reflexivity|]; repeat constructor; by eexists
             | eexists [_; _; _; _; _]; split; [reflexivity|]; repeat constructor; by eexists ].
Qed.

(** The outcomes of a settlement. *)
Lemma resume_shape pg rid t r s : Resumed pg rid t s (resume pg rid t r s).
Proof.
  unfold resume.
  destruct (isStale rid s) eqn:Hs.
  - assert (Hne : rid <> latestRequestId s).
    { unfold isStale in Hs. by apply negb_true_iff, Z.eqb_neq in Hs. }
    destruct (pc t) as [| | |loc|loc|loc data|e] eqn:Hpc;
      destruct r as [|[] st| | |results|data'|];
      try apply R_undelivered;
      try (apply R_suspend; unfold plainPc; eauto; fail);
      try (unfold catch; apply R_suspend; unfold plainPc; eauto; fail).
    + unfold afterGeocode. rewrite Hs. by apply R_return.
    + by apply R_noResult.
    + by apply R_response.
    + unfold afterForecast, catch, andThen.
      destruct (current_weather data') as [c|] eqn:Ec;
        [destruct (hourly data') as [h|] eqn:Eh|].
      * apply (R_payload pg rid t s loc data'); [done|by rewrite Ec|by rewrite Eh].
      * apply (R_badPayload pg rid t s loc data'); [done|by right].
      * apply (R_badPayload pg rid t s loc data'); [done|by left].
    + unfold afterRenderDelay. rewrite Hs. by apply R_return.
    + unfold afterErrorDelay. rewrite Hs. by apply R_return.
  - assert (Heq : rid = latestRequestId s).
    { unfold isStale in Hs. by apply negb_false_iff, Z.eqb_eq in Hs. }
    destruct (pc t) as [| | |loc|loc|loc data|e] eqn:Hpc;
      destruct r as [|[] st| | |results|data'|];
      try apply R_undelivered;
      try (apply R_suspend; unfold plainPc; eauto; fail);
      try (unfold catch; apply R_suspend; unfold plainPc; eauto; fail).
    + unfold afterGeocode. rewrite Hs.
      destruct (coordinatesOf results) as [loc|].
      * rewrite (surjective_pairing (getUnitParams (unitPreferences s) (currentUnits s))).
        unfold andThen. by apply R_forecast.
      * apply R_suspend. unfold plainPc. eauto.
    + by apply R_noResult.
    + by apply R_response.
    + unfold afterForecast, catch, andThen.
      destruct (current_weather data') as [c|] eqn:Ec;
        [destruct (hourly data') as [h|] eqn:Eh|].
      * apply (R_payload pg rid t s loc data'); [done|by rewrite Ec|by rewrite Eh].
      * apply (R_badPayload pg rid t s loc data'); [done|by right].
      * apply (R_badPayload pg rid t s loc data'); [done|by left].
    + unfold afterRenderDelay. rewrite Hs.
      destruct (render pg rid loc data s) as [s' [e|]] eqn:Er.
      * unfold catch.
        replace s' with (fst (render pg rid loc data s)) by (by rewrite Er).
        apply (R_renderFailed pg rid t s loc data e); [done|done|by rewrite Er].
      * replace s' with (fst (render pg rid loc data s)) by (by rewrite Er).
        apply (R_rendered pg rid t s loc data); [done|done|by rewrite Er].
    + unfold afterErrorDelay, andThen. rewrite Hs. by apply R_errorPanel.
Qed.

(** *** States that agree on everything but the DOM and the trace *)

Lemma sameData_refl s : sameData s s.
Proof. frame. Qed.

Lemma sameData_trans s1 s2 s3 : sameData s1 s2 -> sameData s2 s3 -> sameData s1 s3.
Proof.
  intros (A1 & A2 & A3 & A4 & A5 & A6) (B1 & B2 & B3 & B4 & B5 & B6).
  repeat split; congruence.
Qed.

Lemma log_sameData o s : sameData s (log o s).
Proof. frame. Qed.

Lemma classList_add_sameData el c s : sameData s (classList_add el c s).
Proof. frame. Qed.

Lemma classList_remove_sameData el c s : sameData s (classList_remove el c s).
Proof. frame. Qed.

Lemma set_searchBtn_disabled_sameData b s : sameData s (set_searchBtn_disabled b s).
Proof. frame. Qed.

Ltac same_chain :=
  lazymatch goal with
  | |- sameData _ (classList_add _ _ _) =>
    eapply sameData_trans; [|apply classList_add_sameData]; same_chain
  | |- sameData _ (classList_remove _ _ _) =>
    eapply sameData_trans; [|apply classList_remove_sameData]; same_chain
  | |- sameData _ (set_searchBtn_disabled _ _) =>
    eapply sameData_trans; [|apply set_searchBtn_disabled_sameData]; same_chain
  | |- sameData _ (log _ _) =>
    eapply sameData_trans; [|apply log_sameData]; same_chain
  | |- _ => apply sameData_refl
  end.

Lemma hideSearchLoading_sameData s : sameData s (hideSearchLoading s).
Proof. unfold hideSearchLoading, andThen. same_chain. Qed.

Lemma hideAllData_sameData s : sameData s (hideAllData s).
Proof. unfold hideAllData, andThen, DATA_SECTIONS. cbn [fold_left]. same_chain. Qed.

Lemma showAllData_sameData s : sameData s (showAllData s).
Proof. unfold showAllData, andThen, DATA_SECTIONS. cbn [fold_left]. same_chain. Qed.

Lemma showError_sameData s : sameData s (showError s).
Proof.
  unfold showError, andThen.
  eapply sameData_trans; [apply hideAllData_sameData|]. same_chain.
Qed.

Lemma showSuccess_sameData s : sameData s (showSuccess s).
Proof.
  unfold showSuccess, andThen.
  eapply sameData_trans; [|apply showAllData_sameData]. same_chain.
Qed.

Lemma render_sameData pg rid loc data s :
  sameData s (fst (render pg rid loc data s)).
Proof.
  destruct (render_frame pg rid loc data s) as (H1 & H2 & H3 & H4 & H5 & H6 & _).
  repeat split; assumption.
Qed.

Lemma errorPanel_sameData rid e s :
  sameData s (showError (log (ConsoleError rid e) (hideSearchLoading s))).
Proof.
  eapply sameData_trans; [|apply showError_sameData].
  eapply sameData_trans; [|apply log_sameData].
  apply hideSearchLoading_sameData.
Qed.

Lemma quiet_sameData s s' :
  quiet s s' -> unitPreferences s' = unitPreferences s -> sameData s s'.
Proof. intros [(A1 & A2 & A3 & A4 & A5) Au] Hp. repeat split; assumption. Qed.

(** *** The snapshot stays well-formed *)

Lemma SV_sub s s' :
  lastWeatherData s' = lastWeatherData s ->
  (forall k t, tasks s' !! k = Some t ->
     tasks s !! k = Some t \/ forall loc data, pc t <> AwaitRenderDelay loc data) ->
  snapshotValid s -> snapshotValid s'.
Proof.
  intros E Hsub [H1 H2]. split.
  - intros d Hd. rewrite E in Hd. by apply H1.
  - intros rid t loc data Ht Hpc. rewrite E.
    destruct (Hsub rid t Ht) as [Hs|Hno]; [by apply (H2 rid t loc data) | by destruct (Hno loc data)].
Qed.

Lemma SV_sameData s s' : sameData s s' -> snapshotValid s -> snapshotValid s'.
Proof.
  intros (_ & _ & E3 & E4 & _). apply SV_sub; [done|].
  intros k t Hk. left. by rewrite <- E4.
Qed.

Lemma SV_suspend rid t p s :
  (forall loc data, p <> AwaitRenderDelay loc data) ->
  snapshotValid s -> snapshotValid (suspend rid t p s).
Proof.
  intros Hp. apply SV_sub; [done|]. intros k t' Hk.
  unfold suspend in Hk. cbn [tasks set_tasks] in Hk.
  destruct (decide (rid = k)) as [->|Hne].
  - rewrite lookup_insert_eq in Hk. injection Hk as <-. by right.
  - rewrite lookup_insert_ne in Hk by done. by left.
Qed.

Lemma SV_finish rid s : snapshotValid s -> snapshotValid (finish rid s).
Proof.
  apply SV_sub; [done|]. intros k t' Hk.
  unfold finish in Hk. cbn [tasks set_tasks] in Hk.
  apply lookup_delete_Some in Hk as [_ Hk]. by left.
Qed.

Lemma plainPc_not_render p loc data : plainPc p -> p <> AwaitRenderDelay loc data.
Proof. intros [->|[->|[e ->]]]; discriminate. Qed.

Lemma SV_payload rid t loc data s :
  is_Some (current_weather data) -> is_Some (hourly data) ->
  snapshotValid s ->
  snapshotValid (suspend rid t (AwaitRenderDelay loc data)
                   (set_lastWeatherData (Some data) (log (ForecastPayload rid data) s))).
Proof.
  intros Hc Hh [H1 H2]. split.
  - intros d Hd. cbn in Hd. injection Hd as <-. done.
  - intros k t' loc' data' Hk Hpc.
    unfold suspend in Hk. cbn [tasks set_tasks] in Hk.
    split; [by eexists|].
    destruct (decide (rid = k)) as [->|Hne].
    + rewrite lookup_insert_eq in Hk. injection Hk as <-.
      cbn in Hpc. injection Hpc as <- <-. done.
    + rewrite lookup_insert_ne in Hk by done.
      by destruct (H2 k t' loc' data' Hk Hpc) as (_ & ? & ?).
Qed.

Lemma SV_resumed pg rid t s s' :
  Resumed pg rid t s s' -> snapshotValid s -> snapshotValid s'.
Proof.
  intros HR HS. destruct HR.
  - done.
  - apply SV_suspend; [|done]. intros loc data. by apply plainPc_not_render.
  - by apply SV_suspend.
  - by apply SV_finish.
  - apply SV_suspend; [done|]. revert HS. apply SV_sub; [done|].
    intros k t' Hk. by left.
  - unfold showNoResult, andThen. apply SV_finish.
    eapply SV_sameData; [|exact HS].
    eapply sameData_trans; [apply hideSearchLoading_sameData|].
    eapply sameData_trans; [apply hideAllData_sameData|]. same_chain.
  - by apply SV_payload.
  - apply SV_suspend; [done|]. eapply SV_sameData; [apply log_sameData | done].
  - apply SV_finish. eapply SV_sameData; [apply render_sameData | done].
  - apply SV_suspend; [done|]. eapply SV_sameData; [apply render_sameData | done].
  - apply SV_finish. eapply SV_sameData; [apply errorPanel_sameData | done].
Qed.

Lemma SV_issued s s' : issued s s' -> snapshotValid s -> snapshotValid s'.
Proof.
  intros (c & _ & E2 & _ & E4 & _). apply SV_sub; [done|].
  intros k t Hk. rewrite E2 in Hk.
  destruct (decide (latestRequestId s + 1 = k)) as [<-|Hne].
  - rewrite lookup_insert_eq in Hk. injection Hk as <-. by right.
  - rewrite lookup_insert_ne in Hk by done. by left.
Qed.

Lemma SV_idle s s' : idle s s' -> snapshotValid s -> snapshotValid s'.
Proof.
  intros [(_ & _ & E3 & E4 & _) _]. apply SV_sub; [done|].
  intros k t Hk. left. by rewrite <- E4.
Qed.

(** One event of the page, as a settlement or one of the two other
    kinds. *)
Lemma uiStep_cases pg s e :
  (exists rid r t, tasks s !! rid = Some t /\ uiStep pg s e = resume pg rid t r s)
  \/ issued s (uiStep pg s e) \/ idle s (uiStep pg s e).
Proof.
  destruct e as [e| |date].
  - destruct e as [c l|value| |i j|rid r].
    5:{ cbn [uiStep step]. destruct (tasks s !! rid) as [t|] eqn:Ht.
        - left. by exists rid, r, t.
        - right. right. frame. }
    all: right; apply step_other; discriminate.
  - right. apply switchClick_other.
  - right. right. apply menuClick_idle.
Qed.

Lemma SV_reachable pg s : reachable pg s -> snapshotValid s.
Proof.
  intros (stored & markup & dropdown & evs & ->).
  assert (H0 : snapshotValid (initialise (loaded stored markup dropdown))).
  { eapply SV_issued; [apply initialise_issued|]. split; [done|].
    intros rid t loc data Ht. cbn in Ht. by rewrite lookup_empty in Ht. }
  revert H0. generalize (initialise (loaded stored markup dropdown)).
  induction evs as [|e evs IH]; intros s H; [done|].
  cbn [uiRun fold_left]. apply IH.
  destruct (uiStep_cases pg s e) as [(rid & r & t & Ht & ->)|[Hi|Hi]].
  - eapply SV_resumed; [apply resume_shape | done].
  - by eapply SV_issued.
  - by eapply SV_idle.
Qed.

(** *** What a settlement can touch *)

Lemma idle_of s x : quiet s x -> sameData s x -> idle s x.
Proof. intros [A Au] (_ & _ & _ & _ & _ & Ep). split; [exact A | by split]. Qed.

Lemma hideSearchLoading_idle s : idle s (hideSearchLoading s).
Proof. apply idle_of; [apply hideSearchLoading_quiet | apply hideSearchLoading_sameData]. Qed.

Lemma showError_idle s : idle s (showError s).
Proof. apply idle_of; [apply showError_quiet | apply showError_sameData]. Qed.

Lemma noResultPanel_idle s :
  idle s (classList_remove noResult "display-none"
            (classList_add errorFetchCon "display-none"
               (classList_add mainContent "display-none"
                  (hideAllData (hideSearchLoading s))))).
Proof.
  apply idle_of.
  - eapply quiet_trans; [apply hideSearchLoading_quiet|].
    eapply quiet_trans; [apply hideAllData_quiet|]. quiet_chain.
  - eapply sameData_trans; [apply hideSearchLoading_sameData|].
    eapply sameData_trans; [apply hideAllData_sameData|]. same_chain.
Qed.

Lemma actOf_refl rid s : actOf rid s s.
Proof. repeat split; try done. by exists []. Qed.

Lemma actOf_trans rid s1 s2 s3 : actOf rid s1 s2 -> actOf rid s2 s3 -> actOf rid s1 s3.
Proof.
  intros (A1 & A2 & A3 & A4 & a & Ea & Fa) (B1 & B2 & B3 & B4 & b & Eb & Fb).
  repeat split; try congruence.
  - intros k Hk. rewrite B4, A4; done.
  - exists (b ++ a). split; [|by apply Forall_app].
    rewrite Eb, Ea. by rewrite <- app_assoc.
Qed.

Lemma actOf_idle rid s x : idle s x -> actOf rid s x.
Proof.
  intros [(A1 & A2 & A3 & A4 & A5) [Au Ap]]. repeat split; try done.
  - intros k _. by rewrite A4.
  - by exists [].
Qed.

Lemma actOf_log rid o s : effectOf rid o -> actOf rid s (log o s).
Proof.
  intros Ho. repeat split; try done. exists [o]. split; [done|].
  by apply Forall_singleton.
Qed.

Lemma actOf_suspend rid t p s : actOf rid s (suspend rid t p s).
Proof.
  repeat split; try done.
  - intros k Hk. unfold suspend. cbn [tasks set_tasks].
    by rewrite lookup_insert_ne.
  - by exists [].
Qed.

Lemma actOf_finish rid s : actOf rid s (finish rid s).
Proof.
  repeat split; try done.
  - intros k Hk. unfold finish. cbn [tasks set_tasks].
    by rewrite lookup_delete_ne.
  - by exists [].
Qed.

Lemma actOf_render pg rid loc data s : actOf rid s (fst (render pg rid loc data s)).
Proof.
  destruct (render_frame pg rid loc data s)
    as (H1 & H2 & H3 & H4 & H5 & H6 & add & Hadd & Hall).
  repeat split; try done.
  - intros k _. by rewrite H4.
  - exists add. split; [done|]. eapply Forall_impl; [exact Hall|].
    intros o [c ->]. done.
Qed.

Lemma errorPanel_actOf rid e s :
  actOf rid s (showError (log (ConsoleError rid e) (hideSearchLoading s))).
Proof.
  eapply actOf_trans; [|apply actOf_idle, showError_idle].
  eapply actOf_trans; [|by apply actOf_log].
  apply actOf_idle, hideSearchLoading_idle.
Qed.

Lemma Resumed_actOf pg rid t s s' : Resumed pg rid t s s' -> actOf rid s s'.
Proof.
  intros HR. destruct HR.
  - apply actOf_refl.
  - apply actOf_suspend.
  - apply actOf_suspend.
  - apply actOf_finish.
  - eapply actOf_trans; [|apply actOf_suspend].
    eapply actOf_trans; [|by apply actOf_log].
    repeat split; try done. by exists [].
  - unfold showNoResult, andThen.
    eapply actOf_trans; [|apply actOf_finish].
    apply actOf_idle, noResultPanel_idle.
  - eapply actOf_trans; [|apply actOf_suspend].
    eapply actOf_trans; [by apply (actOf_log rid (ForecastPayload rid data))|].
    repeat split; try done. by exists [].
  - eapply actOf_trans; [|apply actOf_suspend]. by apply actOf_log.
  - eapply actOf_trans; [|apply actOf_finish]. apply actOf_render.
  - eapply actOf_trans; [|apply actOf_suspend]. apply actOf_render.
  - eapply actOf_trans; [|apply actOf_finish]. apply errorPanel_actOf.
Qed.

(** *** The snapshot is a payload that has arrived *)

Lemma received_keep s s' :
  lastWeatherData s' = lastWeatherData s ->
  (exists add, trace s' = add ++ trace s) ->
  snapshotReceived s -> snapshotReceived s'.
Proof.
  intros E (add & Et) H d Hd. rewrite E in Hd.
  destruct (H d Hd) as (rid & Hin). exists rid.
  rewrite Et, elem_of_app. by right.
Qed.

Lemma snapshot_finish rid s : lastWeatherData (finish rid s) = lastWeatherData s.
Proof. reflexivity. Qed.

Lemma snapshot_suspend rid t p s :
  lastWeatherData (suspend rid t p s) = lastWeatherData s.
Proof. reflexivity. Qed.

Lemma Resumed_snapshot pg rid t s s' :
  Resumed pg rid t s s' ->
  lastWeatherData s' = lastWeatherData s
  \/ exists data, lastWeatherData s' = Some data
                  /\ ForecastPayload rid data ∈ trace s'.
Proof.
  intros HR. destruct HR.
  - left. reflexivity.
  - left. apply snapshot_suspend.
  - left. apply snapshot_suspend.
  - left. apply snapshot_finish.
  - left. rewrite snapshot_suspend. reflexivity.
  - left. unfold showNoResult, andThen. rewrite snapshot_finish.
    match goal with
    | |- lastWeatherData ?x = _ => assert (S : sameData s x)
    end.
    { eapply sameData_trans; [apply hideSearchLoading_sameData|].
      eapply sameData_trans; [apply hideAllData_sameData|]. same_chain. }
    destruct S as (_ & _ & E & _). exact E.
  - right. exists data. split; [reflexivity|]. left.
  - left. rewrite snapshot_suspend. reflexivity.
  - left. rewrite snapshot_finish.
    destruct (render_sameData pg rid loc data s) as (_ & _ & E & _). exact E.
  - left. rewrite snapshot_suspend.
    destruct (render_sameData pg rid loc data s) as (_ & _ & E & _). exact E.
  - left. rewrite snapshot_finish.
    destruct (errorPanel_sameData rid e s) as (_ & _ & E & _). exact E.
Qed.

Lemma received_reachable pg s : reachable pg s -> snapshotReceived s.
Proof.
  intros (stored & markup & dropdown & evs & ->).
  assert (H0 : snapshotReceived (initialise (loaded stored markup dropdown))).
  { destruct (initialise_issued (loaded stored markup dropdown))
      as [(c & _ & _ & _ & E & _) _].
    intros d Hd. rewrite E in Hd. discriminate Hd. }
  revert H0. generalize (initialise (loaded stored markup dropdown)).
  induction evs as [|e evs IH]; intros s H; [done|].
  cbn [uiRun fold_left]. apply IH.
  destruct (uiStep_cases pg s e) as [(rid & r & t & Ht & ->)|[Hi|Hi]].
  - pose proof (resume_shape pg rid t r s) as HR.
    destruct (Resumed_actOf pg rid t s _ HR) as (_ & _ & _ & _ & add & Et & _).
    destruct (Resumed_snapshot pg rid t s _ HR) as [E|(data & E & Hin)].
    + apply (received_keep s); [done | by exists add | done].
    + intros d Hd. rewrite E in Hd. injection Hd as <-. by exists rid.
  - destruct Hi as (c & _ & _ & Et & E & _).
    apply (received_keep s); [done | | done].
    exists [GeocodeRequest (latestRequestId s + 1) c]. by rewrite Et.
  - destruct Hi as [(_ & _ & E & _ & Et) _].
    apply (received_keep s); [done | | done]. exists []. by rewrite Et.
Qed.

(** *** Request ids *)

Lemma geocodeIds_effects rid add : Forall (effectOf rid) add -> geocodeIds add = [].
Proof.
  induction 1 as [|o add Ho _ IH]; [done|].
  destruct o; cbn in *; done.
Qed.

Lemma countdown_succ n :
  0 <= n -> countdown (Z.to_nat (n + 1)) = (n + 1) :: countdown (Z.to_nat n).
Proof.
  intros Hn. replace (Z.to_nat (n + 1)) with (S (Z.to_nat n)) by lia.
  cbn [countdown]. f_equal. lia.
Qed.

Lemma countdown_range n k : k ∈ countdown n <-> 1 <= k <= Z.of_nat n.
Proof.
  induction n as [|n IH]; cbn [countdown].
  - rewrite elem_of_nil. lia.
  - rewrite elem_of_cons, IH. lia.
Qed.

Lemma countdown_NoDup n : NoDup (countdown n).
Proof.
  induction n as [|n IH]; cbn [countdown]; [constructor|].
  constructor; [|done]. rewrite countdown_range. lia.
Qed.

Lemma idsOk_issued s s' : issued s s' -> idsOk s -> idsOk s'.
Proof.
  intros (c & E1 & E2 & E3 & _) (H0 & Hg & Hk). repeat split.
  - lia.
  - rewrite E3, E1.
    change (latestRequestId s + 1 :: geocodeIds (trace s)
            = countdown (Z.to_nat (latestRequestId s + 1))).
    rewrite Hg. by rewrite countdown_succ.
  - rewrite E2 in H. destruct (decide (latestRequestId s + 1 = k)) as [<-|Hne]; [lia|].
    rewrite lookup_insert_ne in H by done. apply Hk in H. lia.
  - rewrite E2 in H. rewrite E1.
    destruct (decide (latestRequestId s + 1 = k)) as [<-|Hne]; [lia|].
    rewrite lookup_insert_ne in H by done. apply Hk in H. lia.
Qed.

Lemma idsOk_idle s s' : idle s s' -> idsOk s -> idsOk s'.
Proof.
  intros [(_ & E2 & _ & E4 & E5) _] (H0 & Hg & Hk).
  unfold idsOk. rewrite E2, E4, E5. done.
Qed.

Lemma idsOk_actOf rid s s' :
  is_Some (tasks s !! rid) -> actOf rid s s' -> idsOk s -> idsOk s'.
Proof.
  intros [t Ht] (_ & E2 & _ & E4 & add & Eadd & Hadd) (H0 & Hg & Hk).
  unfold idsOk. rewrite E2. split; [done|]. split.
  - rewrite Eadd. unfold geocodeIds. rewrite omap_app.
    fold (geocodeIds add). rewrite (geocodeIds_effects rid) by done. exact Hg.
  - intros k t' Hk'. destruct (decide (k = rid)) as [->|Hne]; [by eapply Hk|].
    rewrite E4 in Hk' by done. by eapply Hk.
Qed.

Lemma idsOk_reachable pg s : reachable pg s -> idsOk s.
Proof.
  intros (stored & markup & dropdown & evs & ->).
  assert (H0 : idsOk (initialise (loaded stored markup dropdown))).
  { eapply idsOk_issued; [apply initialise_issued|]. repeat split; try done.
    all: cbn in H; by rewrite lookup_empty in H. }
  revert H0. generalize (initialise (loaded stored markup dropdown)).
  induction evs as [|e evs IH]; intros s H; [done|].
  cbn [uiRun fold_left]. apply IH.
  destruct (uiStep_cases pg s e) as [(rid & r & t & Ht & ->)|[Hi|Hi]].
  - eapply idsOk_actOf; [by eexists | eapply Resumed_actOf, resume_shape | done].
  - by eapply idsOk_issued.
  - by eapply idsOk_idle.
Qed.

(** *** Units *)

Lemma getUnitParams_sysOf stored cu :
  fst (getUnitParams stored cu) = sysOf (snd (getUnitParams stored cu)).
Proof. reflexivity. Qed.

Lemma unitsOk_frame s s' add :
  latestRequestId s' = latestRequestId s ->
  currentUnits s' = currentUnits s ->
  unitPreferences s' = unitPreferences s ->
  tasks s' = tasks s ->
  trace s' = add ++ trace s ->
  Forall (fun o => ~ isForecastRequest o) add ->
  unitsOk s -> unitsOk s'.
Proof.
  intros E1 E2 E3 E4 E5 Hadd [H1 H2]. split.
  - intros rid loc u Hin. rewrite E5 in Hin. apply elem_of_app in Hin as [Hin|Hin].
    + rewrite Forall_forall in Hadd. by destruct (Hadd _ Hin).
    + rewrite E1, E2, E3. exact (H1 rid loc u Hin).
  - intros rid t loc Ht Hp. rewrite E4 in Ht.
    destruct (H2 rid t loc Ht Hp) as [u Hu]. exists u. rewrite E5.
    apply elem_of_app. by right.
Qed.

Lemma unitsOk_idle s s' : idle s s' -> unitsOk s -> unitsOk s'.
Proof.
  intros [(_ & E2 & _ & E4 & E5) [Eu Ep]].
  by apply (unitsOk_frame s s' []).
Qed.

Lemma unitsOk_render pg rid loc data s :
  unitsOk s -> unitsOk (fst (render pg rid loc data s)).
Proof.
  destruct (render_frame pg rid loc data s)
    as (H1 & H2 & H3 & H4 & H5 & H6 & add & Hadd & Hall).
  apply (unitsOk_frame _ _ add); try done.
  eapply Forall_impl; [exact Hall|]. intros o [c ->] [].
Qed.

Lemma unitsOk_suspend rid t p s :
  (forall loc, awaitsForecast p loc -> exists u, ForecastRequest rid loc u ∈ trace s) ->
  unitsOk s -> unitsOk (suspend rid t p s).
Proof.
  intros Hp [H1 H2]. split; [exact H1|].
  intros k t' loc Hk Hpc. unfold suspend in Hk. cbn [tasks set_tasks] in Hk.
  change (trace (suspend rid t p s)) with (trace s).
  destruct (decide (rid = k)) as [->|Hne].
  - rewrite lookup_insert_eq in Hk. injection Hk as <-. by apply Hp.
  - rewrite lookup_insert_ne in Hk by done. by eapply H2.
Qed.

Lemma unitsOk_finish rid s : unitsOk s -> unitsOk (finish rid s).
Proof.
  intros [H1 H2]. split; [exact H1|].
  intros k t' loc Hk Hpc. unfold finish in Hk. cbn [tasks set_tasks] in Hk.
  apply lookup_delete_Some in Hk as [_ Hk]. by eapply H2.
Qed.

Lemma unitsOk_issued s s' : issued s s' -> unitsOk s -> unitsOk s'.
Proof.
  intros (c & E1 & E2 & E3 & _ & E5 & _) [H1 H2]. split.
  - intros rid loc u Hin. rewrite E3 in Hin.
    apply elem_of_cons in Hin as [Hin|Hin]; [discriminate|].
    destruct (H1 rid loc u Hin) as [Hle _]. rewrite E1. split; lia.
  - intros k t loc Hk Hpc. rewrite E2 in Hk.
    destruct (decide (latestRequestId s + 1 = k)) as [<-|Hne].
    + rewrite lookup_insert_eq in Hk. injection Hk as <-.
      destruct Hpc as [Hp|[Hp|[data Hp]]]; discriminate.
    + rewrite lookup_insert_ne in Hk by done.
      destruct (H2 k t loc Hk Hpc) as [u Hu]. exists u. rewrite E3.
      apply elem_of_cons. by right.
Qed.

Lemma unitsOk_forecast rid loc s :
  rid = latestRequestId s -> unitsOk s ->
  unitsOk (log (ForecastRequest rid loc
                  (fst (getUnitParams (unitPreferences s) (currentUnits s))))
             (set_currentUnits
                (snd (getUnitParams (unitPreferences s) (currentUnits s))) s)).
Proof.
  intros Hrid [H1 H2]. split.
  - intros k loc' u Hin.
    change (ForecastRequest k loc' u ∈
              ForecastRequest rid loc
                (fst (getUnitParams (unitPreferences s) (currentUnits s))) :: trace s) in Hin.
    change (k <= latestRequestId s
            /\ (k = latestRequestId s ->
                snd (getUnitParams (unitPreferences s) (currentUnits s))
                = resolved (unitPreferences s)
                /\ u = sysOf (snd (getUnitParams (unitPreferences s) (currentUnits s))))).
    rewrite getUnitParams_overwrites.
    apply elem_of_cons in Hin as [Hin|Hin].
    + injection Hin as -> _ ->. split; [lia|]. intros _. split; reflexivity.
    + destruct (H1 k loc' u Hin) as [Hle Heq]. split; [done|]. intros Hk.
      destruct (Heq Hk) as [Hcu ->]. split; [done|]. by rewrite Hcu.
  - intros k t loc' Hk Hpc.
    destruct (H2 k t loc' Hk Hpc) as [u Hu]. exists u.
    apply elem_of_cons. by right.
Qed.

Lemma plainPc_not_awaits p loc : plainPc p -> ~ awaitsForecast p loc.
Proof.
  intros [-> | [-> | [e ->]]] [Hp|[Hp|[data Hp]]]; discriminate.
Qed.

Lemma unitsOk_resumed pg rid t s s' :
  tasks s !! rid = Some t ->
  Resumed pg rid t s s' -> unitsOk s -> unitsOk s'.
Proof.
  intros Ht HR HU. destruct HR.
  - done.
  - apply unitsOk_suspend; [|done]. intros loc Hp. by destruct (plainPc_not_awaits p loc).
  - apply unitsOk_suspend; [|done]. intros loc' Hp.
    assert (loc' = loc) as ->.
    { destruct Hp as [Hp|[Hp|[data Hp]]]; by simplify_eq. }
    destruct HU as [_ H2]. apply (H2 rid t loc Ht). left. done.
  - by apply unitsOk_finish.
  - apply unitsOk_suspend; [|by apply unitsOk_forecast]. intros loc' Hp.
    assert (loc' = loc) as ->.
    { destruct Hp as [Hp|[Hp|[data Hp]]]; by simplify_eq. }
    eexists. apply elem_of_cons. by left.
  - unfold showNoResult, andThen. apply unitsOk_finish.
    eapply unitsOk_idle; [apply noResultPanel_idle | done].
  - apply unitsOk_suspend.
    + intros loc' Hp.
      assert (loc' = loc) as ->.
      { destruct Hp as [Hp|[Hp|[data' Hp]]]; by simplify_eq. }
      destruct HU as [_ H2]. destruct (H2 rid t loc Ht) as [u Hu]; [right; by left|].
      exists u. apply elem_of_cons. by right.
    + apply (unitsOk_frame s _ [ForecastPayload rid data]);
        [reflexivity..| |done].
      apply Forall_singleton. intros [].
  - apply unitsOk_suspend.
    + intros loc' Hp. destruct Hp as [Hp|[Hp|[data' Hp]]]; discriminate.
    + apply (unitsOk_frame s _ [ForecastPayload rid data]);
        [reflexivity..| |done].
      apply Forall_singleton. intros [].
  - by apply unitsOk_finish, unitsOk_render.
  - apply unitsOk_suspend; [|by apply unitsOk_render].
    intros loc' Hp. destruct Hp as [Hp|[Hp|[data' Hp]]]; discriminate.
  - apply unitsOk_finish.
    eapply unitsOk_idle; [apply showError_idle|].
    apply (unitsOk_frame (hideSearchLoading s) _ [ConsoleError rid e]);
      [reflexivity..| |].
    + apply Forall_singleton. intros [].
    + eapply unitsOk_idle; [apply hideSearchLoading_idle | done].
Qed.

Lemma unitsOk_reachable pg s : reachable pg s -> unitsOk s.
Proof.
  intros (stored & markup & dropdown & evs & ->).
  assert (H0 : unitsOk (initialise (loaded stored markup dropdown))).
  { eapply unitsOk_issued; [apply initialise_issued|]. split.
    - intros rid loc u Hin. cbn in Hin. by apply elem_of_nil in Hin.
    - intros rid t loc Ht. cbn in Ht. by rewrite lookup_empty in Ht. }
  revert H0. generalize (initialise (loaded stored markup dropdown)).
  induction evs as [|e evs IH]; intros s H; [done|].
  cbn [uiRun fold_left]. apply IH.
  destruct (uiStep_cases pg s e) as [(rid & r & t & Ht & ->)|[Hi|Hi]].
  - eapply unitsOk_resumed; [exact Ht | apply resume_shape | done].
  - by eapply unitsOk_issued.
  - by eapply unitsOk_idle.
Qed.

Lemma latest_reachable pg s : reachable pg s -> 1 <= latestRequestId s.
Proof.
  intros (stored & markup & dropdown & evs & ->).
  assert (H0 : 1 <= latestRequestId (initialise (loaded stored markup dropdown))).
  { destruct (initialise_issued (loaded stored markup dropdown)) as [(c & E1 & _) _].
    rewrite E1. cbn. lia. }
  revert H0. generalize (initialise (loaded stored markup dropdown)).
  induction evs as [|e evs IH]; intros s H; [done|].
  cbn [uiRun fold_left]. apply IH.
  destruct (uiStep_cases pg s e) as [(rid & r & t & Ht & ->)|[Hi|Hi]].
  - destruct (Resumed_actOf pg rid t s _ (resume_shape pg rid t r s)) as (_ & E & _).
    by rewrite E.
  - destruct Hi as (c & E1 & _). rewrite E1. lia.
  - destruct Hi as [(_ & E2 & _) _]. by rewrite E2.
Qed.

(** X13: in every state the page can reach, the stored snapshot, when
    there is one, is a payload that some request has received and that
    passed the check of lines 574-576 (its [current_weather] and its
    [hourly] section are present); and while an invocation waits in the
    delay before its render step a snapshot is stored and the payload
    the invocation holds passed that check too.  So the non-null
    assertion of [lastWeatherData!] in [setHourlyToToday] holds whenever
    the render step runs, and the handler of the day menu, behind its
    own test of line 716, reads [hourly] of a snapshot that has that
    section. *)
Theorem snapshot_passed_the_check pg s :
  reachable pg s ->
  (forall d, lastWeatherData s = Some d ->
             is_Some (current_weather d) /\ is_Some (hourly d)
             /\ exists rid, ForecastPayload rid d ∈ trace s)
  /\ (forall rid t loc data,
        tasks s !! rid = Some t -> pc t = AwaitRenderDelay loc data ->
        is_Some (lastWeatherData s)
        /\ is_Some (current_weather data) /\ is_Some (hourly data)).
Proof.
  intros Hr. destruct (SV_reachable pg s Hr) as [H1 H2].
  pose proof (received_reachable pg s Hr) as H3.
  split; [|exact H2].
  intros d Hd. destruct (H1 d Hd) as [Hc Hh].
  split; [exact Hc|]. split; [exact Hh|]. exact (H3 d Hd).
Qed.

Lemma snapshot_passed_the_check_witness :
  let s := uiRun Scenario.page (Fetch <$> Scenario.overtaken) Scenario.booted in
  lastWeatherData s = Some Scenario.parisData
  /\ is_Some (current_weather Scenario.parisData)
  /\ is_Some (hourly Scenario.parisData)
  /\ exists rid, ForecastPayload rid Scenario.parisData ∈ trace s.
Proof.
  intros s. split; [reflexivity|].
  apply (snapshot_passed_the_check Scenario.page s); [|reflexivity].
  exists None, ∅, (sectionsOf initialUnits), (Fetch <$> Scenario.overtaken).
  reflexivity.
Defined.

(** X14: the request ids.  In every reachable state the counter
    [latestRequestId] is the number of calls of [fetchTodayWeather] made
    so far; the ids these calls captured are 1, 2, ..., each captured
    once; every invocation in flight holds one of them, and the id the
    next call will capture is held by none. *)
Theorem request_ids_sequential pg s :
  reachable pg s ->
  1 <= latestRequestId s
  /\ geocodeIds (trace s) = countdown (Z.to_nat (latestRequestId s))
  /\ latestRequestId s = Z.of_nat (length (geocodeIds (trace s)))
  /\ NoDup (geocodeIds (trace s))
  /\ (forall k t, tasks s !! k = Some t -> 1 <= k <= latestRequestId s)
  /\ tasks s !! (latestRequestId s + 1) = None.
Proof.
  intros Hr. destruct (idsOk_reachable pg s Hr) as (H0 & Hg & Hk).
  split; [by eapply latest_reachable|]. split; [done|]. split.
  { rewrite Hg. clear Hg Hk Hr.
    assert (forall n, length (countdown n) = n) as ->.
    { induction n as [|n IH]; cbn [countdown length]; congruence. }
    lia. }
  split; [rewrite Hg; apply countdown_NoDup|]. split; [done|].
  destruct (tasks s !! (latestRequestId s + 1)) as [t|] eqn:Ht; [|done].
  apply Hk in Ht. lia.
Qed.

Lemma request_ids_sequential_witness :
  let s := uiRun Scenario.page (Fetch <$> Scenario.notFound) Scenario.booted in
  1 <= latestRequestId s
  /\ geocodeIds (trace s) = countdown (Z.to_nat (latestRequestId s))
  /\ latestRequestId s = Z.of_nat (length (geocodeIds (trace s)))
  /\ NoDup (geocodeIds (trace s))
  /\ (forall k t, tasks s !! k = Some t -> 1 <= k <= latestRequestId s)
  /\ tasks s !! (latestRequestId s + 1) = None.
Proof.
  apply (request_ids_sequential Scenario.page).
  exists None, ∅, (sectionsOf initialUnits), (Fetch <$> Scenario.notFound).
  reflexivity.
Defined.

(** X15: the units shown are the units asked for.  When the current
    request waits to render, [currentUnits] is what [getUnitParams]
    resolves from the stored preferences, and the forecast it renders
    was requested in exactly these units: the suffixes
    [updateInfoCards] prints after the wind speed and the precipitation
    fit the numbers of the payload. *)
Theorem render_units_match_request pg s rid t loc data :
  reachable pg s ->
  tasks s !! rid = Some t -> pc t = AwaitRenderDelay loc data ->
  rid = latestRequestId s ->
  currentUnits s = resolved (unitPreferences s)
  /\ (exists u, ForecastRequest rid loc u ∈ trace s)
  /\ (forall loc' u, ForecastRequest rid loc' u ∈ trace s ->
        u = sysOf (currentUnits s)
        /\ suffixesOf u = infoCardSuffixes (currentUnits s)).
Proof.
  intros Hr Ht Hpc Hrid. destruct (unitsOk_reachable pg s Hr) as [H1 H2].
  destruct (H2 rid t loc Ht) as [u Hu]; [right; right; by eexists|].
  split; [by destruct (H1 rid loc u Hu) as [_ [? _]]|].
  split; [by exists u|].
  intros loc' u' Hu'. destruct (H1 rid loc' u' Hu') as [_ [_ ->]]; done.
Qed.

Lemma render_units_match_request_witness :
  let s := uiRun Scenario.page (Fetch <$> Scenario.overtaken) Scenario.booted in
  currentUnits s = resolved (unitPreferences s)
  /\ (exists u, ForecastRequest 2 Scenario.paris u ∈ trace s)
  /\ (forall loc' u, ForecastRequest 2 loc' u ∈ trace s ->
        u = sysOf (currentUnits s)
        /\ suffixesOf u = infoCardSuffixes (currentUnits s)).
Proof.
  apply (render_units_match_request Scenario.page _ 2
           {| city := "Paris"; pc := AwaitRenderDelay Scenario.paris Scenario.parisData |}
           Scenario.paris Scenario.parisData).
  - exists None, ∅, (sectionsOf initialUnits), (Fetch <$> Scenario.overtaken).
    reflexivity.
  - vm_compute. reflexivity.
  - reflexivity.
  - vm_compute. reflexivity.
Defined.

(** X16: a settlement is local to its invocation.  Whatever promise of
    whatever invocation settles, in whatever state: [lastCity], the
    counter and the stored preferences stay as they are, so does every
    other invocation in flight, and what is recorded are effects of that
    invocation, none of them a geocoding request. *)
Theorem settlement_is_local pg s rid r :
  let s' := step pg s (Settle rid r) in
  lastCity s' = lastCity s /\ latestRequestId s' = latestRequestId s
  /\ unitPreferences s' = unitPreferences s
  /\ (forall k, k <> rid -> tasks s' !! k = tasks s !! k)
  /\ exists add, trace s' = add ++ trace s
                 /\ Forall (effectOf rid) add
                 /\ Forall (fun o => ~ isGeocodeRequest o) add.
Proof.
  cbn [step]. destruct (tasks s !! rid) as [t|] eqn:Ht.
  - destruct (Resumed_actOf pg rid t s _ (resume_shape pg rid t r s))
      as (E1 & E2 & E3 & E4 & add & Eadd & Hadd).
    repeat (split; [assumption|]). exists add. repeat split; try done.
    eapply Forall_impl; [exact Hadd|]. intros [] Ho Hg; cbn in *; done.
  - repeat (split; [reflexivity|]). exists []. done.
Qed.

(** *** One request on its own, from the call to the panel it ends in *)


Lemma hidden_add_class el c s :
  c <> "display-none"%string -> hidden el (classList_add el c s) = hidden el s.
Proof.
  intros Hc. unfold hidden, classList, classList_add. cbn [classes set_classes].
  rewrite lookup_insert_eq. cbn [default from_option id].
  apply bool_decide_ext. rewrite elem_of_union, elem_of_singleton.
  unfold classList. split; [intros [?|?]; [congruence|done] | by right].
Qed.

Lemma hidden_remove_class el c s :
  c <> "display-none"%string -> hidden el (classList_remove el c s) = hidden el s.
Proof.
  intros Hc. unfold hidden, classList, classList_remove. cbn [classes set_classes].
  rewrite lookup_insert_eq. cbn [default from_option id].
  apply bool_decide_ext. rewrite elem_of_difference, elem_of_singleton.
  unfold classList. split; [by intros [? _] | intros ?; split; [done|congruence]].
Qed.

Lemma hidden_log el o s : hidden el (log o s) = hidden el s.
Proof. reflexivity. Qed.

Lemma hidden_set_searchBtn_disabled el b s :
  hidden el (set_searchBtn_disabled b s) = hidden el s.
Proof. reflexivity. Qed.

Lemma hidden_set_lastWeatherData el d s :
  hidden el (set_lastWeatherData d s) = hidden el s.
Proof. reflexivity. Qed.

Lemma hidden_set_currentUnits el u s :
  hidden el (set_currentUnits u s) = hidden el s.
Proof. reflexivity. Qed.

Lemma hidden_set_tasks el v s : hidden el (set_tasks v s) = hidden el s.
Proof. reflexivity. Qed.

Lemma hidden_set_lastCity el v s : hidden el (set_lastCity v s) = hidden el s.
Proof. reflexivity. Qed.

Lemma hidden_set_latestRequestId el v s :
  hidden el (set_latestRequestId v s) = hidden el s.
Proof. reflexivity. Qed.

Lemma hidden_set_unitPreferences el v s :
  hidden el (set_unitPreferences v s) = hidden el s.
Proof. reflexivity. Qed.

Lemma hidden_set_sections el v s : hidden el (set_sections v s) = hidden el s.
Proof. reflexivity. Qed.

Lemma hidden_set_switchBtn el v s : hidden el (set_switchBtn v s) = hidden el s.
Proof. reflexivity. Qed.

(** Whether an element is hidden after a sequence of class-list
    writes, read off the writes from the last to the first. *)
Ltac dom :=
  lazymatch goal with
  | |- hidden ?el (classList_add ?el' ?c ?s) = _ =>
    lazymatch eval vm_compute in (String.eqb el el') with
    | false => rewrite (hidden_add_other el el' c s) by discriminate; dom
    | true =>
      lazymatch eval vm_compute in (String.eqb c "display-none") with
      | true => exact (hidden_add el' s)
      | false => rewrite (hidden_add_class el' c s) by discriminate; dom
      end
    end
  | |- hidden ?el (classList_remove ?el' ?c ?s) = _ =>
    lazymatch eval vm_compute in (String.eqb el el') with
    | false => rewrite (hidden_remove_other el el' c s) by discriminate; dom
    | true =>
      lazymatch eval vm_compute in (String.eqb c "display-none") with
      | true => exact (hidden_remove el' s)
      | false => rewrite (hidden_remove_class el' c s) by discriminate; dom
      end
    end
  | |- hidden ?el (set_searchBtn_disabled ?b ?s) = _ =>
    rewrite (hidden_set_searchBtn_disabled el b s); dom
  | |- hidden ?el (log ?o ?s) = _ => rewrite (hidden_log el o s); dom
  | |- hidden ?el (suspend ?rid ?t ?p ?s) = _ => rewrite (hidden_suspend el rid t p s); dom
  | |- hidden ?el (finish ?rid ?s) = _ => rewrite (hidden_finish el rid s); dom
  | |- hidden ?el (set_lastWeatherData ?d ?s) = _ =>
    rewrite (hidden_set_lastWeatherData el d s); dom
  | |- hidden ?el (set_currentUnits ?u ?s) = _ =>
    rewrite (hidden_set_currentUnits el u s); dom
  | |- hidden ?el (set_tasks ?v ?s) = _ => rewrite (hidden_set_tasks el v s); dom
  | |- hidden ?el (set_lastCity ?v ?s) = _ => rewrite (hidden_set_lastCity el v s); dom
  | |- hidden ?el (set_latestRequestId ?v ?s) = _ =>
    rewrite (hidden_set_latestRequestId el v s); dom
  | |- hidden ?el (set_unitPreferences ?v ?s) = _ =>
    rewrite (hidden_set_unitPreferences el v s); dom
  | |- hidden ?el (set_sections ?v ?s) = _ => rewrite (hidden_set_sections el v s); dom
  | |- hidden ?el (set_switchBtn ?v ?s) = _ => rewrite (hidden_set_switchBtn el v s); dom
  | |- _ => idtac
  end.

Ltac panels :=
  unfold showError, showSuccess, showAllData, hideAllData, hideSearchLoading,
    showSearchLoading, showLoading, andThen, DATA_SECTIONS;
  cbn [fold_left]; dom.

(** The panels right after a call, before anything settles. *)
Lemma fetch_panels c l s :
  let s' := fetchTodayWeather c l s in
  hidden errorFetchCon s' = true /\ hidden noResult s' = true
  /\ hidden mainContent s' = false /\ hidden searchCon s' = false
  /\ searchBtn_disabled s' = searchBtn_disabled s
  /\ hidden searchLoading s' = hidden searchLoading s.
Proof.
  unfold fetchTodayWeather. cbv zeta.
  destruct (default true l);
    (split; [panels; done|]); (split; [panels; done|]);
    (split; [panels; done|]); (split; [panels; done|]);
    (split; [reflexivity|]); panels; reflexivity.
Qed.

Lemma hidden_classes el s s' : classes s' = classes s -> hidden el s' = hidden el s.
Proof. intros E. unfold hidden, classList. by rewrite E. Qed.

Lemma run_app pg a b s : run pg (a ++ b) s = run pg b (run pg a s).
Proof. apply fold_left_app. Qed.

Lemma isStale_current rid s : rid = latestRequestId s -> isStale rid s = false.
Proof. intros ->. unfold isStale. by rewrite Z.eqb_refl. Qed.

(** [setHourlyToToday] in the render step, once the snapshot holds the
    payload. *)
Lemma setHourlyToToday_ok pg rid data cur hr dl s :
  hourly data = Some hr -> lastWeatherData s = Some data ->
  exists x,
    setHourlyToToday pg rid (dl_time dl)
      (log (Render rid (populateDaysDropdown (dl_time dl)))
         (log (Render rid (updateDailyForecast (Some dl)))
            (log (Render rid (updateInfoCards cur hr)) s))) = inl x
    /\ sameData s x /\ classes x = classes s
    /\ searchBtn_disabled x = searchBtn_disabled s
    /\ trace x = match dl_time dl with
                 | [] => []
                 | today :: _ =>
                   [Render rid (renderHourly (getHourlyForDay (host pg) hr today))]
                 end
                 ++ [Render rid (populateDaysDropdown (dl_time dl));
                     Render rid (updateDailyForecast (Some dl));
                     Render rid (updateInfoCards cur hr)] ++ trace s.
Proof.
  intros Hh Hs. unfold setHourlyToToday. destruct (dl_time dl) as [|today rest].
  - eexists. split; [reflexivity|]. split; [frame|]. repeat split; reflexivity.
  - cbn [lastWeatherData log set_trace]. rewrite Hs.
    destruct data as [dc dh dd]. cbn in Hh. subst dh.
    eexists. split; [reflexivity|]. split; [frame|]. repeat split; reflexivity.
Qed.

(** The render step when nothing is missing. *)
Lemma render_success pg rid loc data cur hr dl s :
  current_weather data = Some cur -> hourly data = Some hr -> daily data = Some dl ->
  todayElements pg = true -> lastWeatherData s = Some data ->
  exists s',
    render pg rid loc data s = (s', None)
    /\ sameData s s'
    /\ trace s'
       = Render rid (renderToday loc cur)
         :: match dl_time dl with
            | [] => []
            | today :: _ =>
              [Render rid (renderHourly (getHourlyForDay (host pg) hr today))]
            end
         ++ [Render rid (populateDaysDropdown (dl_time dl));
             Render rid (updateDailyForecast (Some dl));
             Render rid (updateInfoCards cur hr)] ++ trace s
    /\ searchBtn_disabled s' = false
    /\ hidden loadingCon s' = true /\ hidden errorFetchCon s' = true
    /\ hidden searchLoading s' = true
    /\ Forall (fun el => hidden el s' = false) (weatherIcon :: DATA_SECTIONS)
    /\ Forall (fun el => hidden el s' = hidden el s) [noResult; mainContent; searchCon].
Proof.
  intros Hc Hh Hd Ht Hs.
  destruct (setHourlyToToday_ok pg rid data cur hr dl s Hh Hs) as (x & Hx & Sx & Cx & _ & Tx).
  unfold render. rewrite Hc, Hh, Hd. cbv zeta. rewrite Hx, Ht.
  eexists. split; [reflexivity|]. clear Hx. revert Sx Cx Tx. generalize x. clear x.
  intros x Sx Cx Tx.
  split.
  { eapply sameData_trans; [exact Sx|].
    eapply sameData_trans; [|apply showSuccess_sameData].
    eapply sameData_trans; [|apply hideSearchLoading_sameData].
    unfold andThen. same_chain. }
  split.
  { rewrite <- Tx. reflexivity. }
  split; [reflexivity|].
  split; [panels; done|]. split; [panels; done|]. split; [panels; done|].
  split.
  { repeat (apply Forall_cons; split; [panels; done|]). constructor. }
  repeat (apply Forall_cons; split;
          [panels; apply hidden_classes; exact Cx|]).
  constructor.
Qed.


Lemma resume_geoFetch_ok pg rid t status s :
  pc t = AwaitGeoFetch ->
  resume pg rid t (FetchFulfilled true status) s = suspend rid t AwaitGeoJson s.
Proof. intros Hp. unfold resume. by rewrite Hp. Qed.

Lemma resume_geoJson pg rid t results s :
  pc t = AwaitGeoJson ->
  resume pg rid t (GeoJson results) s = afterGeocode rid t (coordinatesOf results) s.
Proof. intros Hp. unfold resume. by rewrite Hp. Qed.

Lemma resume_forecastFetch_ok pg rid t loc status s :
  pc t = AwaitForecastFetch loc ->
  resume pg rid t (FetchFulfilled true status) s = suspend rid t (AwaitForecastJson loc) s.
Proof. intros Hp. unfold resume. by rewrite Hp. Qed.

Lemma resume_forecastJson pg rid t loc data s :
  pc t = AwaitForecastJson loc ->
  resume pg rid t (ForecastJson data) s
  = afterForecast rid t loc data (log (ForecastPayload rid data) s).
Proof. intros Hp. unfold resume. by rewrite Hp. Qed.

Lemma resume_renderDelay pg rid t loc data s :
  pc t = AwaitRenderDelay loc data ->
  resume pg rid t TimerFired s = afterRenderDelay pg rid t loc data s.
Proof. intros Hp. unfold resume. by rewrite Hp. Qed.


(** From the call to the forecast request, when geocoding finds the
    city. *)
Lemma geocode_stage pg s c l status loc rest :
  let rid := latestRequestId s + 1 in
  let c' := default (lastCity s) c in
  let s3 := run pg [Call c l; Settle rid (FetchFulfilled true status);
                    Settle rid (GeoJson (Some (loc :: rest)))] s in
  tasks s3 = <[rid := {| city := c'; pc := AwaitForecastFetch loc |}]> (tasks s)
  /\ latestRequestId s3 = rid /\ lastCity s3 = c'
  /\ lastWeatherData s3 = lastWeatherData s
  /\ unitPreferences s3 = unitPreferences s
  /\ currentUnits s3 = resolved (unitPreferences s)
  /\ trace s3 = ForecastRequest rid loc (sysOf (resolved (unitPreferences s)))
                :: GeocodeRequest rid c' :: trace s
  /\ classes s3 = classes (fetchTodayWeather c l s)
  /\ searchBtn_disabled s3 = searchBtn_disabled (fetchTodayWeather c l s).
Proof.
  intros rid c'.
  destruct (fetchTodayWeather_effect c l s) as (E1 & E2 & E3 & E4 & E5).
  destruct (fetch_issued c l s) as [_ Ep].
  unfold run. cbn [fold_left].
  change (step pg s (Call c l)) with (fetchTodayWeather c l s).
  set (s1 := fetchTodayWeather c l s) in *.
  set (t1 := {| city := c'; pc := AwaitGeoFetch |}).
  assert (H1 : tasks s1 !! rid = Some t1) by (rewrite E4; apply lookup_insert_eq).
  clearbody s1.
  rewrite (step_settle pg s1 rid t1 _ H1), resume_geoFetch_ok by done.
  set (t2 := {| city := c'; pc := AwaitGeoJson |}).
  rewrite (step_settle pg _ rid t2 _ (tasks_suspend rid t1 AwaitGeoJson s1)).
  rewrite resume_geoJson by done. unfold afterGeocode.
  rewrite isStale_current by (symmetry; exact E2).
  cbn [coordinatesOf]. unfold andThen.
  change (getUnitParams (unitPreferences (suspend rid t1 AwaitGeoJson s1))
            (currentUnits (suspend rid t1 AwaitGeoJson s1)))
    with (sysOf (resolved (unitPreferences s1)), resolved (unitPreferences s1)).
  cbv iota beta zeta.
  split.
  { unfold suspend. cbn [tasks set_tasks log set_trace set_currentUnits].
    rewrite E4. by rewrite !insert_insert_eq. }
  split; [exact E2|]. split; [exact E1|]. split; [exact E3|]. split; [exact Ep|].
  split; [cbn; by rewrite Ep|].
  split; [cbn; by rewrite Ep, E5|].
  split; reflexivity.
Qed.

(** From the response of the forecast request to the rendered page,
    for the current request and a payload with all its sections. *)
Lemma render_stage pg s rid t loc status data cur hr dl :
  tasks s !! rid = Some t -> pc t = AwaitForecastFetch loc ->
  rid = latestRequestId s ->
  current_weather data = Some cur -> hourly data = Some hr -> daily data = Some dl ->
  todayElements pg = true ->
  let s' := run pg [Settle rid (FetchFulfilled true status);
                    Settle rid (ForecastJson data); Settle rid TimerFired] s in
  tasks s' = delete rid (tasks s)
  /\ lastWeatherData s' = Some data
  /\ lastCity s' = lastCity s /\ latestRequestId s' = latestRequestId s
  /\ currentUnits s' = currentUnits s /\ unitPreferences s' = unitPreferences s
  /\ trace s'
     = Render rid (renderToday loc cur)
       :: match dl_time dl with
          | [] => []
          | today :: _ =>
            [Render rid (renderHourly (getHourlyForDay (host pg) hr today))]
          end
       ++ [Render rid (populateDaysDropdown (dl_time dl));
           Render rid (updateDailyForecast (Some dl));
           Render rid (updateInfoCards cur hr);
           ForecastPayload rid data] ++ trace s
  /\ searchBtn_disabled s' = false
  /\ hidden loadingCon s' = true /\ hidden errorFetchCon s' = true
  /\ hidden searchLoading s' = true
  /\ Forall (fun el => hidden el s' = false) (weatherIcon :: DATA_SECTIONS)
  /\ Forall (fun el => hidden el s' = hidden el s) [noResult; mainContent; searchCon].
Proof.
  intros Ht Hp Hrid Hc Hh Hd Hpg. unfold run. cbn [fold_left].
  rewrite (step_settle pg s rid t _ Ht), (resume_forecastFetch_ok _ _ _ loc) by done.
  set (t1 := {| city := city t; pc := AwaitForecastJson loc |}).
  rewrite (step_settle pg _ rid t1 _ (tasks_suspend rid t (AwaitForecastJson loc) s)).
  rewrite (resume_forecastJson _ _ _ loc) by done.
  unfold afterForecast. rewrite Hc, Hh. unfold andThen.
  set (x := set_lastWeatherData (Some data)
              (log (ForecastPayload rid data) (suspend rid t (AwaitForecastJson loc) s))).
  set (t2 := {| city := city t1; pc := AwaitRenderDelay loc data |}).
  rewrite (step_settle pg _ rid t2 _ (tasks_suspend rid t1 (AwaitRenderDelay loc data) x)).
  rewrite (resume_renderDelay _ _ _ loc data) by done.
  unfold afterRenderDelay.
  rewrite isStale_current by exact Hrid.
  set (y := suspend rid t1 (AwaitRenderDelay loc data) x).
  assert (Hy : lastWeatherData y = Some data) by reflexivity.
  assert (Ty : tasks y = <[rid := t2]> (<[rid := t1]> (tasks s))) by reflexivity.
  assert (Ry : trace y = ForecastPayload rid data :: trace s) by reflexivity.
  assert (Cy : classes y = classes s) by reflexivity.
  assert (Ly : lastCity y = lastCity s /\ latestRequestId y = latestRequestId s
               /\ currentUnits y = currentUnits s
               /\ unitPreferences y = unitPreferences s) by (repeat split; reflexivity).
  clearbody y. clear x.
  destruct (render_success pg rid loc data cur hr dl y Hc Hh Hd Hpg Hy)
    as (s' & -> & (S1 & S2 & S3 & S4 & S5 & S6) & Tr & Hb & P1 & P2 & P3 & P4 & P5).
  destruct Ly as (L1 & L2 & L3 & L4).
  split.
  { unfold finish. cbn [tasks set_tasks]. rewrite S4, Ty.
    by rewrite !delete_insert_eq. }
  split; [change (lastWeatherData s' = Some data); congruence|].
  split; [change (lastCity s' = lastCity s); congruence|].
  split; [change (latestRequestId s' = latestRequestId s); congruence|].
  split; [change (currentUnits s' = currentUnits s); congruence|].
  split; [change (unitPreferences s' = unitPreferences s); congruence|].
  split.
  { change (trace (finish rid s')) with (trace s'). rewrite Tr, Ry.
    destruct (dl_time dl); reflexivity. }
  split; [exact Hb|]. split; [exact P1|]. split; [exact P2|]. split; [exact P3|].
  split; [exact P4|].
  eapply Forall_impl; [exact P5|]. intros el Hel.
  rewrite hidden_finish, Hel. by apply hidden_classes.
Qed.

(** X17: a request on its own, from the call to the rendered page.
    With a city geocoding knows, both responses [ok], a payload with
    its three sections and the Today elements in place, the invocation
    returns after: one geocoding request, one forecast request in the
    units resolved from the stored preferences, the five render calls
    in the order of lines 583-586 and 599-611 (the hour cards of the
    first day of [daily.time], none when that is empty); the payload is
    the snapshot; the loading panel, the error panel, the no-result
    panel and the search loader are hidden, the main content, the
    search section and every data section are shown, and the search
    button is enabled. *)
Theorem lone_request_renders pg s c l status status' loc rest data cur hr dl :
  current_weather data = Some cur -> hourly data = Some hr -> daily data = Some dl ->
  todayElements pg = true ->
  let rid := latestRequestId s + 1 in
  let s' := run pg [Call c l;
                    Settle rid (FetchFulfilled true status);
                    Settle rid (GeoJson (Some (loc :: rest)));
                    Settle rid (FetchFulfilled true status');
                    Settle rid (ForecastJson data);
                    Settle rid TimerFired] s in
  tasks s' = delete rid (tasks s)
  /\ lastWeatherData s' = Some data
  /\ lastCity s' = default (lastCity s) c
  /\ currentUnits s' = resolved (unitPreferences s)
  /\ trace s'
     = Render rid (renderToday loc cur)
       :: match dl_time dl with
          | [] => []
          | today :: _ =>
            [Render rid (renderHourly (getHourlyForDay (host pg) hr today))]
          end
       ++ [Render rid (populateDaysDropdown (dl_time dl));
           Render rid (updateDailyForecast (Some dl));
           Render rid (updateInfoCards cur hr);
           ForecastPayload rid data;
           ForecastRequest rid loc (sysOf (resolved (unitPreferences s)));
           GeocodeRequest rid (default (lastCity s) c)] ++ trace s
  /\ searchBtn_disabled s' = false
  /\ hidden loadingCon s' = true /\ hidden errorFetchCon s' = true
  /\ hidden noResult s' = true /\ hidden searchLoading s' = true
  /\ hidden mainContent s' = false /\ hidden searchCon s' = false
  /\ Forall (fun el => hidden el s' = false) (weatherIcon :: DATA_SECTIONS).
Proof.
  intros Hc Hh Hd Hpg rid s'. subst s'.
  change [Call c l; Settle rid (FetchFulfilled true status);
          Settle rid (GeoJson (Some (loc :: rest)));
          Settle rid (FetchFulfilled true status');
          Settle rid (ForecastJson data); Settle rid TimerFired]
    with ([Call c l; Settle rid (FetchFulfilled true status);
           Settle rid (GeoJson (Some (loc :: rest)))]
          ++ [Settle rid (FetchFulfilled true status');
              Settle rid (ForecastJson data); Settle rid TimerFired]).
  rewrite run_app.
  pose proof (geocode_stage pg s c l status loc rest) as G. cbv zeta in G.
  fold rid in G.
  destruct (fetch_panels c l s) as (F1 & F2 & F3 & F4 & _).
  set (s3 := run pg [Call c l; Settle rid (FetchFulfilled true status);
                     Settle rid (GeoJson (Some (loc :: rest)))] s) in *.
  destruct G as (G1 & G2 & G3 & G4 & G5 & G6 & G7 & G8 & G9). clearbody s3.
  assert (Ht : tasks s3 !! rid
               = Some {| city := default (lastCity s) c; pc := AwaitForecastFetch loc |})
    by (rewrite G1; apply lookup_insert_eq).
  destruct (render_stage pg s3 rid _ loc status' data cur hr dl Ht eq_refl
              (eq_sym G2) Hc Hh Hd Hpg)
    as (R1 & R2 & R3 & R4 & R5 & R6 & R7 & R8 & R9 & R10 & R11 & R12 & R13).
  apply Forall_cons in R13 as [N1 R13]. apply Forall_cons in R13 as [N2 R13].
  apply Forall_cons in R13 as [N3 _].
  split; [rewrite R1, G1; by rewrite delete_insert_eq|].
  split; [exact R2|]. split; [by rewrite R3|]. split; [by rewrite R5|].
  split.
  { rewrite R7, G7. destruct (dl_time dl); reflexivity. }
  split; [exact R8|]. split; [exact R9|]. split; [exact R10|].
  split; [rewrite N1, (hidden_classes _ _ _ G8); exact F2|].
  split; [exact R11|].
  split; [rewrite N2, (hidden_classes _ _ _ G8); exact F3|].
  split; [rewrite N3, (hidden_classes _ _ _ G8); exact F4|].
  exact R12.
Qed.

Lemma lone_request_renders_witness :
  let s' := run Scenario.page
              [Call (Some "Paris"%string) None;
               Settle 2 (FetchFulfilled true 200);
               Settle 2 (GeoJson (Some [Scenario.paris]));
               Settle 2 (FetchFulfilled true 200);
               Settle 2 (ForecastJson Scenario.parisData);
               Settle 2 TimerFired] Scenario.booted in
  lastWeatherData s' = Some Scenario.parisData
  /\ hidden loadingCon s' = true
  /\ searchBtn_disabled s' = false.
Proof.
  destruct (lone_request_renders Scenario.page Scenario.booted (Some "Paris"%string)
              None 200 200 Scenario.paris [] Scenario.parisData _ _ _
              eq_refl eq_refl eq_refl eq_refl)
    as (_ & H2 & _ & _ & _ & H6 & H7 & _).
  split; [exact H2|]. split; [exact H7 | exact H6].
Defined.

(** The [catch] block once its delay is over (lines 635-637). *)
Lemma errorPanel_facts rid e s :
  let s' := finish rid (showError (log (ConsoleError rid e) (hideSearchLoading s))) in
  tasks s' = delete rid (tasks s)
  /\ trace s' = ConsoleError rid e :: trace s
  /\ lastWeatherData s' = lastWeatherData s
  /\ searchBtn_disabled s' = false
  /\ hidden errorFetchCon s' = false
  /\ hidden loadingCon s' = true /\ hidden searchLoading s' = true
  /\ Forall (fun el => hidden el s' = true) (weatherIcon :: DATA_SECTIONS)
  /\ Forall (fun el => hidden el s' = hidden el s) [noResult; mainContent; searchCon].
Proof.
  cbv zeta. split; [reflexivity|].
  split; [reflexivity|]. split; [reflexivity|]. split; [reflexivity|].
  split; [panels; done|]. split; [panels; done|]. split; [panels; done|].
  split.
  { repeat (apply Forall_cons; split; [panels; done|]). constructor. }
  repeat (apply Forall_cons; split; [panels; reflexivity|]). constructor.
Qed.








(** *** The handlers *)

Lemma fetch_dropdown c l s :
  sections (fetchTodayWeather c l s) = sections s
  /\ switchBtn (fetchTodayWeather c l s) = switchBtn s
  /\ (l = Some false ->
      hidden loadingCon (fetchTodayWeather c l s) = hidden loadingCon s).
Proof.
  split; [by destruct l as [[]|]|]. split; [by destruct l as [[]|]|].
  intros ->. unfold fetchTodayWeather. cbv zeta. cbn [default from_option id].
  panels. reflexivity.
Qed.

Lemma updateSwitchButton_facts x :
  let u := updateSwitchButton x in
  sections u = sections x
  /\ switchBtn u = Some (switchButton (getCurrentSystem (sections x)))
  /\ unitPreferences u = unitPreferences x
  /\ sameData x u /\ trace u = trace x
  /\ hidden loadingCon u = hidden loadingCon x.
Proof.
  unfold updateSwitchButton, andThen. cbv zeta.
  do 3 (split; [reflexivity|]). split; [frame|]. split; [reflexivity|].
  panels. reflexivity.
Qed.

Lemma savePreferences_eq u :
  savePreferences u
  = hideSearchLoading
      (fetchTodayWeather (Some (lastCity u)) (Some false)
         (set_unitPreferences (Some (collectPreferences (sections u))) u)).
Proof. reflexivity. Qed.

Lemma savePreferences_facts u :
  let s' := savePreferences u in
  sections s' = sections u
  /\ switchBtn s' = switchBtn u
  /\ unitPreferences s' = Some (collectPreferences (sections u))
  /\ latestRequestId s' = latestRequestId u + 1
  /\ tasks s' = <[latestRequestId u + 1 :=
                   {| city := lastCity u; pc := AwaitGeoFetch |}]> (tasks u)
  /\ trace s' = GeocodeRequest (latestRequestId u + 1) (lastCity u) :: trace u
  /\ lastCity s' = lastCity u
  /\ lastWeatherData s' = lastWeatherData u
  /\ currentUnits s' = currentUnits u
  /\ searchBtn_disabled s' = false
  /\ hidden searchLoading s' = true
  /\ hidden loadingCon s' = hidden loadingCon u
  /\ hidden errorFetchCon s' = true.
Proof.
  cbv zeta. rewrite savePreferences_eq.
  assert (Hy : forall y,
             y = set_unitPreferences (Some (collectPreferences (sections u))) u ->
             sections y = sections u /\ switchBtn y = switchBtn u
             /\ unitPreferences y = Some (collectPreferences (sections u))
             /\ latestRequestId y = latestRequestId u /\ tasks y = tasks u
             /\ trace y = trace u /\ lastCity y = lastCity u
             /\ lastWeatherData y = lastWeatherData u
             /\ currentUnits y = currentUnits u
             /\ hidden loadingCon y = hidden loadingCon u)
    by (intros y ->; repeat split; reflexivity).
  specialize (Hy _ eq_refl). revert Hy.
  generalize (set_unitPreferences (Some (collectPreferences (sections u))) u).
  intros y (Y1 & Y2 & Y3 & Y4 & Y5 & Y6 & Y7 & Y8 & Y9 & Y10).
  pose proof (fetchTodayWeather_effect (Some (lastCity u)) (Some false) y) as E.
  cbv zeta in E. cbn [default from_option id] in E.
  destruct (fetch_issued (Some (lastCity u)) (Some false) y)
    as [(c & _ & _ & _ & _ & I5 & _) Ip].
  destruct (fetch_panels (Some (lastCity u)) (Some false) y) as (F1 & _).
  destruct (fetch_dropdown (Some (lastCity u)) (Some false) y) as (D1 & D2 & D3).
  specialize (D3 eq_refl).
  revert E I5 Ip F1 D1 D2 D3.
  generalize (fetchTodayWeather (Some (lastCity u)) (Some false) y).
  intros z (E1 & E2 & E3 & E4 & E5) I5 Ip F1 D1 D2 D3.
  split; [transitivity (sections z); [reflexivity | congruence]|].
  split; [transitivity (switchBtn z); [reflexivity | congruence]|].
  split; [transitivity (unitPreferences z); [reflexivity | congruence]|].
  split; [transitivity (latestRequestId z); [reflexivity | congruence]|].
  split; [transitivity (tasks z); [reflexivity | congruence]|].
  split; [transitivity (trace z); [reflexivity | congruence]|].
  split; [transitivity (lastCity z); [reflexivity | congruence]|].
  split; [transitivity (lastWeatherData z); [reflexivity | congruence]|].
  split; [transitivity (currentUnits z); [reflexivity | congruence]|].
  split; [reflexivity|].
  split; [panels; done|].
  split; [panels; congruence|]. panels. exact F1.
Qed.

(** [updateSwitchButton(); savePreferences();], the tail of both the
    option handler and the switch button's handler. *)
Lemma save_chain_facts x :
  let s' := savePreferences (updateSwitchButton x) in
  sections s' = sections x
  /\ switchBtn s' = Some (switchButton (getCurrentSystem (sections x)))
  /\ unitPreferences s' = Some (collectPreferences (sections x))
  /\ latestRequestId s' = latestRequestId x + 1
  /\ tasks s' = <[latestRequestId x + 1 :=
                   {| city := lastCity x; pc := AwaitGeoFetch |}]> (tasks x)
  /\ trace s' = GeocodeRequest (latestRequestId x + 1) (lastCity x) :: trace x
  /\ lastCity s' = lastCity x
  /\ lastWeatherData s' = lastWeatherData x
  /\ currentUnits s' = currentUnits x
  /\ searchBtn_disabled s' = false
  /\ hidden searchLoading s' = true
  /\ hidden loadingCon s' = hidden loadingCon x
  /\ hidden errorFetchCon s' = true.
Proof.
  destruct (updateSwitchButton_facts x)
    as (U1 & U2 & U3 & (U4 & U5 & U6 & U7 & U8 & U9) & U10 & U11).
  destruct (savePreferences_facts (updateSwitchButton x))
    as (P1 & P2 & P3 & P4 & P5 & P6 & P7 & P8 & P9 & P10 & P11 & P12 & P13).
  cbv zeta in P1, P2, P3, P4, P5, P6, P7, P8, P9, P10, P11, P12, P13.
  cbv zeta in U1, U2, U3, U4, U5, U6, U7, U8, U9, U10, U11. cbv zeta.
  revert P1 P2 P3 P4 P5 P6 P7 P8 P9 P10 P11 P12 P13.
  generalize (savePreferences (updateSwitchButton x)).
  revert U1 U2 U3 U4 U5 U6 U7 U8 U9 U10 U11.
  generalize (updateSwitchButton x).
  intros u U1 U2 U3 U4 U5 U6 U7 U8 U9 U10 U11
         s' P1 P2 P3 P4 P5 P6 P7 P8 P9 P10 P11 P12 P13.
  split; [congruence|]. split; [congruence|]. split; [congruence|].
  split; [congruence|]. split; [congruence|]. split; [congruence|].
  split; [congruence|]. split; [congruence|]. split; [congruence|].
  split; [exact P10|]. split; [exact P11|]. split; [congruence | exact P13].
Qed.

(** X20: the search button guards itself.  A click on the enabled
    search button with a non-empty (trimmed) input disables the button,
    shows the search loader and the loading panel, and issues a request
    for the city typed; until something enables the button again a
    further click (or Enter, which clicks the button) does nothing,
    whatever the input holds.  With an empty input the click does
    nothing at all. *)
Theorem search_click_guards_itself pg s v v' :
  v <> ""%string -> searchBtn_disabled s = false ->
  let s1 := step pg s (SearchClick v) in
  searchBtn_disabled s1 = true
  /\ hidden searchLoading s1 = false /\ hidden loadingCon s1 = false
  /\ latestRequestId s1 = latestRequestId s + 1
  /\ tasks s1 !! (latestRequestId s + 1) = Some {| city := v; pc := AwaitGeoFetch |}
  /\ lastCity s1 = v
  /\ step pg s1 (SearchClick v') = s1
  /\ step pg s (SearchClick "") = s.
Proof.
  intros Hv Hb s1. subst s1. cbn [step]. rewrite Hb.
  apply String.eqb_neq in Hv. rewrite Hv. unfold andThen.
  set (x := showLoading (showSearchLoading s)).
  assert (Bx : searchBtn_disabled x = true) by reflexivity.
  assert (Lx : latestRequestId x = latestRequestId s) by reflexivity.
  assert (Sx : hidden searchLoading x = false) by (subst x; panels; done).
  destruct (fetchTodayWeather_effect (Some v) None x) as (E1 & E2 & _ & E4 & _).
  destruct (fetch_panels (Some v) None x) as (_ & _ & _ & _ & F5 & F6).
  assert (Fl : hidden loadingCon (fetchTodayWeather (Some v) None x) = false).
  { clear. unfold fetchTodayWeather. cbv zeta. cbn [default from_option id]. panels; done. }
  clearbody x. set (s1 := fetchTodayWeather (Some v) None x) in *. clearbody s1.
  split; [by rewrite F5|]. split; [by rewrite F6|]. split; [exact Fl|].
  split; [by rewrite E2, Lx|].
  split; [rewrite E4, Lx; apply lookup_insert_eq|].
  split; [exact E1|].
  split; [|by destruct (searchBtn_disabled s)].
  rewrite F5, Bx. reflexivity.
Qed.

Lemma search_click_guards_itself_witness :
  let s1 := step Scenario.page Scenario.booted (SearchClick "Paris") in
  searchBtn_disabled s1 = true
  /\ step Scenario.page s1 (SearchClick "Amman") = s1.
Proof.
  destruct (search_click_guards_itself Scenario.page Scenario.booted
              "Paris"%string "Amman"%string) as (H1 & _ & _ & _ & _ & _ & H7 & _).
  - discriminate.
  - reflexivity.
  - split; [exact H1 | exact H7].
Defined.

(** X21: what a click on a unit option does besides selecting it
    (lines 667-668, through [updateSwitchButton] and
    [savePreferences]): the switch button is relabelled from the new
    selection, the selection is stored, and the forecast of [lastCity]
    is requested again without the loading panel; the search loader is
    hidden and the search button enabled even if a search was in
    progress. *)
Theorem option_click_refetches pg s i j sec :
  sections s !! i = Some sec -> (j < length (sec_options sec))%nat ->
  let s' := step pg s (OptionClick i j) in
  sections s' = clickOption i j (sections s)
  /\ switchBtn s' = Some (switchButton (getCurrentSystem (sections s')))
  /\ unitPreferences s' = Some (collectPreferences (sections s'))
  /\ latestRequestId s' = latestRequestId s + 1
  /\ tasks s' = <[latestRequestId s + 1 :=
                   {| city := lastCity s; pc := AwaitGeoFetch |}]> (tasks s)
  /\ lastCity s' = lastCity s
  /\ lastWeatherData s' = lastWeatherData s
  /\ searchBtn_disabled s' = false /\ hidden searchLoading s' = true
  /\ hidden loadingCon s' = hidden loadingCon s.
Proof.
  intros Hi Hj s'. subst s'. cbn [step]. rewrite Hi.
  rewrite bool_decide_eq_true_2 by exact Hj. unfold andThen.
  set (x := set_sections (clickOption i j (sections s)) s).
  destruct (save_chain_facts x)
    as (H1 & H2 & H3 & H4 & H5 & _ & H7 & H8 & _ & H10 & H11 & H12 & _).
  set (s' := savePreferences (updateSwitchButton x)) in *. clearbody s'.
  split; [exact H1|]. split; [by rewrite H1|]. split; [by rewrite H1|].
  split; [exact H4|]. split; [exact H5|]. split; [exact H7|]. split; [exact H8|].
  split; [exact H10|]. split; [exact H11 | exact H12].
Qed.

Lemma option_click_refetches_witness :
  let s' := step Scenario.page Scenario.booted (OptionClick 0 1) in
  latestRequestId s' = latestRequestId Scenario.booted + 1
  /\ searchBtn_disabled s' = false.
Proof.
  destruct (option_click_refetches Scenario.page Scenario.booted 0 1
              (sectionFor "Temperature" false))
    as (_ & _ & _ & H4 & _ & _ & _ & H8 & _).
  - reflexivity.
  - cbn. lia.
  - split; [exact H4 | exact H8].
Defined.

(** *** The switch button *)

Lemma retarget_Some c sec :
  is_Some (optionIndex c sec) -> is_Some (retarget c sec).
Proof. intros [k Hk]. unfold retarget. rewrite Hk. by eexists. Qed.

Lemma retargetAll_complete c secs :
  Forall (fun x => is_Some (optionIndex c x)) secs ->
  retargetAll c secs = (omap (retarget c) secs, true).
Proof.
  induction 1 as [|sec secs Hsec _ IH]; [done|].
  cbn [retargetAll]. destruct (retarget_Some c sec Hsec) as [sec' Hs].
  rewrite IH. cbn. rewrite Hs. done.
Qed.

Lemma retargetAll_abort c pre sec post :
  Forall (fun x => is_Some (optionIndex c x)) pre -> optionIndex c sec = None ->
  retargetAll c (pre ++ sec :: post)
  = (omap (retarget c) pre ++ clearSelected sec :: post, false).
Proof.
  intros Hpre Hsec. induction Hpre as [|hd pre Hhd _ IH].
  - cbn. unfold retarget. rewrite Hsec. done.
  - cbn [app retargetAll]. destruct (retarget_Some c hd Hhd) as [hd' Hs].
    rewrite IH. cbn. rewrite Hs. done.
Qed.

Lemma clearSelected_none sec : queryOption "selected" (clearSelected sec) = None.
Proof.
  unfold queryOption, clearSelected. cbn [sec_options].
  induction (sec_options sec) as [|o l IH]; [done|]. cbn [List.map List.find].
  rewrite IH. unfold contains. rewrite bool_decide_eq_false_2; [done|].
  rewrite elem_of_difference, elem_of_singleton. by intros [_ ?].
Qed.

(** X22: the switch button on a dropdown that lacks a target.  The
    handler looks in every section for the option of the system to
    switch to (metric unless the button's state is "metric"); in the
    first section without one it has cleared the section's selection
    when [target.classList] throws.  The sections before it are
    switched, that section is left with no option selected, the
    sections after it are as they were, and nothing else happens: the
    button keeps its label, nothing is stored, no forecast is
    requested. *)
Theorem switch_click_aborts s pre sec post :
  let c := (if negb (bool_decide (snd <$> switchBtn s = Some "metric"%string))
            then "metric" else "imperial")%string in
  sections s = pre ++ sec :: post ->
  Forall (fun x => is_Some (optionIndex c x)) pre -> optionIndex c sec = None ->
  switchClick s = set_sections (omap (retarget c) pre ++ clearSelected sec :: post) s
  /\ queryOption "selected" (clearSelected sec) = None
  /\ switchBtn (switchClick s) = switchBtn s
  /\ unitPreferences (switchClick s) = unitPreferences s
  /\ tasks (switchClick s) = tasks s /\ trace (switchClick s) = trace s.
Proof.
  intros c Hs Hpre Hsec.
  assert (E : switchClick s
              = set_sections (omap (retarget c) pre ++ clearSelected sec :: post) s).
  { unfold switchClick. fold c. rewrite Hs, (retargetAll_abort c pre sec post Hpre Hsec).
    reflexivity. }
  split; [exact E|]. split; [apply clearSelected_none|]. rewrite E.
  repeat split; reflexivity.
Qed.

Lemma switch_click_aborts_witness :
  let s := set_sections
             [sectionFor "Temperature" false;
              {| sec_title := Some "Wind Speed"%string;
                 sec_options := [ {["metric"; "selected"]} ]%string |};
              sectionFor "Precipitation" false] Scenario.booted in
  sections (switchClick s)
  = [sectionFor "Temperature" true;
     {| sec_title := Some "Wind Speed"%string;
        sec_options := [ {["metric"]} ]%string |};
     sectionFor "Precipitation" false]
  /\ tasks (switchClick s) = tasks s.
Proof.
  intros s.
  destruct (switch_click_aborts s [sectionFor "Temperature" false]
              {| sec_title := Some "Wind Speed"%string;
                 sec_options := [ {["metric"; "selected"]} ]%string |}
              [sectionFor "Precipitation" false])
    as (H1 & _ & _ & _ & H5 & _).
  - reflexivity.
  - apply Forall_cons. split; [|constructor]. vm_compute. by eexists.
  - vm_compute. reflexivity.
  - split; [|exact H5]. rewrite H1. vm_compute. reflexivity.
Defined.

Lemma retarget_sectionFor title b0 (b : bool) :
  retarget (if b then "metric" else "imperial") (sectionFor title b0)
  = Some (sectionFor title (negb b)).
Proof. destruct b0, b; vm_compute; reflexivity. Qed.

Lemma retargetAll_sectionsOf u (b : bool) :
  retargetAll (if b then "metric" else "imperial") (sectionsOf u)
  = (sectionsOf (if b then metricUnits else imperialUnits), true).
Proof.
  unfold sectionsOf. cbn [retargetAll]. rewrite !retarget_sectionFor.
  by destruct b.
Qed.

(** X23: the switch button on the three-category dropdown.  With the
    button's state in step with the dropdown, a click while every
    category is metric selects the imperial option of each; a click in
    any other state (all imperial, or mixed, where the button reads
    "Custom units") selects the metric option of each.  The button is
    relabelled, the choice is stored and resolves to the units
    selected, and the forecast of [lastCity] is requested again without
    the loading panel. *)
Theorem switch_click_toggles u s :
  sections s = sectionsOf u ->
  switchBtn s = Some (switchButton (getCurrentSystem (sectionsOf u))) ->
  let target := if allMetric u then imperialUnits else metricUnits in
  let s' := switchClick s in
  sections s' = sectionsOf target
  /\ switchBtn s' = Some (switchButton (if allMetric u then imperial else metric))
  /\ unitPreferences s' = Some (collectPreferences (sectionsOf target))
  /\ resolved (unitPreferences s') = target
  /\ latestRequestId s' = latestRequestId s + 1
  /\ tasks s' = <[latestRequestId s + 1 :=
                   {| city := lastCity s; pc := AwaitGeoFetch |}]> (tasks s)
  /\ hidden loadingCon s' = hidden loadingCon s.
Proof.
  intros Hsec Hbtn target s'.
  assert (E : s' = savePreferences (updateSwitchButton (set_sections (sectionsOf target) s))).
  { subst s' target. unfold switchClick. rewrite Hbtn, Hsec.
    assert (Hb : negb (bool_decide
                         (snd <$> Some (switchButton (getCurrentSystem (sectionsOf u)))
                          = Some "metric"%string))
                 = negb (allMetric u))
      by (destruct u as [[] [] []]; vm_compute; reflexivity).
    rewrite Hb, retargetAll_sectionsOf.
    destruct (allMetric u); reflexivity. }
  pose proof (save_chain_facts (set_sections (sectionsOf target) s)) as F.
  cbv zeta in F. rewrite <- E in F.
  destruct F as (F1 & F2 & F3 & F4 & F5 & _ & _ & _ & _ & _ & _ & F12 & _).
  clearbody s'.
  assert (Hg : getCurrentSystem (sectionsOf target)
               = if allMetric u then imperial else metric)
    by (subst target; destruct (allMetric u); vm_compute; reflexivity).
  split; [exact F1|]. split; [rewrite F2; cbn [sections set_sections]; by rewrite Hg|].
  split; [exact F3|]. split; [rewrite F3; apply sectionsOf_round_trip|].
  split; [exact F4|]. split; [exact F5 | exact F12].
Qed.

Lemma switch_click_toggles_witness :
  sections (switchClick Scenario.booted) = sectionsOf imperialUnits
  /\ latestRequestId (switchClick Scenario.booted) = latestRequestId Scenario.booted + 1.
Proof.
  destruct (switch_click_toggles initialUnits Scenario.booted)
    as (H1 & _ & _ & _ & H5 & _).
  - reflexivity.
  - reflexivity.
  - split; [exact H1 | exact H5].
Defined.

(** *** Who shows the error panel, and who leaves the search button disabled *)

(** The render step either completes, and then hides the error panel
    and enables the search button, or throws with the classes and the
    button as they were. *)
Lemma render_panels pg rid loc data s :
  (snd (render pg rid loc data s) = None
   /\ searchBtn_disabled (fst (render pg rid loc data s)) = false
   /\ hidden errorFetchCon (fst (render pg rid loc data s)) = true)
  \/ ((exists e, snd (render pg rid loc data s) = Some e)
      /\ classes (fst (render pg rid loc data s)) = classes s
      /\ searchBtn_disabled (fst (render pg rid loc data s)) = searchBtn_disabled s).
Proof.
  unfold render, setHourlyToToday.
  repeat case_match; simplify_eq; cbv zeta;
    first [ right; split; [eexists; reflexivity|]; split; reflexivity
          | left; split; [reflexivity|]; split; [reflexivity|];
            cbn [fst]; panels; done ].
Qed.

Lemma hidden_showNoResult rid s : hidden errorFetchCon (showNoResult rid s) = true.
Proof. by destruct (showNoResult_effect rid s) as (_ & _ & H & _). Qed.

(** The error panel after a settlement: as before, hidden, or shown by
    the [catch] block of the current invocation. *)
Lemma Resumed_errorPanel pg rid t s s' :
  Resumed pg rid t s s' ->
  hidden errorFetchCon s' = hidden errorFetchCon s
  \/ hidden errorFetchCon s' = true
  \/ (rid = latestRequestId s /\ exists e, pc t = AwaitErrorDelay e).
Proof.
  intros HR. destruct HR.
  - by left.
  - by left.
  - by left.
  - by left.
  - by left.
  - right. left. apply hidden_showNoResult.
  - by left.
  - by left.
  - destruct (render_panels pg rid loc data s) as [(_ & _ & Hh)|(_ & Hc & _)].
    + right. left. by rewrite hidden_finish.
    + left. rewrite hidden_finish. by apply hidden_classes.
  - destruct (render_panels pg rid loc data s) as [(_ & _ & Hh)|(_ & Hc & _)].
    + right. left. by rewrite hidden_suspend.
    + left. rewrite hidden_suspend. by apply hidden_classes.
  - right. right. split; [done|]. by exists e.
Qed.

(** X24: who shows the error panel.  In any state, if an event of the
    page turns the error panel from hidden to shown, the event is a
    settlement for an invocation that is current and has been waiting
    in the delay of its [catch] block: no handler, no call, and no
    superseded invocation ever shows it. *)
Theorem error_panel_only_after_failure pg s e :
  hidden errorFetchCon s = true ->
  hidden errorFetchCon (uiStep pg s e) = false ->
  exists rid r t err,
    e = Fetch (Settle rid r) /\ tasks s !! rid = Some t
    /\ pc t = AwaitErrorDelay err /\ rid = latestRequestId s.
Proof.
  intros Hh Hs.
  assert (Hfetch : forall c l x, hidden errorFetchCon (fetchTodayWeather c l x) = true)
    by (intros c l x; by destruct (fetch_panels c l x) as (? & _)).
  assert (Hsave : forall x,
             hidden errorFetchCon (savePreferences (updateSwitchButton x)) = true).
  { intros x. pose proof (save_chain_facts x) as F. cbv zeta in F.
    by destruct F as (_ & _ & _ & _ & _ & _ & _ & _ & _ & _ & _ & _ & F). }
  destruct e as [e| |date].
  - destruct e as [c l|value| |i j|rid r]; cbn [uiStep step] in Hs.
    + rewrite Hfetch in Hs. discriminate.
    + destruct (searchBtn_disabled s); [congruence|].
      destruct (String.eqb value ""); [congruence|].
      unfold andThen in Hs. rewrite Hfetch in Hs. discriminate.
    + unfold andThen in Hs. rewrite Hfetch in Hs. discriminate.
    + destruct (sections s !! i) as [sec|]; [|congruence].
      case_bool_decide; [|congruence].
      unfold andThen in Hs. rewrite Hsave in Hs. discriminate.
    + destruct (tasks s !! rid) as [t|] eqn:Ht; [|congruence].
      destruct (Resumed_errorPanel pg rid t s _ (resume_shape pg rid t r s))
        as [H|[H|(Hrid & err & Hp)]]; [congruence..|].
      by exists rid, r, t, err.
  - cbn [uiStep] in Hs. unfold switchClick in Hs.
    destruct (retargetAll _ (sections s)) as [secs [|]].
    + unfold andThen in Hs. rewrite Hsave in Hs. discriminate.
    + change (hidden errorFetchCon s = false) in Hs. congruence.
  - cbn [uiStep] in Hs. unfold menuClick in Hs.
    destruct (lastWeatherData s) as [d|]; [|cbn in Hs; congruence].
    destruct (hourly d); cbn [fst] in Hs; [|congruence].
    rewrite hidden_remove_other in Hs by discriminate. congruence.
Qed.

Lemma error_panel_only_after_failure_witness :
  let s := run Scenario.page [Settle 1 (FetchFulfilled false 500)] Scenario.booted in
  exists rid r t err,
    Fetch (Settle 1 TimerFired) = Fetch (Settle rid r) /\ tasks s !! rid = Some t
    /\ pc t = AwaitErrorDelay err /\ rid = latestRequestId s.
Proof.
  apply (error_panel_only_after_failure Scenario.page).
  - vm_compute. reflexivity.
  - vm_compute. reflexivity.
Defined.

Lemma inFlight_keep s s' :
  searchBtn_disabled s' = searchBtn_disabled s ->
  latestRequestId s' = latestRequestId s ->
  (is_Some (tasks s !! latestRequestId s) -> is_Some (tasks s' !! latestRequestId s)) ->
  (searchBtn_disabled s = true -> is_Some (tasks s !! latestRequestId s)) ->
  searchBtn_disabled s' = true -> is_Some (tasks s' !! latestRequestId s').
Proof. intros Eb El Ht H Hb. rewrite El. apply Ht, H. by rewrite <- Eb. Qed.

Lemma suspend_keeps rid t p x s k :
  tasks x = tasks s -> tasks s !! rid = Some t ->
  is_Some (tasks s !! k) -> is_Some (tasks (suspend rid t p x) !! k).
Proof.
  intros Ex Ht Hk. unfold suspend. cbn [tasks set_tasks].
  destruct (decide (rid = k)) as [->|Hne].
  - rewrite lookup_insert_eq. by eexists.
  - rewrite lookup_insert_ne by done. by rewrite Ex.
Qed.

Lemma finish_keeps rid x s k :
  tasks x = tasks s -> rid <> k ->
  is_Some (tasks s !! k) -> is_Some (tasks (finish rid x) !! k).
Proof.
  intros Ex Hne Hk. unfold finish. cbn [tasks set_tasks].
  rewrite lookup_delete_ne by done. by rewrite Ex.
Qed.

Lemma searchBtn_finish rid s :
  searchBtn_disabled (finish rid s) = searchBtn_disabled s.
Proof. reflexivity. Qed.

Lemma searchBtn_showNoResult rid s : searchBtn_disabled (showNoResult rid s) = false.
Proof. reflexivity. Qed.

Lemma inFlight_resumed pg rid t s s' :
  tasks s !! rid = Some t -> Resumed pg rid t s s' ->
  (searchBtn_disabled s = true -> is_Some (tasks s !! latestRequestId s)) ->
  searchBtn_disabled s' = true -> is_Some (tasks s' !! latestRequestId s').
Proof.
  intros Ht HR H. destruct HR.
  - exact H.
  - apply (inFlight_keep s); [reflexivity..| |exact H]. by apply suspend_keeps.
  - apply (inFlight_keep s); [reflexivity..| |exact H]. by apply suspend_keeps.
  - apply (inFlight_keep s); [reflexivity..| |exact H]. by apply finish_keeps.
  - apply (inFlight_keep s); [reflexivity..| |exact H]. by apply suspend_keeps.
  - rewrite searchBtn_showNoResult. discriminate.
  - apply (inFlight_keep s); [reflexivity..| |exact H]. by apply suspend_keeps.
  - apply (inFlight_keep s); [reflexivity..| |exact H]. by apply suspend_keeps.
  - destruct (render_panels pg rid loc data s) as [(_ & Hb & _)|([e He] & _)];
      [|congruence].
    rewrite searchBtn_finish, Hb. discriminate.
  - destruct (render_panels pg rid loc data s) as [(Hn & _)|(_ & _ & Hb)];
      [congruence|].
    destruct (render_frame pg rid loc data s) as (_ & _ & R3 & R4 & _).
    apply (inFlight_keep s); [exact Hb | exact R3 | | exact H].
    by apply suspend_keeps.
  - destruct (errorPanel_facts rid e s) as (_ & _ & _ & Hb & _).
    rewrite Hb. discriminate.
Qed.

(** A handler or a call either issues a request, or leaves the search
    button as it is. *)
Lemma button_other pg s e :
  (forall rid r, e <> Fetch (Settle rid r)) ->
  latestRequestId (uiStep pg s e) = latestRequestId s + 1
  \/ searchBtn_disabled (uiStep pg s e) = searchBtn_disabled s.
Proof.
  intros Hns.
  assert (Hfetch : forall c l x,
             latestRequestId (fetchTodayWeather c l x) = latestRequestId x + 1)
    by (intros c l x; by destruct (fetchTodayWeather_effect c l x) as (_ & ? & _)).
  assert (Hsave : forall x,
             latestRequestId (savePreferences (updateSwitchButton x))
             = latestRequestId x + 1).
  { intros x. pose proof (save_chain_facts x) as F. cbv zeta in F.
    by destruct F as (_ & _ & _ & F & _). }
  destruct e as [e| |date].
  - destruct e as [c l|value| |i j|rid r]; cbn [uiStep step].
    + left. apply Hfetch.
    + destruct (searchBtn_disabled s) eqn:Hb; [right; by rewrite Hb|].
      destruct (String.eqb value ""); [right; by rewrite Hb|].
      left. unfold andThen. by rewrite Hfetch.
    + left. unfold andThen. by rewrite Hfetch.
    + destruct (sections s !! i) as [sec|]; [|by right].
      case_bool_decide; [|by right]. left. unfold andThen. by rewrite Hsave.
    + by destruct (Hns rid r).
  - cbn [uiStep]. unfold switchClick.
    destruct (retargetAll _ (sections s)) as [secs [|]]; [|by right].
    left. unfold andThen. by rewrite Hsave.
  - right. cbn [uiStep]. unfold menuClick.
    destruct (lastWeatherData s) as [d|]; [|done]. by destruct (hourly d).
Qed.

Lemma other_cases pg s e :
  (forall rid r, e <> Fetch (Settle rid r)) ->
  issued s (uiStep pg s e) \/ idle s (uiStep pg s e).
Proof.
  intros Hns. destruct e as [e| |date].
  - apply step_other. intros rid r ->. by destruct (Hns rid r).
  - apply switchClick_other.
  - right. apply menuClick_idle.
Qed.

Lemma inFlight_step pg s e :
  (searchBtn_disabled s = true -> is_Some (tasks s !! latestRequestId s)) ->
  searchBtn_disabled (uiStep pg s e) = true ->
  is_Some (tasks (uiStep pg s e) !! latestRequestId (uiStep pg s e)).
Proof.
  intros H.
  assert (Hcase : (exists rid r, e = Fetch (Settle rid r))
                  \/ forall rid r, e <> Fetch (Settle rid r)).
  { destruct e as [[c l|value| |i j|rid r]| |date];
      [right; discriminate..|left; by exists rid, r|right; discriminate|right; discriminate]. }
  destruct Hcase as [(rid & r & ->)|Hns'].
  - cbn [uiStep step]. destruct (tasks s !! rid) as [t|] eqn:Ht; [|exact H].
    eapply inFlight_resumed; [exact Ht | apply resume_shape | exact H].
  - destruct (other_cases pg s e Hns') as [(c & E1 & E2 & _)|Hi].
    + intros _. rewrite E1, E2, lookup_insert_eq. by eexists.
    + destruct Hi as [(_ & E2 & _ & E4 & _) _].
      destruct (button_other pg s e Hns') as [El|Eb]; [lia|].
      rewrite Eb, E2, E4. exact H.
Qed.

(** X25: the search button is never left disabled.  In every state the
    page can reach, if the search button is disabled then the current
    request is still in flight: every way the current invocation can
    return (the rendered page, the no-result panel, the error panel)
    enables the button, and whatever supersedes a search is in flight
    itself. *)
Theorem disabled_search_has_request_in_flight pg s :
  reachable pg s ->
  searchBtn_disabled s = true ->
  exists t, tasks s !! latestRequestId s = Some t.
Proof.
  intros (stored & markup & dropdown & evs & ->).
  assert (H0 : searchBtn_disabled (initialise (loaded stored markup dropdown)) = true ->
               is_Some (tasks (initialise (loaded stored markup dropdown))
                          !! latestRequestId (initialise (loaded stored markup dropdown)))).
  { intros _.
    destruct (initialise_issued (loaded stored markup dropdown)) as [(c & E1 & E2 & _) _].
    rewrite E1, E2, lookup_insert_eq. by eexists. }
  revert H0. generalize (initialise (loaded stored markup dropdown)).
  induction evs as [|e evs IH]; intros s H; [exact H|].
  cbn [uiRun fold_left]. apply IH. by apply inFlight_step.
Qed.

Lemma disabled_search_has_request_in_flight_witness :
  exists t,
    tasks (uiRun Scenario.page [Fetch (SearchClick "Paris")] Scenario.booted)
      !! latestRequestId
           (uiRun Scenario.page [Fetch (SearchClick "Paris")] Scenario.booted)
    = Some t.
Proof.
  apply (disabled_search_has_request_in_flight Scenario.page).
  - exists None, ∅, (sectionsOf initialUnits), [Fetch (SearchClick "Paris")].
    reflexivity.
  - reflexivity.
Defined.

End ReachFacts.
